(* ===== verification/_CoqProject ===== *)
-Q . S2P
Prelude.v
Struct.v
PyFile.v
ItcModel.v
ItcRead.v
ReadInv.v
ItcWrite.v
Findings.v
RoundTrip.v
Zlib.v
Png.v
Console.v
Export.v
Pipeline.v
Cli.v
