(* ===== verification/Prelude.v ===== *)
(** * A verification library for [itc.py], the iTunes artwork-cache codec

    The program ([src/scripts/itc.py], Python 2) reads and writes the
    ".itc" containers in which iTunes keeps cover art.  It has four parts:

    - the container model: class [ITCFile] (lines 94-375), whose object
      keeps [filename], [library], [track], the list [images] of 6-tuples
      [(width, height, data, format, method, data_size)], the layout
      variant [image_offset] (208 = [ITUNES_9], 216 = [ITUNES_OLD]), the
      [info_preamble] bytes captured by the last item frame, and the open
      read/write streams [_rs] and [_ws];
    - the reader: [read] loops over [_read_frame], which dispatches the
      frame tags "itch", "artw" and "item" through [_handle_frame] to
      [_parse_itch], [_parse_artw] and [_parse_item];
    - the writer: [write] emits a fixed 284-byte root header and one
      "item" frame per image through [_write_image]; [add_image] appends a
      JPEG or PNG file; [_ImageData] is the list proxy on the payloads;
    - the exporter: [export_image] and [_export_image_data] write each
      payload to a file, re-encoding raw ARGB pixels as PNG through the
      class [EasyPNG] (lines 41-91), which calls zlib's [crc32] and
      [compressobj].

    The command-line block (lines 377-451) parses options, expands
    globs, and for each matched file lists, adds to or exports the
    container, printing what it does; it is modelled from [sys.argv]
    on, with the option parser and [glob.glob] as interfaces.

    ** Layout of the development

    - [Prelude] (this file): the Python exceptions the code raises, a
      state-exception monad [M S A] in which every method is a state
      transformer of its object (an exception keeps the state at the
      point where it was raised, as Python keeps the partly mutated
      [self]), its notation in [itc_scope], the hint databases [itc],
      [itc_run] and [preserve], the invariant calculus [preserves] with
      its tactic [solve_preserves], Python's negative indexing
      [py_index], and the list lemmas shared by the proofs.
    - [Struct]: Python's [struct] module for the format codes the program
      uses ([!L], [!I], [!Q], [!B], [!l], [Ns]): big-endian encoding of
      w-bit integers with its range check (out of range is
      [struct.error]), decoding, and the round-trip and bound lemmas.
    - [PyFile]: a Python 2 file object opened on a byte string: [read n]
      (short at end of file, everything when [n < 0]), [seek] with
      [SEEK_SET]/[SEEK_CUR] ([IOError] on a negative position), [tell].
    - [ItcModel]: the data of [ITCFile] (the image tuple, the format and
      method strings as inductive types, the object as a record), its
      streams as operations of the object, and the wire tags.
    - [ItcRead]: [_read_frame], [_handle_frame] (with its handler table
      [_HANDLER]), [_parse_itch], [_parse_artw], [_parse_item] and its
      helpers, the loop of [read], and [can_handle]; then the byte layout
      of item frames and the decoding theorems.
    - [ReadInv]: invariants of the reader for every input and outcome.
      Section [ReaderInvariant] proves once that the frame loop keeps any
      predicate its primitive steps keep; the instances are the typing of
      the records, the stability of the ids, and the progress measure of
      the loop.
    - [ItcWrite]: [write], [_write_image], [add_image] (with Python's
      [os.path.splitext] and [str.lower]) and [_ImageData]; then what the
      writer emits.
    - [Findings]: behaviours the spec does not describe or contradicts,
      each proved for every container of its kind, or for every fuel
      on a crafted input.
    - [RoundTrip]: the writer's output read back by the reader.
    - [Zlib]: [zlib.crc32] (bitwise CRC-32, signed as Python 2 returns
      it), Adler-32, and the compressor as the class [Zlib] whose law is
      that decompression inverts compression; [stored_zlib] is the
      level-0 instance (stored deflate blocks) with its proof.
    - [Png]: class [EasyPNG] (its state: the compression level and the
      bytes written to its file), every method, a reference definition
      of the RGBA scanlines, and a PNG decoder used as the specification
      of what [write] produces.
    - [Console]: the world the exporter and the script act on, a
      [script] record of the file system (a [gmap] from names to
      contents) and the console (the list of lines printed, each an
      [event] with the printed values); [say] is the exporter's
      [if not self.quiet: print(...)].
    - [Export]: [export_image] and [_export_image_data] on a [script]:
      the files written and the progress lines printed unless quiet; the
      names use Python's ['%s-%02d'] formatting.
    - [Pipeline]: the command line's extraction path, the composition of
      [read] and [export_image(all_=True)], and its add path, the
      composition of [read], [add_image] and [write].
    - [Cli]: the command-line block itself: the options as a record, the
      [Console.script] as the state, shared with the exporter,
      [SystemExit] and uncaught exceptions as outcomes; Python's [int],
      [str.split], [os.path.split] and [os.path.join] written out.

    ** What the theorems show

    - Reader: [ItcRead.parse_item_decodes] gives the effect of
      [_parse_item] on a well-formed item frame; [ItcRead.read_wellformed]
      shows that [read] terminates on any well-formed container and
      returns one image per item frame, in order;
      [ReadInv.read_images_typed] shows that whatever the input and
      however [read] ends, the records have 32-bit dimensions and a
      payload exactly in full mode; [ReadInv.read_loop_settled] that ids
      once set never change and records are only appended;
      [ReadInv.read_loop_live] that the loop ends (returns or raises a
      frame's exception, never runs out of passes) within
      [len(file) + 1] passes whenever every frame moves the stream
      forward;
      [Findings.read_modes_agree] that both modes agree on well-formed
      containers.
    - Writer: [ItcWrite.write_emits_frames] gives the exact bytes
      [write] emits; [ItcWrite.write_image_atomic] shows that every
      exception of [_write_image] happens before it writes anything.
    - Round trip: [RoundTrip.write_read_roundtrip]: for the [ITUNES_9]
      variant, writing the object and reading the file back gives back
      the image list (with 'JPG' renamed 'JPEG' and 'ARGB' not
      recognised), the ids and the variant.
    - Encoder: [Png.write_argb_data_scanlines] proves the pixel loop
      equal to the reference scanlines; [Png.png_write_decodes] is the
      refinement statement: for any zlib instance, the file [write]
      produces decodes to the image's dimensions and pixels;
      [Png.png_write_short_buffer] and [Png.png_write_dims_range] give
      its exceptions.
    - Exporter: [Export.export_all_files] shows that exporting all
      images writes one distinct file per image with its payload (PNG
      for ARGB), touches no other file, and prints the progress lines
      unless quiet; the index checks, the
      [TypeError] after a metadata-only read and the missing extension of
      added JPEGs are stated on their own; [Pipeline.cli_extract_files]
      composes reader and exporter, and [Pipeline.cli_add_appends] shows
      that adding a PNG through the command line writes a container whose
      read-back is the old records followed by the new image.
    - Command line: [Cli.cli_add_refines] and [Cli.cli_export_refines]
      show that the script's add and export paths are the compositions
      of [Pipeline]; [Cli.cli_list_container] gives the listing of a
      well-formed container; [Cli.cli_number_never_crashes] that [-n]
      catches every export error (with [-q] printing at most one line)
      and [Cli.cli_number_exports] that [-n k] exports image [k];
      [Cli.script_main_literal] that plain file names are processed as
      named, missing ones skipped; the error paths (several files with [-a], a bad
      IMGSPEC, an empty container, [-n -1], no argument, one container
      named twice with [-a]) are stated on their own.
    - Findings: see [Findings], [RoundTrip.old_variant_shifts_payload]
      and the findings of the manifest.

    ** Fuel and bounds

    Python's [while not done] loop in [read] and the recursion
    [_parse_itch] -> [_handle_frame] are modelled with one fuel argument
    each ([read_loop] counts iterations, [handle_frame] nesting depth);
    running out yields the pseudo-exception [OutOfFuel], which is not a
    Python exception.  [read fname c lo fuel] runs the loop with [fuel]
    iterations and nesting depth [fuel]; on well-formed containers
    [2 + number of item frames] suffices (one iteration for the root
    frame, one per item frame, one that sees the end of the file);
    [ReadInv.read_loop_live] shows that [len(file) + 1] iterations
    suffice whenever frames make progress, and
    [Findings.read_never_terminates] that no fuel suffices on a crafted
    48-byte input.  [Zlib.stored_blocks] takes the data length as its
    bound on the number of blocks, which is always enough.  Integers are
    kept as [Z] with the range checks of [struct] written out.

    ** Not modelled

    [OptionParser]'s syntax (the parser is a parameter of
    [Cli.script_main] and the options a record), the text of its help
    message, and [glob.glob]'s wildcard matching and listing order (the
    class [Cli.Glob] states the two properties the theorems use): library
    code the sources only call; directories, and the [IOError] of
    [open(name, 'wb')] in a directory that does not exist (the file
    system is a map from names to contents, where every name can be
    written);
    [write]'s own file is the object's [ws], which [Cli] stores in the
    file system; deflate with Huffman coding (the encoder's
    theorems hold for every instance of [Zlib], and the program only
    asks for level 0, [EasyPNG()]'s default, whose stored blocks
    [stored_zlib] writes out; the block sizes zlib itself picks for
    inputs over 64 KiB are not modelled); the imports and the version
    string (lines 21-30), and the [enum] helper (lines 32-33), whose
    one use, [EasyPNG]'s [color_type], is the constant
    [truecolor_alpha] of [Png]. *)

From stdpp Require Export base list strings.
From Stdlib Require Export ZArith Lia Strings.Byte.

Declare Scope itc_scope.
Delimit Scope itc_scope with itc.

(** ** Python exceptions raised by the code *)

(** The messages of [ITCException] (lines 143, 158, 189, 198). *)
Inductive itc_error :=
| NoFilename      (** [write()] without a filename *)
| BadExtension    (** [add_image] on neither .jpg nor .png *)
| BadFormat       (** [_write_image] on a format other than PNG/JPG/ARGB *)
| BadMethod.      (** [_write_image] on a method other than local/download *)

(** The messages of [ITCWarning] (lines 175, 297, 306); in Python a
    [Warning] raised with [raise] is an exception like any other. *)
Inductive itc_warning :=
| NoImageData
| MultipleLibrary
| MultipleTrack.

Inductive exc :=
| StructError                    (** [struct.error] *)
| IOError                        (** seek to a negative position *)
| ITCException (m : itc_error)
| ITCWarning (w : itc_warning)
| IndexError
| TypeError
| AttributeError                 (** [self.info_preamble] never set *)
| ValueError                     (** [int(s)] on a malformed [s], a bad unpacking *)
| SystemExit                     (** [sys.exit()] *)
| OutOfFuel.                     (** the model's fuel ran out *)

#[export] Instance itc_error_eq_dec : EqDecision itc_error.
Proof. solve_decision. Defined.
#[export] Instance itc_warning_eq_dec : EqDecision itc_warning.
Proof. solve_decision. Defined.
#[export] Instance exc_eq_dec : EqDecision exc.
Proof. solve_decision. Defined.

(** ** A state-exception monad *)

Inductive result (S A : Type) : Type :=
| Ok (a : A) (s : S)
| Exc (e : exc) (s : S).
Arguments Ok {S A} a s.
Arguments Exc {S A} e s.

Definition M (S A : Type) : Type := S -> result S A.

Definition ret {S A} (a : A) : M S A := fun s => Ok a s.

Definition bind {S A B} (m : M S A) (k : A -> M S B) : M S B :=
  fun s => match m s with
           | Ok a s' => k a s'
           | Exc e s' => Exc e s'
           end.

Definition raise {S A} (e : exc) : M S A := fun s => Exc e s.

Definition gets {S A} (f : S -> A) : M S A := fun s => Ok (f s) s.

Definition modify {S} (f : S -> S) : M S unit := fun s => Ok tt (f s).

(** A computation that raises [e] where the option is [None]. *)
Definition of_option {S A} (e : exc) (o : option A) : M S A :=
  match o with Some a => ret a | None => raise e end.

Notation "x <- m ;; k" := (bind m (fun x => k))
  (at level 100, m at next level, k at level 200, right associativity) : itc_scope.
Notation "m ;; k" := (bind m (fun _ : unit => k))
  (at level 100, k at level 200, right associativity) : itc_scope.

Open Scope itc_scope.

(** [try: m except Exception: h(e)]: the handler runs on the state the
    exception left; [SystemExit] (not an [Exception]) and the model's
    [OutOfFuel] pass through. *)
Definition try_except {S A} (m : M S A) (h : exc -> M S A) : M S A :=
  fun s => match m s with
           | Ok a s' => Ok a s'
           | Exc e s' => if decide (e = SystemExit \/ e = OutOfFuel) then Exc e s' else h e s'
           end.

(** [for x in xs: body(x)], stopping at the first exception. *)
Fixpoint for_each {S A} (xs : list A) (body : A -> M S unit) : M S unit :=
  match xs with
  | [] => ret tt
  | x :: xs' => body x ;; for_each xs' body
  end.

(** ** Run lemmas of the monad *)

Section Run.
Context {S A B : Type}.

Lemma bind_Ok (m : M S A) (k : A -> M S B) s a s' :
  m s = Ok a s' -> bind m k s = k a s'.
Proof. intros H. unfold bind. by rewrite H. Qed.

Lemma bind_Exc (m : M S A) (k : A -> M S B) s e s' :
  m s = Exc e s' -> bind m k s = Exc e s'.
Proof. intros H. unfold bind. by rewrite H. Qed.

Lemma bind_ret (a : A) (k : A -> M S B) s : bind (ret a) k s = k a s.
Proof. reflexivity. Qed.

Lemma bind_raise e (k : A -> M S B) s : bind (raise e) k s = Exc e s.
Proof. reflexivity. Qed.

Lemma bind_assoc (m : M S A) {C} (k : A -> M S B) (h : B -> M S C) s :
  bind (bind m k) h s = bind m (fun a => bind (k a) h) s.
Proof. unfold bind. by destruct (m s). Qed.

Lemma bind_gets (g : S -> A) (h : A -> M S B) s : bind (gets g) h s = h (g s) s.
Proof. done. Qed.

Lemma bind_modify (g : S -> S) (k : unit -> M S B) s : bind (modify g) k s = k tt (g s).
Proof. done. Qed.

Lemma bind_of_option_Some e (a : A) (h : A -> M S B) s : bind (of_option e (Some a)) h s = h a s.
Proof. done. Qed.

Lemma bind_of_option_None e (h : A -> M S B) s : bind (of_option e None) h s = Exc e s.
Proof. done. Qed.
End Run.

Lemma for_each_app {S A} (xs ys : list A) (body : A -> M S unit) s :
  for_each (xs ++ ys) body s = bind (for_each xs body) (fun _ => for_each ys body) s.
Proof.
  revert s. induction xs as [|x xs IH]; intros s; [done|].
  simpl. unfold bind at 1 2 3. destruct (body x s); [apply IH|done].
Qed.

(** A loop whose body appends to a list state. *)
Section ForEachEmit.
Context {T A : Type} (body : A -> M (list T) unit) (out : A -> list T).

Lemma for_each_emit xs d :
  (forall x, x ∈ xs -> forall d, body x d = Ok tt (d ++ out x)) ->
  for_each xs body d = Ok tt (d ++ concat (map out xs)).
Proof.
  revert d. induction xs as [|x xs IH]; intros d Hb; cbn; [by rewrite app_nil_r|].
  erewrite bind_Ok by (apply Hb; left). rewrite IH, app_assoc; [done|].
  intros y Hy. apply Hb. by right.
Qed.

(** The first body that raises ends the loop with its exception. *)
Lemma for_each_emit_raise xs x0 ys e d :
  (forall x, x ∈ xs -> forall d, body x d = Ok tt (d ++ out x)) ->
  (forall d, exists d', body x0 d = Exc e d') ->
  exists d', for_each (xs ++ x0 :: ys) body d = Exc e d'.
Proof.
  intros Hb Hx. rewrite for_each_app. erewrite bind_Ok by (by apply for_each_emit).
  destruct (Hx (d ++ concat (map out xs))) as [d' Hd']. exists d'. cbn.
  by erewrite bind_Exc.
Qed.
End ForEachEmit.

(** ** Invariants of computations *)

(** The state a computation ends in, whether it returned or raised. *)
Definition state_of {S A} (r : result S A) : S :=
  match r with Ok _ s => s | Exc _ s => s end.

(** [m] keeps [P]: from a state satisfying [P] it ends, returning or
    raising, in a state satisfying [P]. *)
Definition preserves {S A} (P : S -> Prop) (m : M S A) : Prop :=
  forall s, P s -> P (state_of (m s)).

Section Preserves.
Context {S : Type} (P : S -> Prop).

Lemma preserves_ret {A} (a : A) : preserves P (ret a).
Proof. by intros s. Qed.

Lemma preserves_raise {A} e : preserves P (@raise S A e).
Proof. by intros s. Qed.

Lemma preserves_gets {A} (f : S -> A) : preserves P (gets f).
Proof. by intros s. Qed.

Lemma preserves_of_option {A} e (o : option A) : preserves P (of_option e o).
Proof. by destruct o; intros s. Qed.

Lemma preserves_modify (f : S -> S) : (forall s, P s -> P (f s)) -> preserves P (modify f).
Proof. intros Hf s. apply Hf. Qed.

Lemma preserves_bind {A B} (m : M S A) (k : A -> M S B) :
  preserves P m -> (forall a, preserves P (k a)) -> preserves P (bind m k).
Proof.
  intros Hm Hk s Hs. specialize (Hm s Hs). unfold bind.
  destruct (m s) as [a s'|e s']; [by apply Hk | done].
Qed.

(** A [struct.unpack] step, with the value it decoded. *)
Lemma preserves_bind_of_option {A B} e (o : option A) (k : A -> M S B) :
  (forall a, o = Some a -> preserves P (k a)) -> preserves P (bind (of_option e o) k).
Proof. intros Hk. destruct o as [a|]; [by apply Hk | by intros s]. Qed.

(** A loop keeps what each pass keeps. *)
Lemma preserves_for_each {A} (xs : list A) (body : A -> M S unit) :
  (forall x, preserves P (body x)) -> preserves P (for_each xs body).
Proof.
  intros Hb. induction xs as [|x xs IH]; [apply preserves_ret|].
  by apply preserves_bind.
Qed.

(** An invariant that also holds of every returned value. *)
Lemma preserves_Ok {A} (m : M S A) s a s' : preserves P m -> P s -> m s = Ok a s' -> P s'.
Proof. intros Hm Hs E. specialize (Hm s Hs). by rewrite E in Hm. Qed.
End Preserves.

Create HintDb preserve discriminated.
#[export] Hint Resolve preserves_ret preserves_raise preserves_gets preserves_of_option : preserve.

(** Splits a [preserves] goal along the binds, conditionals and matches
    of the computation; what is left are the primitive steps. *)
Ltac preserves_step :=
  match goal with
  | |- preserves _ _ => solve [eauto with preserve]
  | |- preserves _ (bind (of_option _ _) _) => apply preserves_bind_of_option; intros ? ?
  | |- preserves _ (bind _ _) => apply preserves_bind; [|intros ?]
  | |- preserves _ (modify _) => apply preserves_modify; intros ? ?
  | |- preserves _ (for_each _ _) => apply preserves_for_each; intros ?
  | |- preserves _ _ => case_match
  | |- _ => solve [eauto with preserve]
  end.

Ltac solve_preserves := repeat preserves_step.

(** ** The exceptions a computation may raise *)

(** Every exception [m] raises satisfies [P]. *)
Definition raises_only {S A} (P : exc -> Prop) (m : M S A) : Prop :=
  forall s e s', m s = Exc e s' -> P e.

Section RaisesOnly.
Context {S : Type} (P : exc -> Prop).

Lemma raises_ret {A} (a : A) : raises_only P (@ret S A a).
Proof. by intros s e s' [=]. Qed.

Lemma raises_raise {A} e : P e -> raises_only P (@raise S A e).
Proof. by intros He s e' s' [= <- _]. Qed.

Lemma raises_gets {A} (f : S -> A) : raises_only P (gets f).
Proof. by intros s e s' [=]. Qed.

Lemma raises_modify (f : S -> S) : raises_only P (modify f).
Proof. by intros s e s' [=]. Qed.

Lemma raises_of_option {A} e (o : option A) : P e -> raises_only P (@of_option S A e o).
Proof. intros He. destruct o; [exact (raises_ret _) | exact (raises_raise e He)]. Qed.

Lemma raises_bind {A B} (m : M S A) (k : A -> M S B) :
  raises_only P m -> (forall a, raises_only P (k a)) -> raises_only P (bind m k).
Proof.
  intros Hm Hk s e s'. unfold bind. destruct (m s) eqn:E; [apply Hk|]. intros [= <- _]. by eapply Hm.
Qed.

Lemma raises_for_each {A} (xs : list A) (body : A -> M S unit) :
  (forall x, raises_only P (body x)) -> raises_only P (for_each xs body).
Proof. intros Hb. induction xs; [apply raises_ret | by apply raises_bind]. Qed.
End RaisesOnly.

(** A Python exception that [except Exception] catches. *)
Definition py_exc (e : exc) : Prop := e <> SystemExit /\ e <> OutOfFuel.

Create HintDb raises discriminated.
#[export] Hint Resolve raises_ret raises_gets raises_modify raises_for_each : raises.

(** Splits a [raises_only] goal along the binds and conditionals; the
    raised exceptions are left as goals [P e]. *)
Ltac raises_step :=
  match goal with
  | |- raises_only _ _ => solve [eauto with raises]
  | |- raises_only _ (bind _ _) => apply raises_bind; [|intros ?]
  | |- raises_only _ (raise _) => apply raises_raise
  | |- raises_only _ (of_option _ _) => apply raises_of_option
  | |- raises_only _ (for_each _ _) => apply raises_for_each; intros ?
  | |- raises_only _ _ => case_match
  end.

Ltac solve_raises := repeat raises_step.

(** ** Python sequences *)

Section PySeq.
Local Open Scope Z_scope.

(** Python's [lst[i]]: negative indices count from the end. *)
Definition py_index {A} (l : list A) (i : Z) : option A :=
  let n := Z.of_nat (length l) in
  let j := if i <? 0 then i + n else i in
  if (0 <=? j) && (j <? n) then l !! Z.to_nat j else None.

Lemma py_index_nonneg {A} (l : list A) (i : Z) :
  0 <= i < Z.of_nat (length l) -> py_index l i = l !! Z.to_nat i.
Proof.
  intros Hi. unfold py_index.
  destruct (Z.ltb_spec i 0); [lia|]. destruct (Z.leb_spec 0 i), (Z.ltb_spec i (Z.of_nat (length l))); [done|lia..].
Qed.

Lemma py_index_high {A} (l : list A) (i : Z) :
  Z.of_nat (length l) <= i -> py_index l i = None.
Proof.
  intros Hi. unfold py_index.
  destruct (Z.ltb_spec i 0); [lia|]. destruct (Z.leb_spec 0 i), (Z.ltb_spec i (Z.of_nat (length l))); [lia|done..].
Qed.

End PySeq.

Create HintDb itc discriminated.
Create Rewrite HintDb itc_run.
#[export] Hint Rewrite @bind_ret @bind_raise : itc_run.

(** ** Lists of bytes *)

Abbreviation bytes := (list byte).

#[export] Instance byte_eq_dec : EqDecision byte := Byte.byte_eq_dec.

(** A Python 2 [str] literal: its bytes. *)
Definition pystr (s : string) : bytes := String.list_byte_of_string s.

(** The bytes read at a known offset of a concatenation. *)
Lemma take_drop_mid {A} (l1 l2 l3 : list A) n :
  n = length l2 -> take n (drop (length l1) (l1 ++ l2 ++ l3)) = l2.
Proof. intros ->. rewrite drop_app_length. apply take_app_length. Qed.

Lemma drop_app_mid {A} (l1 l2 : list A) n :
  n = length l1 -> drop n (l1 ++ l2) = l2.
Proof. intros ->. apply drop_app_length. Qed.

#[export] Hint Rewrite @take_app_length @drop_app_length @length_app
  @length_replicate : itc_run.
