(* ===== verification/Struct.v ===== *)
(** Python's [struct] module, restricted to the format codes of [itc.py]
    in network byte order ([!]): [L] and [I] (4-byte unsigned), [Q]
    (8-byte unsigned), [B] (1 byte), [l] (4-byte signed) and [Ns]
    (a string padded with NULs or truncated to [N] bytes).  Packing a value
    out of range is [struct.error] ([None] here); unpacking needs exactly
    the format's size.  The lemmas give the round trip and the bounds. *)

From S2P Require Import Prelude.

Open Scope Z_scope.

(** ** Bytes and integers *)

Definition Z_of_byte (b : byte) : Z := Z.of_N (Byte.to_N b).

(** The low eight bits of [z]. *)
Definition byte_of_Z (z : Z) : byte :=
  match Byte.of_N (Z.to_N (z mod 256)) with
  | Some b => b
  | None => Byte.x00
  end.

Lemma Z_of_byte_range b : 0 <= Z_of_byte b < 256.
Proof.
  unfold Z_of_byte. pose proof (Byte.to_N_bounded b). lia.
Qed.

Lemma Z_of_byte_of_Z z : Z_of_byte (byte_of_Z z) = z mod 256.
Proof.
  unfold byte_of_Z, Z_of_byte.
  pose proof (Z.mod_pos_bound z 256 ltac:(lia)) as Hb.
  destruct (Byte.of_N _) eqn:E.
  - apply Byte.to_of_N in E. rewrite E. lia.
  - apply Byte.of_N_None_iff in E. lia.
Qed.

Lemma byte_of_Z_of_byte b : byte_of_Z (Z_of_byte b) = b.
Proof.
  unfold byte_of_Z, Z_of_byte. pose proof (Byte.to_N_bounded b).
  rewrite Z.mod_small by lia. rewrite N2Z.id, Byte.of_to_N. done.
Qed.

Lemma Z_of_byte_inj b1 b2 : Z_of_byte b1 = Z_of_byte b2 -> b1 = b2.
Proof.
  intros H. rewrite <- (byte_of_Z_of_byte b1), <- (byte_of_Z_of_byte b2). by f_equal.
Qed.

(** Little-endian split and combine; the big-endian forms reverse them. *)
Fixpoint le_split (n : nat) (z : Z) : bytes :=
  match n with
  | O => []
  | S n' => byte_of_Z z :: le_split n' (z / 256)
  end.

Fixpoint le_combine (l : bytes) : Z :=
  match l with
  | [] => 0
  | b :: l' => Z_of_byte b + 256 * le_combine l'
  end.

Definition be_split (n : nat) (z : Z) : bytes := rev (le_split n z).
Definition be_combine (l : bytes) : Z := le_combine (rev l).

Lemma length_le_split n z : length (le_split n z) = n.
Proof. revert z; induction n; simpl; auto. Qed.

Lemma length_be_split n z : length (be_split n z) = n.
Proof. unfold be_split. by rewrite length_rev, length_le_split. Qed.

Lemma le_combine_split n z : le_combine (le_split n z) = z mod 256 ^ Z.of_nat n.
Proof.
  revert z; induction n as [|n IH]; intros z; simpl.
  - rewrite Z.mod_1_r. done.
  - rewrite IH, Z_of_byte_of_Z.
    rewrite Nat2Z.inj_succ, Z.pow_succ_r by lia.
    rewrite Z.rem_mul_r; lia.
Qed.

Lemma be_combine_split n z : be_combine (be_split n z) = z mod 256 ^ Z.of_nat n.
Proof. unfold be_combine, be_split. rewrite rev_involutive. apply le_combine_split. Qed.

Lemma le_combine_range l : 0 <= le_combine l < 256 ^ Z.of_nat (length l).
Proof.
  induction l as [|b l IH]; simpl; [lia|].
  pose proof (Z_of_byte_range b).
  rewrite Nat2Z.inj_succ, Z.pow_succ_r by lia. lia.
Qed.

Lemma be_combine_range l : 0 <= be_combine l < 256 ^ Z.of_nat (length l).
Proof. unfold be_combine. rewrite <- length_rev. apply le_combine_range. Qed.

Lemma le_split_combine l : le_split (length l) (le_combine l) = l.
Proof.
  induction l as [|b l IH]; simpl; [done|].
  pose proof (Z_of_byte_range b). pose proof (le_combine_range l).
  rewrite (Z.mul_comm 256). f_equal.
  - apply Z_of_byte_inj. rewrite Z_of_byte_of_Z, Z_mod_plus_full.
    apply Z.mod_small. lia.
  - rewrite <- IH at 3. f_equal.
    rewrite Z_div_plus_full by lia. rewrite Z.div_small by lia. lia.
Qed.

(** The encoding of [z] on [n] bytes only depends on [z mod 256^n]. *)
Lemma le_split_mod n z : le_split n (z mod 256 ^ Z.of_nat n) = le_split n z.
Proof. rewrite <- le_combine_split. rewrite <- (length_le_split n z) at 1. apply le_split_combine. Qed.

Lemma be_split_mod n z : be_split n (z mod 256 ^ Z.of_nat n) = be_split n z.
Proof. unfold be_split. by rewrite le_split_mod. Qed.

Lemma be_split_combine l : be_split (length l) (be_combine l) = l.
Proof.
  unfold be_split, be_combine. rewrite <- length_rev, le_split_combine.
  apply rev_involutive.
Qed.

(** ** Packing *)

(** [z] fits in [n] unsigned bytes. *)
Definition in_uint (n : nat) (z : Z) : bool := (0 <=? z) && (z <? 256 ^ Z.of_nat n).

Definition pack_uint (n : nat) (z : Z) : option bytes :=
  if in_uint n z then Some (be_split n z) else None.

Definition pack_L (z : Z) : option bytes := pack_uint 4 z.   (** [L], [I] *)
Definition pack_Q (z : Z) : option bytes := pack_uint 8 z.   (** [Q] *)
Definition pack_B (z : Z) : option bytes := pack_uint 1 z.   (** [B] *)

(** [l]: a signed 32-bit integer in two's complement. *)
Definition pack_l (z : Z) : option bytes :=
  if (- 2 ^ 31 <=? z) && (z <? 2 ^ 31) then Some (be_split 4 z) else None.

(** [Ns]: the string truncated or NUL-padded to [n] bytes. *)
Definition pack_s (n : nat) (s : bytes) : bytes :=
  take n s ++ replicate (n - length s) Byte.x00.

(** One [struct.pack] call: the fields in order, failing if one fails. *)
Fixpoint pack_fields (fs : list (option bytes)) : option bytes :=
  match fs with
  | [] => Some []
  | f :: fs' =>
      match f, pack_fields fs' with
      | Some b, Some r => Some (b ++ r)
      | _, _ => None
      end
  end.

(** ** Unpacking *)

(** [unpack(fmt, s)] needs [len(s)] to be the size of [fmt]. *)
Definition unpack_uint (n : nat) (s : bytes) : option Z :=
  if decide (length s = n) then Some (be_combine s) else None.

Definition unpack_L (s : bytes) : option Z := unpack_uint 4 s.

(** [!LL]: two 4-byte unsigned integers. *)
Definition unpack_LL (s : bytes) : option (Z * Z) :=
  if decide (length s = 8%nat)
  then Some (be_combine (take 4 s), be_combine (drop 4 s)) else None.

(** [!L0004s]: an unsigned size and a 4-byte tag (a frame header). *)
Definition unpack_Ls (s : bytes) : option (Z * bytes) :=
  if decide (length s = 8%nat)
  then Some (be_combine (take 4 s), drop 4 s) else None.

(** [0004s]: a 4-byte tag. *)
Definition unpack_s4 (s : bytes) : option bytes :=
  if decide (length s = 4%nat) then Some s else None.

(** [!QQ0004s0004s]: library id, track id, method tag, format tag. *)
Definition unpack_QQss (s : bytes) : option (Z * Z * bytes * bytes) :=
  if decide (length s = 24%nat)
  then Some (be_combine (take 8 s), be_combine (take 8 (drop 8 s)),
             take 4 (drop 16 s), drop 20 s)
  else None.

(** ** Lemmas *)

Lemma pack_uint_Some n z :
  0 <= z < 256 ^ Z.of_nat n -> pack_uint n z = Some (be_split n z).
Proof.
  intros H. unfold pack_uint, in_uint.
  destruct (Z.leb_spec 0 z), (Z.ltb_spec z (256 ^ Z.of_nat n)); simpl; [done|lia..].
Qed.

Lemma pack_uint_None n z :
  ~ (0 <= z < 256 ^ Z.of_nat n) -> pack_uint n z = None.
Proof.
  intros H. unfold pack_uint, in_uint.
  destruct (Z.leb_spec 0 z), (Z.ltb_spec z (256 ^ Z.of_nat n)); simpl; [lia|done..].
Qed.

Lemma be_combine_split_small n z :
  0 <= z < 256 ^ Z.of_nat n -> be_combine (be_split n z) = z.
Proof. intros H. rewrite be_combine_split. by apply Z.mod_small. Qed.

Lemma unpack_uint_be_split n z :
  0 <= z < 256 ^ Z.of_nat n -> unpack_uint n (be_split n z) = Some z.
Proof.
  intros H. unfold unpack_uint. rewrite length_be_split, decide_True by done.
  by rewrite be_combine_split_small.
Qed.

Lemma unpack_uint_length n s z : unpack_uint n s = Some z -> length s = n.
Proof. unfold unpack_uint. by case_decide. Qed.

Lemma pack_s_length n s : length (pack_s n s) = n.
Proof. unfold pack_s. rewrite length_app, length_take, length_replicate. lia. Qed.

Lemma pack_s_exact s : pack_s (length s) s = s.
Proof. unfold pack_s. rewrite take_ge, Nat.sub_diag by lia. apply app_nil_r. Qed.

Lemma pack_fields_app_Some fs1 fs2 b1 b2 :
  pack_fields fs1 = Some b1 -> pack_fields fs2 = Some b2 ->
  pack_fields (fs1 ++ fs2) = Some (b1 ++ b2).
Proof.
  revert b1. induction fs1 as [|f fs1 IH]; intros b1 H1 H2; simpl in *.
  - by simplify_eq.
  - destruct f as [b|]; [|done]. destruct (pack_fields fs1) as [r|] eqn:E; [|done].
    simplify_eq. by rewrite (IH r), app_assoc.
Qed.

Lemma pack_fields_None fs : None ∈ fs -> pack_fields fs = None.
Proof.
  induction fs as [|f fs IH]; intros Hin; [by apply elem_of_nil in Hin|].
  apply elem_of_cons in Hin as [<-|Hin]; simpl; [done|].
  rewrite IH by done. by destruct f.
Qed.

(** A list of known small length, as the list of its elements. *)
Ltac explode_list l :=
  repeat (destruct l as [|? l]; simpl in *; try lia).

Lemma unpack_LL_app a b :
  length a = 4%nat -> length b = 4%nat ->
  unpack_LL (a ++ b) = Some (be_combine a, be_combine b).
Proof. intros Ha Hb. explode_list a. explode_list b. reflexivity. Qed.

Lemma unpack_Ls_app a t :
  length a = 4%nat -> length t = 4%nat -> unpack_Ls (a ++ t) = Some (be_combine a, t).
Proof. intros Ha Ht. explode_list a. explode_list t. reflexivity. Qed.

Lemma unpack_QQss_app a b m f :
  length a = 8%nat -> length b = 8%nat -> length m = 4%nat -> length f = 4%nat ->
  unpack_QQss (a ++ b ++ m ++ f) = Some (be_combine a, be_combine b, m, f).
Proof.
  intros Ha Hb Hm Hf.
  explode_list a. explode_list b. explode_list m. explode_list f. reflexivity.
Qed.

#[export] Hint Rewrite length_be_split pack_s_length : itc_run.

Arguments be_split : simpl never.
Arguments be_combine : simpl never.
