(* ===== verification/PyFile.v ===== *)
(** A Python 2 file object opened in binary mode on a byte string, as the
    reader and writer of [itc.py] use it: [read(n)] returns at most [n]
    bytes (fewer at end of file, and all remaining bytes when [n] is
    negative), [seek(off, whence)] moves anywhere at or after 0 (past the
    end is allowed, a negative position is [IOError]), [tell()] gives the
    position, and [write(s)] appends to a file opened with mode ['wb']. *)

From S2P Require Import Prelude.

Open Scope Z_scope.

Record stream := mk_stream { s_data : bytes; s_pos : Z }.

(** [open(filename, 'rb')] on a file whose contents are [contents]. *)
Definition open_read (contents : bytes) : stream := mk_stream contents 0.

Definition py_read (n : Z) (s : stream) : bytes * stream :=
  let rest := drop (Z.to_nat (s_pos s)) (s_data s) in
  let chunk := if n <? 0 then rest else take (Z.to_nat n) rest in
  (chunk, mk_stream (s_data s) (s_pos s + Z.of_nat (length chunk))).

Inductive whence := SEEK_SET | SEEK_CUR.

Definition py_seek (off : Z) (w : whence) (s : stream) : option stream :=
  let p := match w with SEEK_SET => off | SEEK_CUR => s_pos s + off end in
  if p <? 0 then None else Some (mk_stream (s_data s) p).

(** ** Reading at a known position *)

Section ReadAt.
Variables (pre chunk post : bytes).

(** Reading [len chunk] bytes where [chunk] starts gives [chunk]. *)
Lemma py_read_at n :
  n = Z.of_nat (length chunk) ->
  py_read n (mk_stream (pre ++ chunk ++ post) (Z.of_nat (length pre))) =
    (chunk, mk_stream (pre ++ chunk ++ post) (Z.of_nat (length pre) + n)).
Proof.
  intros ->. unfold py_read; simpl.
  destruct (Z.ltb_spec (Z.of_nat (length chunk)) 0); [lia|].
  rewrite !Nat2Z.id, take_drop_mid by done. done.
Qed.

Lemma py_seek_cur_at n :
  0 <= n ->
  py_seek n SEEK_CUR (mk_stream (pre ++ chunk ++ post) (Z.of_nat (length pre))) =
    Some (mk_stream (pre ++ chunk ++ post) (Z.of_nat (length pre) + n)).
Proof.
  intros Hn. unfold py_seek; simpl.
  destruct (Z.ltb_spec (Z.of_nat (length pre) + n) 0); [lia|done].
Qed.
End ReadAt.

Lemma py_seek_set_ok d p q : 0 <= q -> py_seek q SEEK_SET (mk_stream d p) = Some (mk_stream d q).
Proof. intros H. unfold py_seek; simpl. destruct (Z.ltb_spec q 0); [lia|done]. Qed.

Lemma py_seek_neg s off w :
  (match w with SEEK_SET => off | SEEK_CUR => s_pos s + off end) < 0 ->
  py_seek off w s = None.
Proof. intros H. unfold py_seek. by apply Z.ltb_lt in H as ->. Qed.

(** At or after the end of the file, [read] returns nothing. *)
Lemma py_read_eof n s :
  Z.of_nat (length (s_data s)) <= s_pos s -> py_read n s = ([], s).
Proof.
  intros H. destruct s as [d p]. unfold py_read; simpl in *.
  rewrite drop_ge by lia. destruct (n <? 0); [|rewrite take_nil];
  simpl; by rewrite Z.add_0_r.
Qed.

(** The bytes returned by [read n], [n >= 0], never exceed [n]. *)
Lemma py_read_length n s :
  0 <= n -> Z.of_nat (length (fst (py_read n s))) <= n.
Proof.
  intros Hn. unfold py_read; simpl. destruct (Z.ltb_spec n 0); [lia|].
  rewrite length_take. lia.
Qed.
