(* ===== verification/ItcModel.v ===== *)
(** The data of class [ITCFile] (src/scripts/itc.py, lines 94-108): the
    two layout variants, the image tuple, the format and method strings
    as inductive types, the object's attributes as a record, and the
    monadic accessors of its read stream [_rs] and write stream [_ws]. *)

From S2P Require Import Prelude Struct PyFile.

Open Scope Z_scope.

(** [ITUNES_9 = 208], [ITUNES_OLD = 216] (lines 24-25). *)
Definition ITUNES_9 : Z := 208.
Definition ITUNES_OLD : Z := 216.

(** The strings stored in slot 3 of an image tuple: ['PNG'], ['JPG']
    (from [add_image]), ['JPEG'] (from the reader), ['ARGB'], and [''] for
    a format tag the reader does not know. *)
Inductive fmt := FmtPNG | FmtJPG | FmtJPEG | FmtARGB | FmtNone.

(** The strings stored in slot 4: ['local'], ['download'], and [''] for a
    method tag the reader does not know. *)
Inductive meth := MLocal | MDownload | MNone.

#[export] Instance fmt_eq_dec : EqDecision fmt.
Proof. solve_decision. Defined.
#[export] Instance meth_eq_dec : EqDecision meth.
Proof. solve_decision. Defined.

(** The tuple [(width, height, data, format, method, data_size)];
    [data] is [None] after a metadata-only read. *)
Record image := mk_image {
  img_width : Z;
  img_height : Z;
  img_data : option bytes;
  img_format : fmt;
  img_method : meth;
  img_size : Z;
}.

(** The attributes of an [ITCFile] object.  [library] and [track] are
    [None] where the code holds the empty string [''];
    [info_preamble] is [None] until an item frame of a known variant sets
    it (reading it before is [AttributeError]).  [rs], [list_only] and
    [ws] are [_rs], [_list_only] and [_ws]. *)
Record itc := mk_itc {
  filename : string;
  library : option Z;
  track : option Z;
  images : list image;
  image_offset : Z;
  quiet : bool;
  info_preamble : option bytes;
  list_only : bool;
  rs : stream;
  ws : bytes;
}.

(** [ITCFile(mode, quiet)] (lines 95-108). *)
Definition ITCFile (mode : Z) (q : bool) : itc :=
  mk_itc "" None None [] mode q None false (open_read []) [].

(** ** Attribute assignments *)

Definition set_filename x f :=
  mk_itc x (library f) (track f) (images f) (image_offset f) (quiet f)
    (info_preamble f) (list_only f) (rs f) (ws f).
Definition set_library x f :=
  mk_itc (filename f) x (track f) (images f) (image_offset f) (quiet f)
    (info_preamble f) (list_only f) (rs f) (ws f).
Definition set_track x f :=
  mk_itc (filename f) (library f) x (images f) (image_offset f) (quiet f)
    (info_preamble f) (list_only f) (rs f) (ws f).
Definition set_images x f :=
  mk_itc (filename f) (library f) (track f) x (image_offset f) (quiet f)
    (info_preamble f) (list_only f) (rs f) (ws f).
Definition set_image_offset x f :=
  mk_itc (filename f) (library f) (track f) (images f) x (quiet f)
    (info_preamble f) (list_only f) (rs f) (ws f).
Definition set_info_preamble x f :=
  mk_itc (filename f) (library f) (track f) (images f) (image_offset f) (quiet f)
    (Some x) (list_only f) (rs f) (ws f).
Definition set_list_only x f :=
  mk_itc (filename f) (library f) (track f) (images f) (image_offset f) (quiet f)
    (info_preamble f) x (rs f) (ws f).
Definition set_rs x f :=
  mk_itc (filename f) (library f) (track f) (images f) (image_offset f) (quiet f)
    (info_preamble f) (list_only f) x (ws f).
Definition set_ws x f :=
  mk_itc (filename f) (library f) (track f) (images f) (image_offset f) (quiet f)
    (info_preamble f) (list_only f) (rs f) x.

(** ** The streams, as operations of the object *)

Definition rs_read (n : Z) : M itc bytes :=
  fun f => let '(c, s') := py_read n (rs f) in Ok c (set_rs s' f).

Definition rs_seek (off : Z) (w : whence) : M itc unit :=
  fun f => match py_seek off w (rs f) with
           | Some s' => Ok tt (set_rs s' f)
           | None => Exc IOError f
           end.

Definition rs_tell : M itc Z := gets (fun f => s_pos (rs f)).

Definition ws_write (b : bytes) : M itc unit := modify (fun f => set_ws (ws f ++ b) f).

(** [struct.unpack] / [struct.pack]: [struct.error] on failure. *)
Definition unpack {A} (o : option A) : M itc A := of_option StructError o.
Definition pack (o : option bytes) : M itc bytes := of_option StructError o.

(** ** Wire tags *)

Definition tag_itch : bytes := pystr "itch".
Definition tag_artw : bytes := pystr "artw".
Definition tag_item : bytes := pystr "item".
Definition tag_data : bytes := pystr "data".
Definition tag_locl : bytes := pystr "locl".
Definition tag_down : bytes := pystr "down".
Definition tag_PNGf : bytes := pystr "PNGf".
Definition tag_ARGb : bytes := pystr "ARGb".
(** ['\x00\x00\x00\x0d'] and ['\x00\x00\x00\x0e']. *)
Definition tag_0d : bytes := [Byte.x00; Byte.x00; Byte.x00; Byte.x0d].
Definition tag_0e : bytes := [Byte.x00; Byte.x00; Byte.x00; Byte.x0e].

Arguments pystr : simpl never.

(** ** Run lemmas of the stream operations *)

Lemma rs_read_run n f :
  rs_read n f = Ok (fst (py_read n (rs f))) (set_rs (snd (py_read n (rs f))) f).
Proof. unfold rs_read. by destruct (py_read n (rs f)). Qed.

Lemma rs_seek_run off w f s' :
  py_seek off w (rs f) = Some s' -> rs_seek off w f = Ok tt (set_rs s' f).
Proof. intros H. unfold rs_seek. by rewrite H. Qed.

Lemma set_rs_rs x y f : set_rs x (set_rs y f) = set_rs x f.
Proof. done. Qed.

Lemma rs_set_rs x f : rs (set_rs x f) = x.
Proof. done. Qed.

#[export] Hint Rewrite set_rs_rs rs_set_rs : itc_run.

(** ** Stepping lemmas on a stream seen as consumed prefix and rest *)

Section Cursor.
Context {B : Type} (k : unit -> M itc B).

Lemma rs_read_app f A x y n :
  rs f = mk_stream (A ++ x ++ y) (Z.of_nat (length A)) ->
  n = Z.of_nat (length x) ->
  rs_read n f = Ok x (set_rs (mk_stream ((A ++ x) ++ y) (Z.of_nat (length (A ++ x)))) f).
Proof.
  intros Hrs ->. rewrite rs_read_run, Hrs, py_read_at by done. simpl.
  by rewrite app_assoc, length_app, Nat2Z.inj_add.
Qed.

(** A read of at least what is left gets the rest of the file. *)
Lemma rs_read_tail f A x n :
  rs f = mk_stream (A ++ x) (Z.of_nat (length A)) -> Z.of_nat (length x) <= n ->
  rs_read n f = Ok x (set_rs (mk_stream (A ++ x) (Z.of_nat (length (A ++ x)))) f).
Proof.
  intros Hrs Hn. rewrite rs_read_run, Hrs. unfold py_read. cbn [s_pos s_data fst snd].
  destruct (Z.ltb_spec n 0); [lia|]. rewrite Nat2Z.id, drop_app_length, take_ge by lia.
  by rewrite length_app, Nat2Z.inj_add.
Qed.

Lemma rs_seek_cur_app f A x y n :
  rs f = mk_stream (A ++ x ++ y) (Z.of_nat (length A)) ->
  n = Z.of_nat (length x) ->
  rs_seek n SEEK_CUR f = Ok tt (set_rs (mk_stream ((A ++ x) ++ y) (Z.of_nat (length (A ++ x)))) f).
Proof.
  intros Hrs ->. apply rs_seek_run. rewrite Hrs, py_seek_cur_at by lia.
  by rewrite app_assoc, length_app, Nat2Z.inj_add.
Qed.

Lemma rs_seek_set_app f A x y q :
  s_data (rs f) = A ++ x ++ y ->
  q = Z.of_nat (length (A ++ x)) ->
  rs_seek q SEEK_SET f = Ok tt (set_rs (mk_stream ((A ++ x) ++ y) (Z.of_nat (length (A ++ x)))) f).
Proof.
  intros Hrs ->. apply rs_seek_run. destruct (rs f) as [d p]; simpl in *; subst.
  rewrite py_seek_set_ok by lia. by rewrite app_assoc.
Qed.

End Cursor.

(** One step of a monadic computation over [itc]: the head action is
    run, by computation or by a stepping lemma whose stream premise is
    discharged by unification. *)
Ltac itc_step :=
  lazymatch goal with
  | |- bind (gets _) _ _ = _ => rewrite bind_gets
  | |- bind (modify _) _ _ = _ => rewrite bind_modify
  | |- bind (ret _) _ _ = _ => rewrite bind_ret
  | |- bind (bind _ _) _ _ = _ => rewrite bind_assoc
  | |- bind (of_option _ (Some _)) _ _ = _ => rewrite bind_of_option_Some
  | |- bind (rs_read _) _ _ = _ =>
      erewrite bind_Ok by (eapply rs_read_app; [first [eassumption | reflexivity] | autorewrite with itc_run; lia])
  | |- bind (rs_seek _ SEEK_CUR) _ _ = _ =>
      erewrite bind_Ok by (eapply rs_seek_cur_app; [first [eassumption | reflexivity] | autorewrite with itc_run; lia])
  end; cbv beta iota zeta.

Lemma length_tag_itch : length tag_itch = 4%nat. Proof. done. Qed.
Lemma length_tag_artw : length tag_artw = 4%nat. Proof. done. Qed.
Lemma length_tag_item : length tag_item = 4%nat. Proof. done. Qed.
Lemma length_tag_data : length tag_data = 4%nat. Proof. done. Qed.

#[export] Hint Rewrite length_tag_itch length_tag_artw length_tag_item length_tag_data : itc_run.
