(* ===== verification/ItcRead.v ===== *)
(** The reader of [ITCFile] (src/scripts/itc.py, lines 121-134 and
    253-339): the frame loop [read] / [_read_frame], the dispatch
    [_handle_frame] on [_HANDLER], the frame handlers [_parse_itch],
    [_parse_artw], [_parse_item], and [can_handle].  Every handler is a
    state transformer of the object in the monad [M itc]. *)

From S2P Require Import Prelude Struct PyFile ItcModel.

Open Scope Z_scope.

(** ** Definitions *)

Inductive handler := HItch | HArtw | HItem.

(** [self._HANDLER] (lines 96-100). *)
Definition HANDLER (frame : bytes) : option handler :=
  if decide (frame = tag_itch) then Some HItch
  else if decide (frame = tag_artw) then Some HArtw
  else if decide (frame = tag_item) then Some HItem
  else None.

(** [_parse_artw] (lines 271-274): skip the 256-byte legacy region. *)
Definition parse_artw (size : Z) : M itc unit := rs_seek 256 SEEK_CUR.

(** [_parse_itch] (lines 266-269); [handle_frame] is [self._handle_frame]. *)
Definition parse_itch (handle_frame : bytes -> Z -> M itc unit) (size : Z) : M itc unit :=
  rs_seek 16 SEEK_CUR ;;
  b <- rs_read 4 ;;
  subframe <- unpack (unpack_s4 b) ;;
  handle_frame subframe size.

(** Lines 309-313. *)
Definition method_of_tag (imethod : bytes) : meth :=
  if decide (imethod = tag_locl) then MLocal
  else if decide (imethod = tag_down) then MDownload
  else MNone.

(** Lines 317-323. *)
Definition format_of_tag (iformat : bytes) : fmt :=
  if decide (iformat = tag_PNGf) then FmtPNG
  else if decide (iformat = tag_0e) then FmtPNG
  else if decide (iformat = tag_0d) then FmtJPEG
  else if decide (iformat = tag_ARGb) then FmtARGB
  else FmtNone.

(** Lines 292-299: the first library id wins, a different one raises. *)
Definition check_library (lib : Z) : M itc unit :=
  cur <- gets library ;;
  match cur with
  | None => modify (set_library (Some lib))
  | Some l => if decide (l = lib) then ret tt else raise (ITCWarning MultipleLibrary)
  end.

(** Lines 301-307, the same rule for the track id. *)
Definition check_track (trk : Z) : M itc unit :=
  cur <- gets track ;;
  match cur with
  | None => modify (set_track (Some trk))
  | Some t => if decide (t = trk) then ret tt else raise (ITCWarning MultipleTrack)
  end.

(** The preamble read of lines 284-287: 16 bytes for [ITUNES_9], 20 for
    [ITUNES_OLD], nothing (and [info_preamble] unchanged) otherwise. *)
Definition read_preamble (off : Z) : M itc unit :=
  if decide (off = ITUNES_9) then p <- rs_read 16 ;; modify (set_info_preamble p)
  else if decide (off = ITUNES_OLD) then p <- rs_read 20 ;; modify (set_info_preamble p)
  else ret tt.

(** [_parse_item] (lines 276-339). *)
Definition parse_item (size : Z) : M itc unit :=
  start <- rs_tell ;;
  b <- rs_read 4 ;;
  off <- unpack (unpack_L b) ;;
  modify (set_image_offset off) ;;
  read_preamble off ;;
  b <- rs_read 24 ;;
  ids <- unpack (unpack_QQss b) ;;
  let '(lib, trk, imethod, iformat) := ids in
  check_library lib ;;
  check_track trk ;;
  let method := method_of_tag imethod in
  let format := format_of_tag iformat in
  rs_seek 4 SEEK_CUR ;;
  b <- rs_read 8 ;;
  wh <- unpack (unpack_LL b) ;;
  let image_pos := start + off - 8 in
  rs_seek image_pos SEEK_SET ;;
  let data_size := size - off in
  lo <- gets list_only ;;
  data <- (if lo then rs_seek data_size SEEK_CUR ;; ret None
           else d <- rs_read data_size ;; ret (Some d)) ;;
  modify (fun f => set_images (images f ++
    [mk_image (fst wh) (snd wh) data format method data_size]) f).

(** [_handle_frame] (lines 367-374); the recursion through [_parse_itch]
    consumes one unit of fuel per nested "itch". *)
Fixpoint handle_frame (fuel : nat) (frame : bytes) (size : Z) : M itc unit :=
  match fuel with
  | O => raise OutOfFuel
  | S fuel' =>
      match HANDLER frame with
      | Some HItch => parse_itch (handle_frame fuel') size
      | Some HArtw => parse_artw size
      | Some HItem => parse_item size
      | None => ret tt
      end
  end.

(** [_read_frame] (lines 253-264): [true] means "done". *)
Definition read_frame (fuel : nat) : M itc bool :=
  _pos <- rs_tell ;;
  data <- rs_read 8 ;;
  if decide (length data = 8%nat) then
    hdr <- unpack (unpack_Ls data) ;;
    handle_frame fuel (snd hdr) (fst hdr) ;;
    ret false
  else ret true.

(** The loop [while not done: done = self._read_frame()] (lines 130-132),
    for at most [iters] frames. *)
Fixpoint read_loop (fuel iters : nat) : M itc unit :=
  match iters with
  | O => raise OutOfFuel
  | S i => done <- read_frame fuel ;; if done then ret tt else read_loop fuel i
  end.

(** [read(filename, list_only)] (lines 121-134) on a file whose contents
    are [contents]. *)
Definition read (fname : string) (contents : bytes) (lo : bool) (fuel : nat) : M itc unit :=
  modify (fun f => set_images [] (set_track None (set_library None (set_filename fname f)))) ;;
  modify (fun f => set_list_only lo (set_rs (open_read contents) f)) ;;
  read_loop fuel fuel.

(** [can_handle(filename)] (lines 110-119): ['itc'] is [true]. *)
Definition can_handle (contents : bytes) : bool :=
  match py_seek 4 SEEK_SET (open_read contents) with
  | Some s => bool_decide (fst (py_read 4 s) = tag_itch)
  | None => false
  end.

(** ** The layout of an item frame *)

(** The body of an "item" frame after its 8-byte header, grouped as
    [_parse_item] consumes it: the offset, the preamble, the 24-byte id
    block, 4 skipped bytes, width and height, a gap up to the payload,
    and the payload. *)
Definition ids_block (lib trk : Z) (mtag ftag : bytes) : bytes :=
  be_split 8 lib ++ be_split 8 trk ++ mtag ++ ftag.

Definition dims_block (w h : Z) : bytes := be_split 4 w ++ be_split 4 h.

Definition item_body (off : Z) (pre : bytes) (lib trk : Z) (mtag ftag skip : bytes)
    (w h : Z) (gap data : bytes) : bytes :=
  be_split 4 off ++ pre ++ ids_block lib trk mtag ftag ++ skip ++ dims_block w h ++ gap ++ data.

Arguments ids_block : simpl never.
Arguments dims_block : simpl never.
Arguments item_body : simpl never.

Lemma length_ids_block lib trk mtag ftag :
  length (ids_block lib trk mtag ftag) = (16 + length mtag + length ftag)%nat.
Proof. unfold ids_block. autorewrite with itc_run. lia. Qed.

Lemma length_dims_block w h : length (dims_block w h) = 8%nat.
Proof. unfold dims_block. by autorewrite with itc_run. Qed.

#[export] Hint Rewrite length_ids_block length_dims_block : itc_run.

(** The conditions under which [_parse_item] decodes such a body: a
    known variant with its preamble length, fields in range, 4-byte tags,
    and a gap that puts the payload at [off - 8] bytes from the start of
    the body. *)
Record item_ok (off : Z) (pre : bytes) (lib trk : Z) (mtag ftag skip : bytes)
    (w h : Z) (gap : bytes) : Prop := {
  io_variant : (off = ITUNES_9 /\ length pre = 16%nat) \/ (off = ITUNES_OLD /\ length pre = 20%nat);
  io_lib : 0 <= lib < 256 ^ Z.of_nat 8;
  io_trk : 0 <= trk < 256 ^ Z.of_nat 8;
  io_w : 0 <= w < 256 ^ Z.of_nat 4;
  io_h : 0 <= h < 256 ^ Z.of_nat 4;
  io_mtag : length mtag = 4%nat;
  io_ftag : length ftag = 4%nat;
  io_skip : length skip = 4%nat;
  io_gap : off - 8 = 40 + Z.of_nat (length pre) + Z.of_nat (length gap);
}.

(** The library or track attribute accepts the id [v]. *)
Definition id_fits (cur : option Z) (v : Z) : Prop := cur = None \/ cur = Some v.

(** The object after [_parse_item] decoded a body. *)
Definition after_item (f : itc) (off : Z) (pre : bytes) (lib trk : Z) (img : image) (s : stream) : itc :=
  set_images (images f ++ [img])
    (set_rs s (set_track (Some trk) (set_library (Some lib)
      (set_info_preamble pre (set_image_offset off f))))).

Lemma check_library_fits lib f :
  id_fits (library f) lib -> check_library lib f = Ok tt (set_library (Some lib) f).
Proof.
  unfold check_library. intros [H|H]; rewrite bind_gets, H; [done|].
  rewrite decide_True by done. by destruct f; simpl in *; subst.
Qed.

(** A second, different library id raises [ITCWarning] and keeps the
    first one (lines 292-299). *)
Lemma check_library_conflict lib l f :
  library f = Some l -> l <> lib -> check_library lib f = Exc (ITCWarning MultipleLibrary) f.
Proof.
  intros H Hne. unfold check_library. rewrite bind_gets, H. by rewrite decide_False.
Qed.

Lemma check_track_fits trk f :
  id_fits (track f) trk -> check_track trk f = Ok tt (set_track (Some trk) f).
Proof.
  unfold check_track. intros [H|H]; rewrite bind_gets, H; [done|].
  rewrite decide_True by done. by destruct f; simpl in *; subst.
Qed.

(** The preamble read leaves the stream after [pre] and records it. *)
Lemma read_preamble_variant {B} (k : unit -> M itc B) off pre f A y :
  (off = ITUNES_9 /\ length pre = 16%nat) \/ (off = ITUNES_OLD /\ length pre = 20%nat) ->
  rs f = mk_stream (A ++ pre ++ y) (Z.of_nat (length A)) ->
  bind (read_preamble off) k f =
    k tt (set_info_preamble pre (set_rs (mk_stream ((A ++ pre) ++ y) (Z.of_nat (length (A ++ pre)))) f)).
Proof.
  intros [[-> Hp]|[-> Hp]] Hrs; unfold read_preamble;
    [rewrite decide_True by done|rewrite decide_False, decide_True by (unfold ITUNES_9, ITUNES_OLD; lia)];
    repeat itc_step; done.
Qed.

(** Runs [_parse_item] on a body [item_body off pre ...] up to the
    library check: the offset, the preamble and the 24-byte id block. *)
Ltac item_head_steps Hv Hrs :=
  unfold parse_item, rs_tell, unpack; unfold item_body in *; rewrite <- ?app_assoc in Hrs;
  itc_step; itc_step; unfold unpack_L; rewrite unpack_uint_be_split by lia; itc_step; itc_step;
  erewrite read_preamble_variant; [|exact Hv|reflexivity]; itc_step;
  unfold ids_block at 1; rewrite unpack_QQss_app by (rewrite ?length_be_split; done); itc_step;
  rewrite !be_combine_split_small by lia.

(** Then the checks, the 4 skipped bytes, the dimensions and the seek to
    the payload. *)
Ltac item_dims_steps Hrs Hlib Htrk :=
  erewrite bind_Ok by (apply check_library_fits; exact Hlib);
  erewrite bind_Ok by (apply check_track_fits; exact Htrk);
  itc_step; itc_step;
  unfold dims_block at 1; rewrite unpack_LL_app by apply length_be_split;
  itc_step; rewrite Hrs; simpl s_pos;
  erewrite bind_Ok by (eapply rs_seek_set_app; [reflexivity | autorewrite with itc_run; lia]);
  itc_step; simpl list_only.

Section ItemFrame.
Variables (off : Z) (pre : bytes) (lib trk : Z) (mtag ftag skip : bytes)
  (w h : Z) (gap data : bytes).
Hypothesis Hok : item_ok off pre lib trk mtag ftag skip w h gap.

(** [_parse_item] decodes a well-formed body: it records the variant,
    the preamble and the ids, leaves the stream after the payload, and
    appends the image, with its payload unless in metadata-only mode. *)
Lemma parse_item_layout f A C size :
  rs f = mk_stream (A ++ item_body off pre lib trk mtag ftag skip w h gap data ++ C)
           (Z.of_nat (length A)) ->
  size = off + Z.of_nat (length data) ->
  id_fits (library f) lib -> id_fits (track f) trk ->
  parse_item size f =
    Ok tt (after_item f off pre lib trk
      (mk_image w h (if list_only f then None else Some data)
         (format_of_tag ftag) (method_of_tag mtag) (Z.of_nat (length data)))
      (mk_stream (A ++ item_body off pre lib trk mtag ftag skip w h gap data ++ C)
         (Z.of_nat (length A) +
          Z.of_nat (length (item_body off pre lib trk mtag ftag skip w h gap data))))).
Proof.
  destruct Hok as [Hv ? ? ? ? ? ? ? ?].
  assert (Hoff : off = 208 \/ off = 216) by (unfold ITUNES_9, ITUNES_OLD in Hv; lia).
  intros Hrs -> Hlib Htrk. item_head_steps Hv Hrs. item_dims_steps Hrs Hlib Htrk.
  rewrite be_combine_split_small by lia. rewrite be_combine_split_small by lia.
  replace (off + Z.of_nat (length data) - off) with (Z.of_nat (length data)) by lia.
  destruct (list_only f); repeat itc_step; unfold modify, after_item;
    rewrite <- ?app_assoc, ?length_app, ?Nat2Z.inj_add; reflexivity.
Qed.

(** A body whose library id differs from the one already recorded:
    [_parse_item] raises [ITCWarning] at line 297, before it appends
    anything, and the recorded id stays. *)
Lemma parse_item_conflict f A C size l :
  rs f = mk_stream (A ++ item_body off pre lib trk mtag ftag skip w h gap data ++ C)
           (Z.of_nat (length A)) ->
  library f = Some l -> l <> lib ->
  exists f', parse_item size f = Exc (ITCWarning MultipleLibrary) f' /\
    library f' = Some l /\ images f' = images f.
Proof.
  destruct Hok as [Hv ? ? ? ? ? ? ? ?].
  assert (Hoff : off = 208 \/ off = 216) by (unfold ITUNES_9, ITUNES_OLD in Hv; lia).
  intros Hrs Hl Hne. eexists. split.
  - item_head_steps Hv Hrs.
    erewrite bind_Exc by (apply (check_library_conflict _ l); [cbn; exact Hl | exact Hne]). reflexivity.
  - cbn. by split.
Qed.

(** A payload cut short by the end of the file: [read(data_size)] at
    line 337 returns the bytes that are there and [_parse_item] records
    them with the declared length. *)
Lemma parse_item_truncated f A D :
  rs f = mk_stream (A ++ item_body off pre lib trk mtag ftag skip w h gap data) (Z.of_nat (length A)) ->
  Z.of_nat (length data) <= D -> list_only f = false ->
  id_fits (library f) lib -> id_fits (track f) trk ->
  parse_item (off + D) f =
    Ok tt (after_item f off pre lib trk
      (mk_image w h (Some data) (format_of_tag ftag) (method_of_tag mtag) D)
      (mk_stream (A ++ item_body off pre lib trk mtag ftag skip w h gap data)
         (Z.of_nat (length A) + Z.of_nat (length (item_body off pre lib trk mtag ftag skip w h gap data))))).
Proof.
  destruct Hok as [Hv ? ? ? ? ? ? ? ?].
  assert (Hoff : off = 208 \/ off = 216) by (unfold ITUNES_9, ITUNES_OLD in Hv; lia).
  intros Hrs HD Hlo Hlib Htrk. item_head_steps Hv Hrs. item_dims_steps Hrs Hlib Htrk.
  rewrite Hlo. replace (off + D - off) with D by lia.
  rewrite !be_combine_split_small by lia.
  itc_step. erewrite bind_Ok by (apply rs_read_tail; [reflexivity | lia]).
  repeat itc_step. unfold modify, after_item.
  rewrite <- ?app_assoc, ?length_app, ?Nat2Z.inj_add. cbn. do 5 f_equal.
Qed.
End ItemFrame.

(** ** Frames and the frame loop *)

Lemma HANDLER_itch : HANDLER tag_itch = Some HItch. Proof. done. Qed.
Lemma HANDLER_artw : HANDLER tag_artw = Some HArtw. Proof. done. Qed.
Lemma HANDLER_item : HANDLER tag_item = Some HItem. Proof. done. Qed.

Lemma unpack_s4_Some t : length t = 4%nat -> unpack_s4 t = Some t.
Proof. intros H. unfold unpack_s4. by rewrite decide_True. Qed.

Definition frame_header (size : Z) (tag : bytes) : bytes := be_split 4 size ++ tag.

Arguments frame_header : simpl never.

Lemma length_frame_header size tag : length (frame_header size tag) = (4 + length tag)%nat.
Proof. unfold frame_header. by autorewrite with itc_run. Qed.

#[export] Hint Rewrite length_frame_header : itc_run.

Lemma set_rs_after_item f off pre lib trk img s s' :
  after_item (set_rs s f) off pre lib trk img s' = after_item f off pre lib trk img s'.
Proof. done. Qed.

(** Runs [_read_frame] on an "item" header up to [_parse_item]. *)
Ltac item_frame_steps :=
  unfold read_frame, rs_tell, unpack; itc_step; itc_step;
  rewrite decide_True by (autorewrite with itc_run; done);
  unfold frame_header at 1; rewrite unpack_Ls_app by (rewrite ?length_be_split; done);
  itc_step; rewrite be_combine_split_small by done;
  cbn [handle_frame snd fst]; rewrite HANDLER_item.

(** A frame with a well-formed item body. *)
Lemma read_frame_item k f A C off pre lib trk mtag ftag skip w h gap data :
  (1 <= k)%nat ->
  item_ok off pre lib trk mtag ftag skip w h gap ->
  0 <= off + Z.of_nat (length data) < 256 ^ Z.of_nat 4 ->
  rs f = mk_stream (A ++ frame_header (off + Z.of_nat (length data)) tag_item ++
                    item_body off pre lib trk mtag ftag skip w h gap data ++ C)
           (Z.of_nat (length A)) ->
  id_fits (library f) lib -> id_fits (track f) trk ->
  read_frame k f =
    Ok false (after_item f off pre lib trk
      (mk_image w h (if list_only f then None else Some data)
         (format_of_tag ftag) (method_of_tag mtag) (Z.of_nat (length data)))
      (mk_stream ((A ++ frame_header (off + Z.of_nat (length data)) tag_item) ++
                  item_body off pre lib trk mtag ftag skip w h gap data ++ C)
         (Z.of_nat (length (A ++ frame_header (off + Z.of_nat (length data)) tag_item)) +
          Z.of_nat (length (item_body off pre lib trk mtag ftag skip w h gap data))))).
Proof.
  intros Hk Hok Hsz Hrs Hlib Htrk. destruct k as [|k]; [lia|]. item_frame_steps.
  erewrite bind_Ok by (apply (parse_item_layout off pre lib trk mtag ftag skip w h gap data Hok);
                       [reflexivity | done | exact Hlib | exact Htrk]).
  done.
Qed.

(** An item frame whose library id conflicts with the recorded one. *)
Lemma read_frame_item_conflict k f A C off pre lib trk mtag ftag skip w h gap data l :
  (1 <= k)%nat ->
  item_ok off pre lib trk mtag ftag skip w h gap ->
  0 <= off + Z.of_nat (length data) < 256 ^ Z.of_nat 4 ->
  rs f = mk_stream (A ++ frame_header (off + Z.of_nat (length data)) tag_item ++
                    item_body off pre lib trk mtag ftag skip w h gap data ++ C)
           (Z.of_nat (length A)) ->
  library f = Some l -> l <> lib ->
  exists f', read_frame k f = Exc (ITCWarning MultipleLibrary) f' /\
    library f' = Some l /\ images f' = images f.
Proof.
  intros Hk Hok Hsz Hrs Hl Hne. destruct k as [|k]; [lia|].
  eenough (read_frame (S k) f =
             bind (parse_item (off + Z.of_nat (length data))) (fun _ => ret false) ?[st]) as E.
  2: { item_frame_steps. reflexivity. }
  match type of E with _ = bind _ _ ?st =>
    destruct (parse_item_conflict off pre lib trk mtag ftag skip w h gap data Hok st
                (A ++ frame_header (off + Z.of_nat (length data)) tag_item) C (off + Z.of_nat (length data)) l)
      as (f' & Hp & Hl' & Hi') end;
    [rewrite <- app_assoc; reflexivity | cbn; exact Hl | exact Hne |].
  rewrite E. erewrite bind_Exc by exact Hp. exists f'. split; [done|]. by rewrite Hl', Hi'.
Qed.

(** The last frame of the file, an item frame whose payload is cut
    short, read in full mode. *)
Lemma read_frame_item_truncated k f A off pre lib trk mtag ftag skip w h gap data D :
  (1 <= k)%nat ->
  item_ok off pre lib trk mtag ftag skip w h gap ->
  0 <= off + D < 256 ^ Z.of_nat 4 -> Z.of_nat (length data) <= D -> list_only f = false ->
  rs f = mk_stream (A ++ frame_header (off + D) tag_item ++
                    item_body off pre lib trk mtag ftag skip w h gap data) (Z.of_nat (length A)) ->
  id_fits (library f) lib -> id_fits (track f) trk ->
  read_frame k f =
    Ok false (after_item f off pre lib trk
      (mk_image w h (Some data) (format_of_tag ftag) (method_of_tag mtag) D)
      (mk_stream ((A ++ frame_header (off + D) tag_item) ++ item_body off pre lib trk mtag ftag skip w h gap data)
         (Z.of_nat (length (A ++ frame_header (off + D) tag_item)) +
          Z.of_nat (length (item_body off pre lib trk mtag ftag skip w h gap data))))).
Proof.
  intros Hk Hok Hsz HD Hlo Hrs Hlib Htrk. destruct k as [|k]; [lia|]. item_frame_steps.
  erewrite bind_Ok by (apply (parse_item_truncated off pre lib trk mtag ftag skip w h gap data Hok);
                       [reflexivity | done | done | exact Hlib | exact Htrk]).
  done.
Qed.

(** The root frame: an "itch" header, 16 skipped bytes, the nested tag
    "artw" and its 256-byte region, all skipped by seeking. *)
Definition root_frame (size : Z) (skip16 region : bytes) : bytes :=
  frame_header size tag_itch ++ skip16 ++ tag_artw ++ region.

Lemma read_frame_root k f A C size skip16 region :
  (2 <= k)%nat -> 0 <= size < 256 ^ Z.of_nat 4 -> length skip16 = 16%nat -> length region = 256%nat ->
  rs f = mk_stream (A ++ root_frame size skip16 region ++ C) (Z.of_nat (length A)) ->
  read_frame k f =
    Ok false (set_rs (mk_stream (A ++ root_frame size skip16 region ++ C)
                        (Z.of_nat (length A) + 284)) f).
Proof.
  intros Hk Hsz H16 H256 Hrs. destruct k as [|[|k]]; [lia|lia|].
  unfold read_frame, rs_tell, unpack, root_frame in *.
  rewrite <- !app_assoc in Hrs.
  itc_step. itc_step.
  rewrite decide_True by (autorewrite with itc_run; done).
  unfold frame_header at 1. rewrite unpack_Ls_app by (rewrite ?length_be_split; done).
  itc_step. cbn [handle_frame snd fst]. rewrite HANDLER_itch. unfold parse_itch, unpack.
  repeat itc_step. rewrite unpack_s4_Some by done.
  itc_step. cbn [handle_frame]. rewrite HANDLER_artw. unfold parse_artw.
  repeat itc_step.
  rewrite <- ?app_assoc, ?length_app, ?Nat2Z.inj_add. autorewrite with itc_run.
  do 3 f_equal. lia.
Qed.

(** At or after the end of the file the loop stops. *)
Lemma read_frame_eof k f :
  Z.of_nat (length (s_data (rs f))) <= s_pos (rs f) -> read_frame k f = Ok true f.
Proof.
  intros H. unfold read_frame, rs_tell. itc_step.
  unfold bind, rs_read. rewrite py_read_eof by done. simpl. by destruct f.
Qed.

(** ** A sequence of item frames sharing offset, preamble and ids *)

(** What varies from one item frame to the next. *)
Record item_spec := mk_spec {
  sp_mtag : bytes; sp_ftag : bytes; sp_w : Z; sp_h : Z; sp_gap : bytes; sp_data : bytes;
}.

Section Frames.
Variables (off : Z) (pre : bytes) (lib trk : Z) (skip : bytes).

Definition spec_frame (x : item_spec) : bytes :=
  frame_header (off + Z.of_nat (length (sp_data x))) tag_item ++
  item_body off pre lib trk (sp_mtag x) (sp_ftag x) skip (sp_w x) (sp_h x) (sp_gap x) (sp_data x).

Definition spec_image (lo : bool) (x : item_spec) : image :=
  mk_image (sp_w x) (sp_h x) (if lo then None else Some (sp_data x))
    (format_of_tag (sp_ftag x)) (method_of_tag (sp_mtag x)) (Z.of_nat (length (sp_data x))).

Definition spec_ok (x : item_spec) : Prop :=
  item_ok off pre lib trk (sp_mtag x) (sp_ftag x) skip (sp_w x) (sp_h x) (sp_gap x) /\
  0 <= off + Z.of_nat (length (sp_data x)) < 256 ^ Z.of_nat 4.

(** The object after the loop decoded the frames [xs]. *)
Definition after_items (f : itc) (xs : list item_spec) (s : stream) : itc :=
  match xs with
  | [] => set_rs s f
  | _ => set_images (images f ++ map (spec_image (list_only f)) xs)
           (set_rs s (set_track (Some trk) (set_library (Some lib)
             (set_info_preamble pre (set_image_offset off f)))))
  end.

Lemma rs_after_items f xs s : rs (after_items f xs s) = s.
Proof. by destruct xs. Qed.

Lemma images_after_items f xs s :
  images (after_items f xs s) = images f ++ map (spec_image (list_only f)) xs.
Proof. destruct xs; simpl; [by rewrite app_nil_r|done]. Qed.

Lemma ids_after_items f xs s :
  xs <> [] ->
  library (after_items f xs s) = Some lib /\ track (after_items f xs s) = Some trk /\
  image_offset (after_items f xs s) = off /\ info_preamble (after_items f xs s) = Some pre.
Proof. by destruct xs. Qed.

Lemma after_items_cons f x xs s s' :
  after_items (after_item f off pre lib trk (spec_image (list_only f) x) s) xs s' =
  after_items f (x :: xs) s'.
Proof. destruct xs; simpl; [done|]. by rewrite <- app_assoc. Qed.

Lemma read_loop_items xs k n f A C :
  (1 <= k)%nat -> Forall spec_ok xs ->
  rs f = mk_stream (A ++ concat (map spec_frame xs) ++ C) (Z.of_nat (length A)) ->
  id_fits (library f) lib -> id_fits (track f) trk ->
  read_loop k (length xs + n) f =
    read_loop k n (after_items f xs
      (mk_stream (A ++ concat (map spec_frame xs) ++ C)
         (Z.of_nat (length A) + Z.of_nat (length (concat (map spec_frame xs)))))).
Proof.
  intros Hk. revert f A. induction xs as [|x xs IH]; intros f A Hok Hrs Hlib Htrk.
  - simpl in *. rewrite Z.add_0_r, <- Hrs. by destruct f.
  - apply Forall_cons in Hok as [[Hx Hsz] Hok].
    cbn [concat map length Nat.add read_loop] in Hrs |- *.
    unfold spec_frame at 1 in Hrs. rewrite <- !app_assoc in Hrs.
    erewrite bind_Ok by (eapply read_frame_item; eauto). cbv beta iota.
    rewrite (IH _ (A ++ spec_frame x)); [| done | | right; done | right; done].
    + fold (spec_image (list_only f) x). rewrite after_items_cons. do 2 f_equal. unfold spec_frame.
      rewrite <- !app_assoc, !length_app, !Nat2Z.inj_add. f_equal. lia.
    + cbn [rs after_item set_images set_rs]. unfold spec_frame.
      rewrite <- !app_assoc, !length_app, !Nat2Z.inj_add. f_equal. lia.
Qed.
End Frames.

Lemma read_loop_S d i f :
  read_loop d (S i) f = bind (read_frame d) (fun done => if done then ret tt else read_loop d i) f.
Proof. done. Qed.

(** The object as [read] leaves it before the loop. *)
Definition read_start (fname : string) (contents : bytes) (lo : bool) (g : itc) : itc :=
  set_list_only lo (set_rs (open_read contents)
    (set_images [] (set_track None (set_library None (set_filename fname g))))).

Lemma length_root_frame size skip16 region :
  length skip16 = 16%nat -> length region = 256%nat ->
  length (root_frame size skip16 region) = 284%nat.
Proof. intros H1 H2. unfold root_frame. autorewrite with itc_run. lia. Qed.

(** Fewer than 8 bytes left: [_read_frame] consumes them and stops. *)
Lemma read_frame_short k f A T :
  (length T < 8)%nat ->
  rs f = mk_stream (A ++ T) (Z.of_nat (length A)) ->
  read_frame k f = Ok true (set_rs (mk_stream (A ++ T) (Z.of_nat (length A) + Z.of_nat (length T))) f).
Proof.
  intros HT Hrs. unfold read_frame, rs_tell. itc_step.
  unfold bind at 1. rewrite rs_read_run, Hrs. unfold py_read. cbn [s_pos s_data fst snd].
  rewrite Nat2Z.id, drop_app_length, take_ge by lia. cbn [Z.ltb Z.compare].
  rewrite decide_False by lia. done.
Qed.

(** [read] on a container made of a root frame followed by well-formed
    item frames and fewer than 8 trailing bytes terminates with enough
    fuel (two more than the number of frames) and decodes every frame,
    in order. *)
Lemma read_container fname lo fuel g off pre lib trk skip size skip16 region xs tail :
  Forall (spec_ok off pre lib trk skip) xs ->
  0 <= size < 256 ^ Z.of_nat 4 -> length skip16 = 16%nat -> length region = 256%nat ->
  (length tail < 8)%nat -> (length xs + 2 <= fuel)%nat ->
  let contents := root_frame size skip16 region ++
                  concat (map (spec_frame off pre lib trk skip) xs) ++ tail in
  read fname contents lo fuel g =
    Ok tt (after_items off pre lib trk (read_start fname contents lo g) xs
             (mk_stream contents (Z.of_nat (length contents)))).
Proof.
  intros Hok Hsz H16 H256 Htail Hfuel contents.
  assert (exists m, fuel = S (S (length xs + m))) as [m ->]
    by (exists (fuel - length xs - 2)%nat; lia).
  unfold read. itc_step. itc_step. fold (read_start fname contents lo g).
  rewrite <- (Nat.add_succ_r (length xs) m), read_loop_S.
  erewrite bind_Ok by (eapply (read_frame_root _ _ []); [lia|done..|reflexivity]).
  cbv beta iota.
  rewrite (read_loop_items off pre lib trk skip xs _ (S m) _
             (root_frame size skip16 region) tail); [|lia|done| |by left|by left].
  - rewrite read_loop_S.
    erewrite bind_Ok by (eapply read_frame_short; [exact Htail|]; rewrite rs_after_items;
      rewrite app_assoc; f_equal; rewrite length_app, Nat2Z.inj_add; done).
    cbv beta iota. unfold ret. subst contents.
    rewrite <- app_assoc, !length_app, !Nat2Z.inj_add, Z.add_assoc. do 2 f_equal.
    by destruct xs.
  - cbn. rewrite length_root_frame by done. done.
Qed.

(** ** Properties of the reader *)

(** C4: Variant detection and decoding of one item frame: [_parse_item]
    records the offset field as the variant, keeps the preamble of the
    variant's length, takes the ids, and appends the image with the
    payload found at [image_offset - 8] bytes from the frame body. *)
Theorem parse_item_decodes f A C off pre lib trk mtag ftag skip w h gap data :
  item_ok off pre lib trk mtag ftag skip w h gap ->
  rs f = mk_stream (A ++ item_body off pre lib trk mtag ftag skip w h gap data ++ C)
           (Z.of_nat (length A)) ->
  id_fits (library f) lib -> id_fits (track f) trk ->
  exists f', parse_item (off + Z.of_nat (length data)) f = Ok tt f' /\
    image_offset f' = off /\ info_preamble f' = Some pre /\
    library f' = Some lib /\ track f' = Some trk /\
    images f' = images f ++ [mk_image w h (if list_only f then None else Some data)
                               (format_of_tag ftag) (method_of_tag mtag) (Z.of_nat (length data))].
Proof.
  intros Hok Hrs Hl Ht. eexists. split; [by eapply parse_item_layout|]. done.
Qed.

(** C2: Termination and decoding of a whole well-formed container: with
    fuel two more than the number of item frames, [read] returns and the
    object holds one image per frame, in file order. *)
Theorem read_wellformed fname lo fuel g off pre lib trk skip size skip16 region xs tail :
  Forall (spec_ok off pre lib trk skip) xs ->
  0 <= size < 256 ^ Z.of_nat 4 -> length skip16 = 16%nat -> length region = 256%nat ->
  (length tail < 8)%nat -> (length xs + 2 <= fuel)%nat ->
  exists g', read fname (root_frame size skip16 region ++
                         concat (map (spec_frame off pre lib trk skip) xs) ++ tail) lo fuel g = Ok tt g' /\
    images g' = map (spec_image lo) xs /\ list_only g' = lo /\ filename g' = fname.
Proof.
  intros. eexists. split; [by apply read_container|].
  rewrite images_after_items. by destruct xs.
Qed.

(** Unknown tags are ignored: [_handle_frame] does nothing (line 373). *)
Theorem handle_frame_unknown k frame size f :
  HANDLER frame = None -> handle_frame (S k) frame size f = Ok tt f.
Proof. intros H. cbn. by rewrite H. Qed.


(** ** Concrete instances *)

(** An [ITUNES_9] item body: library 1, track 2, a local PNG of 3x4
    pixels whose payload is the one byte 0x01. *)
Definition sample_spec : item_spec :=
  mk_spec tag_locl tag_PNGf 3 4 (replicate 144 Byte.x00) [Byte.x01].

Definition sample_obj (s : stream) : itc :=
  mk_itc "a.itc" None None [] ITUNES_9 false None false s [].

Lemma sample_spec_ok :
  spec_ok ITUNES_9 (replicate 16 Byte.x00) 1 2 (replicate 4 Byte.x00) sample_spec.
Proof.
  split; [split; [left; split; reflexivity|idtac..]|]; unfold ITUNES_9; cbn;
    first [reflexivity | lia].
Qed.

Lemma parse_item_decodes_witness :
  exists f', parse_item (ITUNES_9 + Z.of_nat (length [Byte.x01]))
               (sample_obj (mk_stream (spec_frame ITUNES_9 (replicate 16 Byte.x00) 1 2
                  (replicate 4 Byte.x00) sample_spec) 8)) = Ok tt f' /\
    image_offset f' = ITUNES_9 /\ info_preamble f' = Some (replicate 16 Byte.x00) /\
    library f' = Some 1 /\ track f' = Some 2 /\
    images f' = [mk_image 3 4 (Some [Byte.x01]) FmtPNG MLocal 1].
Proof.
  destruct sample_spec_ok as [Hok _].
  apply (parse_item_decodes (sample_obj (mk_stream (spec_frame ITUNES_9 (replicate 16 Byte.x00) 1 2
    (replicate 4 Byte.x00) sample_spec) 8)) (frame_header (ITUNES_9 + 1) tag_item) [] ITUNES_9
    (replicate 16 Byte.x00) 1 2 tag_locl tag_PNGf (replicate 4 Byte.x00) 3 4
    (replicate 144 Byte.x00) [Byte.x01] Hok); [reflexivity | left; reflexivity | left; reflexivity].
Defined.

Lemma read_wellformed_witness :
  exists g', read "a.itc" (root_frame 284 (replicate 16 Byte.x00) (replicate 256 Byte.x00) ++
               concat (map (spec_frame ITUNES_9 (replicate 16 Byte.x00) 1 2 (replicate 4 Byte.x00))
                 [sample_spec; sample_spec]) ++ []) false 4 (ITCFile ITUNES_9 false) = Ok tt g' /\
    images g' = map (spec_image false) [sample_spec; sample_spec] /\
    list_only g' = false /\ filename g' = "a.itc"%string.
Proof.
  apply read_wellformed.
  - repeat constructor; apply sample_spec_ok.
  - simpl; lia.
  - reflexivity.
  - reflexivity.
  - simpl; lia.
  - simpl; lia.
Defined.

Lemma handle_frame_unknown_witness :
  handle_frame 1 tag_data 0 (ITCFile ITUNES_9 false) = Ok tt (ITCFile ITUNES_9 false).
Proof. apply handle_frame_unknown. reflexivity. Defined.

Lemma check_library_conflict_witness :
  check_library 2 (set_library (Some 1) (ITCFile ITUNES_9 false)) =
    Exc (ITCWarning MultipleLibrary) (set_library (Some 1) (ITCFile ITUNES_9 false)).
Proof. apply (check_library_conflict 2 1); [reflexivity | lia]. Defined.
