(* ===== verification/ReadInv.v ===== *)
(** Invariants of the reader ([read] and its handlers in
    src/scripts/itc.py, lines 121-134 and 253-374), proved for every
    input and every outcome, exceptions included: the object after a
    [read] that returned, raised or ran out of fuel satisfies them.
    Section [ReaderInvariant] shows once that the frame loop keeps any
    predicate of the object that its primitive steps keep (stream reads
    and seeks, the library and track checks, the offset and preamble
    updates, and the append of a decoded record); the two invariants
    below are instances: the records are well typed, and the reader only
    appends records and never changes an id once set. *)

From S2P Require Import Prelude Struct PyFile ItcModel ItcRead.

Open Scope Z_scope.

(** A decoded record: width and height are [!L] fields, and the payload
    is present exactly when the read was not metadata-only. *)
Definition image_wf (lo : bool) (i : image) : bool :=
  in_uint 4 (img_width i) && in_uint 4 (img_height i) &&
  match lo, img_data i with
  | true, None | false, Some _ => true
  | _, _ => false
  end.

(** The record appended by line 338 of [_parse_item]. *)
Definition push_image (i : image) (f : itc) : itc := set_images (images f ++ [i]) f.

Lemma unpack_LL_range b wh :
  unpack_LL b = Some wh -> in_uint 4 (fst wh) = true /\ in_uint 4 (snd wh) = true.
Proof.
  unfold unpack_LL. case_decide as Hb; intros [= <-]. cbn.
  pose proof (be_combine_range (take 4 b)). pose proof (be_combine_range (drop 4 b)).
  rewrite length_take in *. rewrite length_drop in *. rewrite Hb in *. cbn in *.
  unfold in_uint. split; apply andb_true_intro; split; first [apply Z.leb_le | apply Z.ltb_lt]; lia.
Qed.

Section ReaderInvariant.
Variable P : itc -> Prop.
Hypothesis P_rs_read : forall n, preserves P (rs_read n).
Hypothesis P_rs_seek : forall off w, preserves P (rs_seek off w).
Hypothesis P_offset : forall off f, P f -> P (set_image_offset off f).
Hypothesis P_preamble : forall pre f, P f -> P (set_info_preamble pre f).
Hypothesis P_library : forall lib, preserves P (check_library lib).
Hypothesis P_track : forall trk, preserves P (check_track trk).
Hypothesis P_push : forall i f, P f -> image_wf (list_only f) i = true -> P (push_image i f).

#[local] Hint Resolve P_rs_read P_rs_seek P_offset P_preamble P_library P_track : preserve.

(** The last step of [_parse_item] (lines 330-338): the payload read or
    skipped, then the record appended. *)
Lemma parse_item_tail_preserves b wh fm me sz :
  unpack_LL b = Some wh ->
  preserves P (lo <- gets list_only ;;
               data <- (if lo then rs_seek sz SEEK_CUR ;; ret None
                        else d <- rs_read sz ;; ret (Some d)) ;;
               modify (fun f => set_images (images f ++ [mk_image (fst wh) (snd wh) data fm me sz]) f)).
Proof.
  intros Hwh s Hs. destruct (unpack_LL_range b wh Hwh) as [Hw Hh].
  pose proof (P_rs_seek sz SEEK_CUR s Hs) as Hseek. pose proof (P_rs_read sz s Hs) as Hread.
  unfold bind, gets, modify, rs_seek, rs_read in *. cbn in *.
  destruct (list_only s) eqn:Elo.
  - destruct (py_seek sz SEEK_CUR (rs s)); cbn in *; [|done].
    apply (P_push _ (set_rs _ s)); [done|]. unfold image_wf. cbn. by rewrite Elo, Hw, Hh.
  - destruct (py_read sz (rs s)); cbn in *.
    apply (P_push _ (set_rs _ s)); [done|]. unfold image_wf. cbn. by rewrite Elo, Hw, Hh.
Qed.

#[local] Hint Resolve parse_item_tail_preserves : preserve.

Lemma parse_item_preserves size : preserves P (parse_item size).
Proof. unfold parse_item, read_preamble, unpack. solve_preserves. Qed.

#[local] Hint Resolve parse_item_preserves : preserve.

Lemma handle_frame_preserves fuel frame size : preserves P (handle_frame fuel frame size).
Proof.
  revert frame size. induction fuel as [|fuel IH]; intros frame size; cbn; [by auto with preserve|].
  unfold parse_itch, parse_artw, unpack. solve_preserves.
Qed.

#[local] Hint Resolve handle_frame_preserves : preserve.

Lemma read_frame_preserves fuel : preserves P (read_frame fuel).
Proof. unfold read_frame, unpack. solve_preserves. Qed.

Lemma read_loop_preserves fuel n : preserves P (read_loop fuel n).
Proof.
  induction n as [|n IH]; cbn; [by auto with preserve|].
  apply preserves_bind; [apply read_frame_preserves|]. intros []; auto with preserve.
Qed.

End ReaderInvariant.

(** ** Primitive steps *)

Section Steps.
Variable P : itc -> Prop.

(** Reads and seeks move in the file, never change it, and never make
    the position negative. *)
Definition stream_step (s s' : stream) : Prop :=
  s_data s' = s_data s /\ (0 <= s_pos s -> 0 <= s_pos s').

Lemma rs_read_preserves n :
  (forall s f, P f -> stream_step (rs f) s -> P (set_rs s f)) -> preserves P (rs_read n).
Proof.
  intros H f Hf. unfold rs_read, py_read. cbn. apply H; [done|]. split; [done | cbn; lia].
Qed.

Lemma rs_seek_preserves off w :
  (forall s f, P f -> stream_step (rs f) s -> P (set_rs s f)) -> preserves P (rs_seek off w).
Proof.
  intros H f Hf. unfold rs_seek, py_seek. destruct (Z.ltb_spec (match w with SEEK_SET => off | SEEK_CUR => s_pos (rs f) + off end) 0); cbn; [done|].
  apply H; [done|]. split; cbn; [done | lia].
Qed.

Lemma check_library_preserves lib :
  (forall f, library f = None -> P f -> P (set_library (Some lib) f)) -> preserves P (check_library lib).
Proof.
  intros H f Hf. unfold check_library. rewrite bind_gets.
  destruct (library f) eqn:E; [by case_decide | by apply H].
Qed.

Lemma check_track_preserves trk :
  (forall f, track f = None -> P f -> P (set_track (Some trk) f)) -> preserves P (check_track trk).
Proof.
  intros H f Hf. unfold check_track. rewrite bind_gets.
  destruct (track f) eqn:E; [by case_decide | by apply H].
Qed.
End Steps.

(** Discharges the hypotheses of [read_loop_preserves] for an invariant
    made of equations and [Forall]s on fields of the object. *)
Ltac reader_inv_steps :=
  intros; first [ apply rs_read_preserves | apply rs_seek_preserves
        | apply check_library_preserves | apply check_track_preserves | idtac ];
  intros; unfold push_image, stream_step in *; destruct_and?; cbn in *; split_and?; subst;
  rewrite ?Forall_app, ?Forall_singleton; try tauto.

(** ** The records are well typed *)

(** The object during a read in mode [lo]: the mode is kept and every
    record decoded so far is well typed. *)
Definition typed (lo : bool) (f : itc) : Prop :=
  list_only f = lo /\ Forall (fun i => image_wf lo i = true) (images f).

Lemma read_loop_typed lo fuel n : preserves (typed lo) (read_loop fuel n).
Proof. apply read_loop_preserves; unfold typed; reader_inv_steps. Qed.

(** C13: whatever the file and however [read] ends (it returns, raises
    [struct.error], [IOError] or [ITCWarning], or runs out of fuel), every
    record the object holds afterwards has a width and a height in
    [0, 2^32), and has a payload exactly when the read was not
    metadata-only. *)
Theorem read_images_typed fname c lo fuel g :
  Forall (fun i => image_wf lo i = true) (images (state_of (read fname c lo fuel g))).
Proof.
  unfold read. rewrite !bind_modify.
  apply (read_loop_typed lo fuel fuel). split; [done | constructor].
Qed.

(** [read] keeps the object's [quiet] flag, however it ends. *)
Lemma read_quiet fname c lo fuel g : quiet (state_of (read fname c lo fuel g)) = quiet g.
Proof.
  unfold read. rewrite !bind_modify.
  apply (read_loop_preserves (fun f => quiet f = quiet g)); [reader_inv_steps .. | done].
Qed.

(** ** Ids are set once and records only appended *)

(** The object after its library and track ids were set to [lib] and
    [trk], holding the records [imgs] first, reading the file [c]. *)
Definition settled (fname : string) (c : bytes) (lib trk : Z) (imgs : list image) (f : itc) : Prop :=
  filename f = fname /\ s_data (rs f) = c /\ library f = Some lib /\ track f = Some trk /\
  imgs `prefix_of` images f.

Lemma prefix_of_snoc {A} (l1 l2 : list A) x : l1 `prefix_of` l2 -> l1 `prefix_of` l2 ++ [x].
Proof. intros H. by apply prefix_app_r. Qed.

#[local] Hint Resolve prefix_of_snoc : core.

(** C14: once the library and track ids of the object are set, no frame
    the loop of [read] reads, in any mode and however the loop ends,
    changes them, the file name or the file being read; it only appends
    records to [images]. *)
Theorem read_loop_settled fuel n f :
  library f <> None -> track f <> None ->
  let f' := state_of (read_loop fuel n f) in
  filename f' = filename f /\ s_data (rs f') = s_data (rs f) /\
  library f' = library f /\ track f' = track f /\ images f `prefix_of` images f'.
Proof.
  destruct (library f) as [lib|] eqn:El, (track f) as [trk|] eqn:Et; [intros _ _|done..].
  cut (settled (filename f) (s_data (rs f)) lib trk (images f) (state_of (read_loop fuel n f))).
  { intros (? & ? & ? & ? & ?). by split_and!. }
  apply read_loop_preserves; unfold settled; [reader_inv_steps; first [congruence | auto] ..|].
  hnf. by split_and!.
Qed.

(** The object of [read_loop_settled_witness]: ids 1 and 2, reading the
    48-byte [stuck] file of [Findings]. *)
Definition settled_obj : itc :=
  mk_itc "a.itc" (Some 1) (Some 2) [] ITUNES_9 false None false
    (mk_stream (frame_header 0 tag_item ++ be_split 4 0 ++ replicate 36 Byte.x00) 0) [].

Lemma read_loop_settled_witness :
  (library settled_obj <> None /\ track settled_obj <> None) /\
  let f' := state_of (read_loop 3 3 settled_obj) in
  filename f' = filename settled_obj /\ s_data (rs f') = s_data (rs settled_obj) /\
  library f' = library settled_obj /\ track f' = track settled_obj /\
  images settled_obj `prefix_of` images f'.
Proof.
  split; [split; discriminate|].
  exact (read_loop_settled 3 3 settled_obj ltac:(discriminate) ltac:(discriminate)).
Defined.

(** ** Progress of the frame loop *)

(** The object reads the file [c] from a position that is not negative. *)
Definition reading (c : bytes) (f : itc) : Prop := s_data (rs f) = c /\ 0 <= s_pos (rs f).

Lemma read_frame_reading fuel c : preserves (reading c) (read_frame fuel).
Proof. apply read_frame_preserves; unfold reading; reader_inv_steps; lia. Qed.

(** A frame that does not end the loop was a full 8-byte header. *)
Lemma read_frame_false_pos fuel f f' :
  read_frame fuel f = Ok false f' -> s_pos (rs f) + 8 <= Z.of_nat (length (s_data (rs f))).
Proof.
  unfold read_frame, bind, gets, rs_read, py_read. cbn.
  case_decide as H8; [|intros [=]]. intros _.
  rewrite length_take, length_drop in H8. lia.
Qed.

(** A frame that raises was a full 8-byte header. *)
Lemma read_frame_exc_pos fuel f e f' :
  read_frame fuel f = Exc e f' -> s_pos (rs f) + 8 <= Z.of_nat (length (s_data (rs f))).
Proof.
  unfold read_frame, bind, gets, rs_read, py_read. cbn.
  case_decide as H8; [|intros [=]]. intros _.
  rewrite length_take, length_drop in H8. lia.
Qed.

Section Progress.
Variables (fuel : nat) (c : bytes).

(** Every frame of [c] that does not end the loop leaves the stream
    further on than it found it. *)
Hypothesis advance : forall g g', reading c g -> read_frame fuel g = Ok false g' ->
  s_pos (rs g) < s_pos (rs g').

Lemma read_loop_stable n m g :
  reading c g -> (Z.to_nat (Z.of_nat (length c) - s_pos (rs g)) < n)%nat -> (n <= m)%nat ->
  read_loop fuel m g = read_loop fuel n g.
Proof.
  revert m g. induction n as [|n IH]; intros m g Hg Hn Hm; [lia|].
  destruct m as [|m]; [lia|]. rewrite !read_loop_S. unfold bind.
  destruct (read_frame fuel g) as [[] g'|e g'] eqn:E; [done | | done].
  pose proof (read_frame_false_pos _ _ _ E). pose proof (advance _ _ Hg E).
  pose proof (preserves_Ok _ _ _ _ _ (read_frame_reading fuel c) Hg E) as Hg'.
  destruct Hg as [Hc _]. rewrite Hc in *. apply IH; [done | lia | lia].
Qed.

(** No frame of [c] runs out of nesting fuel. *)
Hypothesis no_oof : forall g g', reading c g -> read_frame fuel g <> Exc OutOfFuel g'.

(** The loop ends: with more passes than bytes left, it returns or
    raises an exception of a frame, and never runs out of passes. *)
Lemma read_loop_ends n g :
  reading c g -> (Z.to_nat (Z.of_nat (length c) - s_pos (rs g)) < n)%nat ->
  forall g', read_loop fuel n g <> Exc OutOfFuel g'.
Proof.
  revert g. induction n as [|n IH]; intros g Hg Hn g'; [lia|].
  rewrite read_loop_S. unfold bind.
  destruct (read_frame fuel g) as [[] g1|e g1] eqn:E; [done | | ].
  - pose proof (read_frame_false_pos _ _ _ E). pose proof (advance _ _ Hg E).
    pose proof (preserves_Ok _ _ _ _ _ (read_frame_reading fuel c) Hg E) as Hg1.
    destruct Hg as [Hc _]. rewrite Hc in *. apply IH; [done | lia].
  - intros [= -> ->]. exact (no_oof g g' Hg E).
Qed.
End Progress.

(** C15: liveness of [read]'s loop [while not done: done =
    self._read_frame()]: on a file [c] in which every frame that does not
    end the loop moves the stream forward and none runs out of nesting
    fuel, the loop ends within [len(c) + 1] passes from any position in
    the file: it returns or raises an exception of a frame, never runs
    out of passes, and any number of passes beyond gives the same
    outcome. *)
Theorem read_loop_live fuel c n m g :
  (forall g g', reading c g -> read_frame fuel g = Ok false g' -> s_pos (rs g) < s_pos (rs g')) ->
  (forall g g', reading c g -> read_frame fuel g <> Exc OutOfFuel g') ->
  s_data (rs g) = c -> 0 <= s_pos (rs g) -> (length c < n)%nat -> (n <= m)%nat ->
  (forall g', read_loop fuel n g <> Exc OutOfFuel g') /\ read_loop fuel m g = read_loop fuel n g.
Proof.
  intros Hadv Hoof Hc Hp Hn Hm. split.
  - apply (read_loop_ends fuel c Hadv Hoof); [by split | lia].
  - apply (read_loop_stable fuel c Hadv); [by split | lia | done].
Qed.

(** A file of one 8-byte frame with the unknown tag "data". *)
Definition data_frame : bytes := frame_header 0 tag_data.

Lemma data_frame_advances g g' :
  reading data_frame g -> read_frame 1 g = Ok false g' -> s_pos (rs g) < s_pos (rs g').
Proof.
  intros [Hc Hp] E. pose proof (read_frame_false_pos _ _ _ E) as Hpos.
  assert (length data_frame = 8%nat) as Hl by reflexivity. rewrite Hc, Hl in Hpos.
  destruct g as [fn lib trk imgs off q pre lo [d p] w]; cbn in *; subst.
  assert (p = 0) as -> by lia. vm_compute in E. by simplify_eq.
Qed.

(** No frame of [data_frame] runs out of nesting fuel: its one header
    names a tag without handler. *)
Lemma data_frame_no_oof g g' :
  reading data_frame g -> read_frame 1 g <> Exc OutOfFuel g'.
Proof.
  intros [Hc Hp] E. pose proof (read_frame_exc_pos _ _ _ _ E) as Hpos.
  assert (length data_frame = 8%nat) as Hl by reflexivity. rewrite Hc, Hl in Hpos.
  destruct g as [fn lib trk imgs off q pre lo [d p] w]; cbn in *; subst.
  assert (p = 0) as -> by lia. vm_compute in E. discriminate.
Qed.

Lemma read_loop_live_witness :
  ((forall g g', reading data_frame g -> read_frame 1 g = Ok false g' -> s_pos (rs g) < s_pos (rs g')) /\
   (forall g g', reading data_frame g -> read_frame 1 g <> Exc OutOfFuel g') /\
   s_data (rs (sample_obj (mk_stream data_frame 0))) = data_frame /\
   0 <= s_pos (rs (sample_obj (mk_stream data_frame 0))) /\
   (length data_frame < 9)%nat /\ (9 <= 20)%nat) /\
  (forall g', read_loop 1 9 (sample_obj (mk_stream data_frame 0)) <> Exc OutOfFuel g') /\
  read_loop 1 20 (sample_obj (mk_stream data_frame 0)) = read_loop 1 9 (sample_obj (mk_stream data_frame 0)).
Proof.
  split; [split_and!; [exact data_frame_advances | exact data_frame_no_oof | reflexivity | simpl; lia
                      | simpl; lia | lia]|].
  exact (read_loop_live 1 data_frame 9 20 (sample_obj (mk_stream data_frame 0)) data_frame_advances
           data_frame_no_oof eq_refl ltac:(simpl; lia) ltac:(simpl; lia) ltac:(lia)).
Defined.
