(* ===== verification/ItcWrite.v ===== *)
(** The writer side of [ITCFile] (src/scripts/itc.py): [write]
    (lines 153-168), [_write_image] (170-220), [add_image] (136-151) with
    Python's [os.path.splitext] and [str.lower], and the payload proxy
    [_ImageData] (222-231) with Python's list indexing. *)

From S2P Require Import Prelude Struct PyFile ItcModel.
From Stdlib Require Import Ascii.

Open Scope Z_scope.

(** ** [_write_image] and [write] *)

(** Lines 181-190: the format string to its 4-byte wire tag. *)
Definition wire_format (format : fmt) : option bytes :=
  match format with
  | FmtPNG => Some tag_PNGf
  | FmtJPG => Some tag_0d
  | FmtARGB => Some []
  | _ => None
  end.

(** Lines 192-198: the method string to its wire tag. *)
Definition wire_method (method : meth) : option bytes :=
  match method with
  | MLocal => Some tag_locl
  | MDownload => Some tag_down
  | MNone => None
  end.

(** [struct.pack('!Q', x)] where [x] may still be the empty string. *)
Definition pack_Q_attr (x : option Z) : option bytes :=
  match x with Some z => pack_Q z | None => None end.

(** The three [struct.pack] calls of lines 203-209. *)
Definition item_head (size off : Z) : option bytes :=
  pack_fields [pack_L size; Some (pack_s 4 tag_item); pack_L off].

Definition item_ids (lib trk : option Z) (imethod iformat : bytes) : option bytes :=
  pack_fields [pack_Q_attr lib; pack_Q_attr trk; Some (pack_s 4 imethod); Some (pack_s 4 iformat)].

Definition item_dims (width height : Z) : option bytes :=
  pack_fields [pack_L width; pack_L height; Some (pack_s 3 (replicate 3 Byte.x00));
               pack_L width; pack_L height].

(** [_write_image(num)] (lines 170-220). *)
Definition write_image (num : nat) : M itc unit :=
  imgs <- gets images ;;
  info <- of_option IndexError (imgs !! num) ;;
  image_data <- of_option (ITCWarning NoImageData) (img_data info) ;;
  let width := img_width info in
  let height := img_height info in
  iformat <- of_option (ITCException BadFormat) (wire_format (img_format info)) ;;
  imethod <- of_option (ITCException BadMethod) (wire_method (img_method info)) ;;
  let image_len := img_size info in
  off <- gets image_offset ;;
  let size := image_len + off in
  h1 <- pack (item_head size off) ;;
  pre <- gets info_preamble ;;
  pre <- of_option AttributeError pre ;;
  lib <- gets library ;;
  trk <- gets track ;;
  h3 <- pack (item_ids lib trk imethod iformat) ;;
  h5 <- pack (item_dims width height) ;;
  let item_header := h1 ++ pre ++ h3 ++ replicate 4 Byte.x00 ++ h5 in
  ws_write item_header ;;
  ws_write (replicate (Z.to_nat (off - Z.of_nat (length item_header) - 4)) Byte.x00) ;;
  ws_write (pack_s 4 tag_data) ;;
  (if decide (off = ITUNES_OLD) then ws_write (replicate 4 Byte.x00) else ret tt) ;;
  ws_write image_data.

(** The fixed root header of lines 161-163: an "itch" frame of size 284
    whose nested frame is "artw", and the 256-byte artwork region. *)
Definition root_header : option bytes :=
  pack_fields [pack_L 284; Some (pack_s 4 tag_itch); pack_L 2; pack_L 2; pack_L 2;
               pack_L 0; Some (pack_s 4 tag_artw)].

(** [write(filename)] (lines 153-168); the file written is [ws], which
    [open(filename, 'wb')] empties first. *)
Definition write (fname : string) : M itc unit :=
  cur <- gets filename ;;
  _target <- (if decide (fname = ""%string) then
                if decide (cur = ""%string) then raise (ITCException NoFilename) else ret cur
              else ret fname) ;;
  modify (set_ws []) ;;
  hdr <- pack root_header ;;
  ws_write hdr ;;
  ws_write (replicate 256 Byte.x00) ;;
  n <- gets (fun f => length (images f)) ;;
  for_each (seq 0 n) write_image.

(** ** [add_image] *)

(** [p.rfind(c)]: the last index of [c] in [p], or -1. *)
Fixpoint rfind_from (c : ascii) (p : list ascii) (i acc : Z) : Z :=
  match p with
  | [] => acc
  | x :: p' => rfind_from c p' (i + 1) (if decide (x = c) then i else acc)
  end.

Definition rfind (c : ascii) (p : list ascii) : Z := rfind_from c p 0 (-1).

(** [posixpath.splitext] (Python 2 [genericpath._splitext] with [sep='/'],
    [extsep='.']): the extension starts at the last dot after the last
    slash, unless everything between that slash and the dot is dots. *)
Definition splitext (p : string) : string * string :=
  let l := String.list_ascii_of_string p in
  let sepIndex := rfind "/"%char l in
  let dotIndex := rfind "."%char l in
  if sepIndex <? dotIndex then
    let between := take (Z.to_nat (dotIndex - (sepIndex + 1))) (drop (Z.to_nat (sepIndex + 1)) l) in
    if existsb (fun c => negb (bool_decide (c = "."%char))) between
    then (String.string_of_list_ascii (take (Z.to_nat dotIndex) l),
          String.string_of_list_ascii (drop (Z.to_nat dotIndex) l))
    else (p, ""%string)
  else (p, ""%string).

(** [str.lower] on ASCII. *)
Definition lower_char (c : ascii) : ascii :=
  let n := nat_of_ascii c in
  if (65 <=? n)%nat && (n <=? 90)%nat then ascii_of_nat (n + 32) else c.

Definition lower (s : string) : string :=
  String.string_of_list_ascii (map lower_char (String.list_ascii_of_string s)).

(** [add_image(filename, width, height)] (lines 136-151) on a file whose
    contents are [contents]: [data_size] is [fp.tell()] after reading all. *)
Definition add_image (fname : string) (contents : bytes) (width height : Z) : M itc unit :=
  let ext := lower (snd (splitext fname)) in
  format <- (if decide (ext = ".jpg"%string) then ret FmtJPG
             else if decide (ext = ".png"%string) then ret FmtPNG
             else raise (ITCException BadExtension)) ;;
  let data_size := Z.of_nat (length contents) in
  modify (fun f => set_images (images f ++
    [mk_image width height (Some contents) format MLocal data_size]) f).

(** ** [_ImageData] *)

(** [self.image_data = self._ImageData(self)] (line 103) and
    [_ImageData.__init__] (lines 222-224): a subclass of [list] that
    keeps the object it was built for and never fills its own items
    ([list.__init__] is not called with any).  In the model the proxy's
    object is the state its methods act on, so they see the object as it
    is when they run, as the Python reference does. *)
Record imagedata := mk_imagedata { id_items : list (option bytes) }.

Definition ImageData (f : itc) : imagedata := mk_imagedata [].

(** [len(image_data)] and [iter(image_data)]: the inherited [list]
    methods, on the proxy's own items. *)
Definition imagedata_len (d : imagedata) : Z := Z.of_nat (length (id_items d)).

Definition imagedata_iter (d : imagedata) : list (option bytes) := id_items d.

(** [_ImageData.__getitem__] (lines 226-227). *)
Definition imagedata_getitem (index : Z) : M itc (option bytes) :=
  imgs <- gets images ;;
  info <- of_option IndexError (py_index imgs index) ;;
  ret (img_data info).

(** [_ImageData.__setitem__] (lines 229-231): the tuple [images[index]]
    does not support item assignment. *)
Definition imagedata_setitem (index : Z) (data : bytes) : M itc unit :=
  imgs <- gets images ;;
  _info <- of_option IndexError (py_index imgs index) ;;
  raise TypeError.

(** ** What the writer emits *)

(** The header built by lines 203-209. *)
Definition item_header_out (off : Z) (pre : bytes) (lib trk : Z) (img : image)
    (imethod iformat : bytes) : bytes :=
  (be_split 4 (img_size img + off) ++ pack_s 4 tag_item ++ be_split 4 off) ++ pre ++
  (be_split 8 lib ++ be_split 8 trk ++ pack_s 4 imethod ++ pack_s 4 iformat) ++
  replicate 4 Byte.x00 ++
  (be_split 4 (img_width img) ++ be_split 4 (img_height img) ++
   pack_s 3 (replicate 3 Byte.x00) ++ be_split 4 (img_width img) ++ be_split 4 (img_height img)).

(** The frame of lines 211-220: header, zero padding up to the offset,
    the tag "data", four more zero bytes for [ITUNES_OLD], the payload. *)
Definition item_out (off : Z) (pre : bytes) (lib trk : Z) (img : image)
    (imethod iformat d : bytes) : bytes :=
  let hdr := item_header_out off pre lib trk img imethod iformat in
  hdr ++ replicate (Z.to_nat (off - Z.of_nat (length hdr) - 4)) Byte.x00 ++
  pack_s 4 tag_data ++
  (if decide (off = ITUNES_OLD) then replicate 4 Byte.x00 else []) ++ d.

(** The wire form of an image: payload, method tag and format tag. *)
Definition image_wire (img : image) : option (bytes * bytes * bytes) :=
  match img_data img, wire_method (img_method img), wire_format (img_format img) with
  | Some d, Some m, Some fm => Some (d, m, fm)
  | _, _, _ => None
  end.

Definition image_out (off : Z) (pre : bytes) (lib trk : Z) (img : image) : bytes :=
  match image_wire img with
  | Some (d, m, fm) => item_out off pre lib trk img m fm d
  | None => []
  end.

(** An image [_write_image] writes without an exception. *)
Definition img_writable (off : Z) (img : image) : Prop :=
  is_Some (image_wire img) /\
  0 <= img_size img + off < 256 ^ Z.of_nat 4 /\
  0 <= img_width img < 256 ^ Z.of_nat 4 /\
  0 <= img_height img < 256 ^ Z.of_nat 4.

(** The root header and the artwork region of lines 161-163. *)
Definition root_out : bytes :=
  be_split 4 284 ++ tag_itch ++ be_split 4 2 ++ be_split 4 2 ++ be_split 4 2 ++
  be_split 4 0 ++ tag_artw.

Lemma root_header_Some : root_header = Some root_out.
Proof. reflexivity. Qed.

Section WriteOk.
Variables (off : Z) (pre : bytes) (lib trk : Z).
Hypothesis Hoff : 0 <= off < 256 ^ Z.of_nat 4.
Hypothesis Hlib : 0 <= lib < 256 ^ Z.of_nat 8.
Hypothesis Htrk : 0 <= trk < 256 ^ Z.of_nat 8.

(** The attributes [_write_image] reads. *)
Definition attrs_ok (g : itc) : Prop :=
  image_offset g = off /\ info_preamble g = Some pre /\
  library g = Some lib /\ track g = Some trk.

Lemma write_image_ok g num img :
  attrs_ok g -> images g !! num = Some img -> img_writable off img ->
  write_image num g = Ok tt (set_ws (ws g ++ image_out off pre lib trk img) g).
Proof.
  intros (Ho & Hp & Hl & Ht) Himg (Hw & Hsz & Hwd & Hht).
  unfold image_out, image_wire in *.
  destruct (img_data img) as [d|] eqn:Hd, (wire_method (img_method img)) as [m|] eqn:Hm,
    (wire_format (img_format img)) as [fm|] eqn:Hf; try by destruct Hw.
  unfold write_image, pack. itc_step. rewrite Himg. itc_step. rewrite Hd. itc_step.
  rewrite Hf. itc_step. rewrite Hm. itc_step. itc_step. rewrite Ho.
  unfold item_head, pack_L. rewrite !pack_uint_Some by done. cbn [pack_fields].
  itc_step. itc_step. rewrite Hp. itc_step. itc_step. itc_step. rewrite Hl, Ht.
  unfold item_ids, pack_Q_attr, pack_Q. rewrite !pack_uint_Some by done. cbn [pack_fields].
  itc_step. unfold item_dims, pack_L. rewrite !pack_uint_Some by done. cbn [pack_fields].
  itc_step. unfold ws_write. rewrite !bind_modify.
  destruct (decide (off = ITUNES_OLD)); rewrite ?bind_modify; unfold modify;
    f_equal; unfold set_ws; cbn; f_equal; rewrite <- !app_assoc; f_equal;
    unfold item_out, item_header_out; rewrite ?decide_True, ?decide_False by done;
    rewrite <- !app_assoc; cbn [app]; rewrite <- ?app_assoc; done.
Qed.
Lemma attrs_ok_set_ws g x : attrs_ok g -> attrs_ok (set_ws x g).
Proof. done. Qed.

(** The loop of lines 165-166 from index [a] on. *)
Lemma write_images_from l a g :
  attrs_ok g -> drop a (images g) = l -> Forall (img_writable off) l ->
  for_each (seq a (length l)) write_image g =
    Ok tt (set_ws (ws g ++ concat (map (image_out off pre lib trk) l)) g).
Proof.
  revert a g. induction l as [|img l IH]; intros a g Hg Hl Hw.
  - simpl. rewrite app_nil_r. by destruct g.
  - apply Forall_cons in Hw as [Hw1 Hw]. cbn [seq for_each length].
    assert (Hi : images g !! a = Some img).
    { rewrite <- (Nat.add_0_r a), <- lookup_drop, Hl. done. }
    erewrite bind_Ok by (apply write_image_ok; eauto).
    rewrite IH; [| by apply attrs_ok_set_ws | | done].
    + cbn. by rewrite <- app_assoc.
    + cbn. rewrite <- Nat.add_1_r, <- drop_drop, Hl. done.
Qed.

(** [write] succeeds on writable images and emits the root header, the
    artwork region and one frame per image, in order. *)
Lemma write_ok fname f :
  (fname <> ""%string \/ filename f <> ""%string) ->
  attrs_ok f -> Forall (img_writable off) (images f) ->
  write fname f =
    Ok tt (set_ws (root_out ++ replicate 256 Byte.x00 ++
                   concat (map (image_out off pre lib trk) (images f))) f).
Proof.
  intros Hname Hf Hw. unfold write, pack. itc_step.
  destruct (decide (fname = ""%string)) as [->|Hn].
  - rewrite decide_False by (destruct Hname; done). itc_step.
    itc_step. rewrite root_header_Some. itc_step. unfold ws_write. itc_step. itc_step. itc_step.
    rewrite write_images_from; [| done | apply drop_0 | done].
    unfold set_ws; cbn. by rewrite <- !app_assoc.
  - itc_step. itc_step. rewrite root_header_Some. itc_step. unfold ws_write.
    itc_step. itc_step. itc_step.
    rewrite write_images_from; [| done | apply drop_0 | done].
    unfold set_ws; cbn. by rewrite <- !app_assoc.
Qed.
End WriteOk.

(** ** Inversion of a successful [_write_image] *)

(** [_write_image] only appends to the file, and it succeeds only on an
    image whose format and method have a wire tag. *)
Lemma write_image_Ok_inv num g u g' :
  write_image num g = Ok u g' ->
  images g' = images g /\ (exists sfx, ws g' = ws g ++ sfx) /\
  exists img, images g !! num = Some img /\
    is_Some (wire_format (img_format img)) /\ is_Some (wire_method (img_method img)).
Proof.
  unfold write_image, pack, bind, gets, of_option, ws_write, modify, ret, raise.
  intros Hrun. repeat (case_match; try congruence); simplify_eq/=; split_and!; eauto.
  all: eexists; cbn; rewrite <- !app_assoc; reflexivity.
Qed.

Lemma for_each_write_image_Ok xs g g' :
  for_each xs write_image g = Ok tt g' ->
  images g' = images g /\ (exists sfx, ws g' = ws g ++ sfx) /\
  Forall (fun num => exists img, images g !! num = Some img /\
            is_Some (wire_format (img_format img)) /\ is_Some (wire_method (img_method img))) xs.
Proof.
  revert g. induction xs as [|x xs IH]; intros g Hrun; cbn in Hrun.
  - unfold ret in Hrun. simplify_eq. split_and!; [done| exists []; by rewrite app_nil_r | constructor].
  - unfold bind in Hrun. destruct (write_image x g) as [[] g1|] eqn:Hx; [|done].
    apply write_image_Ok_inv in Hx as (Hi & [s1 Hs1] & Himg).
    apply IH in Hrun as (Hi' & [s2 Hs2] & Hall). rewrite Hi in Hall.
    split_and!; [congruence | exists (s1 ++ s2); by rewrite Hs2, Hs1, app_assoc | by constructor].
Qed.

(** [write] is the filename check followed by the loop on the object
    whose file holds the root header and the artwork region. *)
Lemma write_unfold fname f :
  write fname f =
    if bool_decide (fname = ""%string) && bool_decide (filename f = ""%string)
    then Exc (ITCException NoFilename) f
    else for_each (seq 0 (length (images f))) write_image
           (set_ws (root_out ++ replicate 256 Byte.x00) f).
Proof.
  unfold write. rewrite bind_gets.
  destruct (decide (fname = ""%string)) as [->|Hn].
  - rewrite bool_decide_true by done. simpl.
    destruct (decide (filename f = ""%string)) as [E|E];
      [by rewrite bool_decide_true|rewrite bool_decide_false by done]; reflexivity.
  - rewrite bool_decide_false by done. reflexivity.
Qed.

(** A successful [write] emitted the root header and the artwork region
    first, and every image it wrote had a wire format and method. *)
Lemma write_Ok_inv fname f f' :
  write fname f = Ok tt f' ->
  (exists sfx, ws f' = root_out ++ replicate 256 Byte.x00 ++ sfx) /\
  Forall (fun img => is_Some (wire_format (img_format img)) /\
                     is_Some (wire_method (img_method img))) (images f).
Proof.
  rewrite write_unfold. case_match; [done|]. intros Hrun.
  apply for_each_write_image_Ok in Hrun as (_ & [sfx Hsfx] & Hall).
  cbn [ws images set_ws] in Hsfx, Hall.
  split; [exists sfx; rewrite Hsfx; by rewrite <- app_assoc|].
  apply Forall_lookup. intros i img Hi.
  rewrite Forall_forall in Hall. pose proof (lookup_lt_Some _ _ _ Hi).
  destruct (Hall i) as (img' & Hi' & Hf & Hm); [apply elem_of_seq; lia|].
  simplify_eq. done.
Qed.

(** ** Properties of the writer *)

(** C3: [write] on writable images succeeds and the file is the 28-byte
    root header (an "itch" frame declaring 284 bytes), the 256 zero
    bytes of the artwork region, and one item
    frame per image, in order; [add_image]'s images, [ITUNES_OLD] and
    'ARGB' included. *)
Theorem write_emits_frames fname f off pre lib trk :
  0 <= off < 256 ^ Z.of_nat 4 -> 0 <= lib < 256 ^ Z.of_nat 8 -> 0 <= trk < 256 ^ Z.of_nat 8 ->
  (fname <> ""%string \/ filename f <> ""%string) ->
  attrs_ok off pre lib trk f -> Forall (img_writable off) (images f) ->
  exists f', write fname f = Ok tt f' /\
    ws f' = root_out ++ replicate 256 Byte.x00 ++ concat (map (image_out off pre lib trk) (images f)) /\
    images f' = images f.
Proof. intros. eexists. split; [by apply (write_ok off pre lib trk)|]. done. Qed.

(** The length of the frame [_write_image] emits: the offset plus the
    payload, plus 4 for [ITUNES_OLD], whenever the header fits in the
    offset (it does for both variants). *)
Theorem item_out_length off pre lib trk img m fm d :
  length m = 4%nat -> length fm = 4%nat ->
  Z.of_nat (length (item_header_out off pre lib trk img m fm)) + 4 <= off ->
  Z.of_nat (length (item_out off pre lib trk img m fm d)) =
    off + (if decide (off = ITUNES_OLD) then 4 else 0) + Z.of_nat (length d).
Proof.
  intros Hm Hf Hle. unfold item_out.
  rewrite !length_app, length_replicate, pack_s_length.
  destruct (decide (off = ITUNES_OLD)); cbn [length]; rewrite ?length_replicate; lia.
Qed.

(** C20: Every exception of [_write_image] is raised before its first
    write (the header is packed whole, line 203-209, before line 213):
    a failing call leaves the object and the file unchanged. *)
Theorem write_image_atomic num g e g' :
  write_image num g = Exc e g' -> g' = g.
Proof.
  unfold write_image, pack, bind, gets, of_option, ws_write, modify, ret, raise.
  intros Hrun. repeat (case_match; try congruence).
Qed.

Lemma string_of_list_ascii_app a b :
  String.string_of_list_ascii (a ++ b) =
    String.append (String.string_of_list_ascii a) (String.string_of_list_ascii b).
Proof.
  induction a as [|x a IH]; [done|]. cbn [app String.string_of_list_ascii].
  change (String.String x (String.string_of_list_ascii (a ++ b)) =
          String.String x (String.append (String.string_of_list_ascii a) (String.string_of_list_ascii b))).
  by rewrite IH.
Qed.

Lemma string_append_empty_r s : String.append s EmptyString = s.
Proof.
  induction s as [|x s IH]; [done|].
  change (String.String x (String.append s EmptyString) = String.String x s). by rewrite IH.
Qed.

(** [os.path.splitext] splits the path: the root followed by the
    extension is the path, on every branch. *)
Theorem splitext_roundtrip p : String.append (fst (splitext p)) (snd (splitext p)) = p.
Proof.
  unfold splitext. repeat case_match; cbn [fst snd]; try apply string_append_empty_r.
  rewrite <- string_of_list_ascii_app, take_drop. apply String.string_of_list_ascii_of_string.
Qed.

(** ** Concrete instances *)

(** A local PNG of 3x4 pixels with a one-byte payload, in an [ITUNES_9]
    object with library 1 and track 2, as [read] leaves it. *)
Definition sample_image : image := mk_image 3 4 (Some [Byte.x01]) FmtPNG MLocal 1.

Definition sample_itc (off : Z) (pre : bytes) (imgs : list image) : itc :=
  mk_itc "a.itc" (Some 1) (Some 2) imgs off false (Some pre) false (open_read []) [].

Lemma write_emits_frames_witness :
  exists f', write "" (sample_itc ITUNES_9 (replicate 16 Byte.x00) [sample_image]) = Ok tt f' /\
    ws f' = root_out ++ replicate 256 Byte.x00 ++
      concat (map (image_out ITUNES_9 (replicate 16 Byte.x00) 1 2)
        (images (sample_itc ITUNES_9 (replicate 16 Byte.x00) [sample_image]))) /\
    images f' = images (sample_itc ITUNES_9 (replicate 16 Byte.x00) [sample_image]).
Proof.
  apply (write_emits_frames "" (sample_itc ITUNES_9 (replicate 16 Byte.x00) [sample_image]) ITUNES_9 (replicate 16 Byte.x00) 1 2);
    [unfold ITUNES_9; simpl; lia | simpl; lia | simpl; lia | right; discriminate
    | repeat split | ].
  constructor; [|constructor]. split; [eexists; reflexivity|]. unfold ITUNES_9; simpl; lia.
Defined.

Lemma write_image_atomic_witness :
  write_image 0 (sample_itc ITUNES_9 (replicate 16 Byte.x00) [mk_image 3 4 None FmtPNG MLocal 1]) =
    Exc (ITCWarning NoImageData)
      (sample_itc ITUNES_9 (replicate 16 Byte.x00) [mk_image 3 4 None FmtPNG MLocal 1]).
Proof.
  destruct (write_image 0 (sample_itc ITUNES_9 (replicate 16 Byte.x00) [mk_image 3 4 None FmtPNG MLocal 1]))
    as [u g'|e g'] eqn:E; [vm_compute in E; discriminate|].
  pose proof (write_image_atomic _ _ _ _ E) as ->. vm_compute in E. congruence.
Defined.

(** ** Writer behaviours the spec does not describe *)

(** [write] never succeeds on an object holding an image whose format
    has no wire tag. *)
Lemma write_rejects_untagged_format fname f img :
  img ∈ images f -> wire_format (img_format img) = None ->
  forall f', write fname f <> Ok tt f'.
Proof.
  intros Hin Hnone f' Hw. apply write_Ok_inv in Hw as [_ Hall].
  rewrite Forall_forall in Hall. destruct (Hall img Hin) as [[t Ht] _]. congruence.
Qed.

(** C22: The reader names the tag 0x0000000D 'JPEG' (line 321), the writer
    knows only 'PNG', 'JPG' and 'ARGB' (lines 182-190): [write] never
    succeeds on an object holding a record read as JPEG, so a container
    with a JPEG image cannot be read and written back. *)
Theorem write_rejects_jpeg fname f img :
  img ∈ images f -> img_format img = FmtJPEG -> forall f', write fname f <> Ok tt f'.
Proof. intros Hin Hj. apply (write_rejects_untagged_format _ _ img Hin). by rewrite Hj. Qed.

Lemma write_rejects_jpeg_witness :
  mk_image 3 4 (Some [Byte.x01]) FmtJPEG MLocal 1 ∈
    images (sample_itc ITUNES_9 (replicate 16 Byte.x00) [mk_image 3 4 (Some [Byte.x01]) FmtJPEG MLocal 1]) /\
  forall f', write "" (sample_itc ITUNES_9 (replicate 16 Byte.x00)
                        [mk_image 3 4 (Some [Byte.x01]) FmtJPEG MLocal 1]) <> Ok tt f'.
Proof.
  split; [by left|].
  apply (write_rejects_jpeg "" _ (mk_image 3 4 (Some [Byte.x01]) FmtJPEG MLocal 1)); [by left | reflexivity].
Defined.
