(* ===== verification/Findings.v ===== *)
(** Behaviours of the reader ([read], [_parse_item] in
    src/scripts/itc.py) that the spec does not describe or that
    contradict it: on every container of their kind, a truncated
    payload is accepted and conflicting library ids abort the read; on a
    crafted frame [read] loops for ever; the metadata-only mode, which
    agrees with the full mode on well-formed containers, loops for ever
    on a frame whose payload length is negative.  The writer's findings are
    at the end of [ItcWrite], the [ITUNES_OLD] one in [RoundTrip]. *)

From S2P Require Import Prelude Struct PyFile ItcModel ItcRead ItcWrite.

Open Scope Z_scope.

(** ** A truncated payload is not an error *)

(** C33: The spec requires a loud failure on an incomplete declared frame
    body.  On any container whose last item frame declares a payload
    longer than what is left of the file, the code's [read(data_size)]
    (line 337) returns the bytes present and [read] succeeds: the last
    image holds those bytes with the declared length, which disagrees
    with them. *)
Theorem read_truncated_payload fname fuel g off pre lib trk skip size skip16 region xs
    mtag ftag w h gap data D :
  Forall (spec_ok off pre lib trk skip) xs ->
  item_ok off pre lib trk mtag ftag skip w h gap -> 0 <= off + D < 256 ^ Z.of_nat 4 ->
  Z.of_nat (length data) < D ->
  0 <= size < 256 ^ Z.of_nat 4 -> length skip16 = 16%nat -> length region = 256%nat ->
  (length xs + 3 <= fuel)%nat ->
  exists g', read fname (root_frame size skip16 region ++ concat (map (spec_frame off pre lib trk skip) xs) ++
                         frame_header (off + D) tag_item ++ item_body off pre lib trk mtag ftag skip w h gap data)
               false fuel g = Ok tt g' /\
    images g' = map (spec_image false) xs ++
                [mk_image w h (Some data) (format_of_tag ftag) (method_of_tag mtag) D].
Proof.
  intros Hok Hitem Hsz HD Hsz0 H16 H256 Hfuel.
  assert (exists m, fuel = S (S (length xs + S m))) as [m ->] by (exists (fuel - length xs - 3)%nat; lia).
  match goal with |- exists g', ?lhs = _ /\ _ => eenough (lhs = Ok tt ?[g']) as E end.
  2: {
    unfold read. itc_step. itc_step.
    rewrite <- (Nat.add_succ_r (length xs) (S m)), read_loop_S.
    erewrite bind_Ok by (eapply (read_frame_root _ _ []); [lia|done..|reflexivity]). cbv beta iota.
    rewrite (read_loop_items off pre lib trk skip xs _ (S (S m)) _ (root_frame size skip16 region)
               (frame_header (off + D) tag_item ++ item_body off pre lib trk mtag ftag skip w h gap data));
      [|lia|done| cbn; by rewrite length_root_frame | by left | by left].
    rewrite read_loop_S.
    erewrite bind_Ok by (eapply (read_frame_item_truncated _ _ (root_frame size skip16 region ++
        concat (map (spec_frame off pre lib trk skip) xs)) off pre lib trk mtag ftag skip w h gap data D);
        [lia | exact Hitem | done | lia | by destruct xs |
        rewrite rs_after_items, <- app_assoc, length_app, Nat2Z.inj_add; reflexivity |
        destruct xs; [by left | by right] | destruct xs; [by left | by right]]).
    cbv beta iota. rewrite read_loop_S.
    erewrite bind_Ok by (apply read_frame_eof; cbn; rewrite !length_app; lia). reflexivity. }
  eexists. split; [exact E|]. cbn. rewrite images_after_items. by destruct xs.
Qed.

(** ** A frame that sends the reader back to its own start *)

(** An "item" frame of declared size 0 whose image offset is 0: the
    reader seeks to [start + 0 - 8], the frame's own first byte, and
    reads a payload of [0 - 0] bytes. *)
Definition stuck_frame : bytes :=
  frame_header 0 tag_item ++ be_split 4 0 ++ replicate 36 Byte.x00.

Lemma read_frame_stuck k g :
  rs g = mk_stream stuck_frame 0 -> id_fits (library g) 0 -> id_fits (track g) 0 ->
  exists g', read_frame (S k) g = Ok false g' /\
    rs g' = mk_stream stuck_frame 0 /\ library g' = Some 0 /\ track g' = Some 0.
Proof.
  destruct g as [fn lib trk imgs off q pre lo s w]; cbn; intros -> Hl Ht.
  destruct Hl as [->| ->], Ht as [->| ->], lo;
    (match goal with |- exists g', ?r = _ /\ _ => destruct r eqn:E end;
     vm_compute in E; simplify_eq; eexists; split; [reflexivity|]; done).
Qed.

(** A state predicate that every pass of the loop restores (each pass
    reads a frame and reports "not done") keeps the loop running until
    the fuel is spent. *)
Lemma read_loop_cycle (P : itc -> Prop) k n g :
  (forall g, P g -> exists g', read_frame (S k) g = Ok false g' /\ P g') -> P g ->
  exists g', read_loop (S k) n g = Exc OutOfFuel g'.
Proof.
  intros Hstep. revert g. induction n as [|n IH]; intros g Hg; [by eexists|].
  rewrite read_loop_S. destruct (Hstep g Hg) as (g1 & Hg1 & HP1).
  erewrite bind_Ok by exact Hg1. cbv beta iota. by apply IH.
Qed.

(** C18: On the 48-byte file [stuck_frame], [read] does not terminate in
    either mode: whatever the fuel, the loop of lines 130-132 is still
    running when it runs out (each pass appends one more image). *)
Theorem read_never_terminates fname lo fuel g :
  exists g', read fname stuck_frame lo fuel g = Exc OutOfFuel g'.
Proof.
  unfold read. rewrite !bind_modify. destruct fuel as [|k]; [by eexists|].
  apply (read_loop_cycle (fun g => rs g = mk_stream stuck_frame 0 /\
                                   id_fits (library g) 0 /\ id_fits (track g) 0)).
  - intros g' (Hrs & Hl & Ht). destruct (read_frame_stuck k g') as (g1 & ? & ? & ? & ?); [done..|].
    exists g1. split; [done|]. split_and!; [done | by right | by right].
  - split_and!; [done | by left | by left].
Qed.

(** ** Conflicting library ids abort the read *)

(** C32: The spec says the read proceeds with a warning and keeps the
    first library id.  On any container whose item frames carry one
    library id and are followed by a frame with another, the code raises
    [ITCWarning] (line 297), an exception, which aborts [read] there: the
    object keeps the first id and only the records before the
    conflicting frame; what follows it is never read. *)
Theorem read_conflicting_library fname lo fuel g off pre lib lib' trk skip size skip16 region xs x rest :
  Forall (spec_ok off pre lib trk skip) xs -> xs <> [] -> spec_ok off pre lib' trk skip x -> lib' <> lib ->
  0 <= size < 256 ^ Z.of_nat 4 -> length skip16 = 16%nat -> length region = 256%nat ->
  (length xs + 2 <= fuel)%nat ->
  exists g', read fname (root_frame size skip16 region ++ concat (map (spec_frame off pre lib trk skip) xs) ++
                         spec_frame off pre lib' trk skip x ++ rest) lo fuel g =
               Exc (ITCWarning MultipleLibrary) g' /\
    library g' = Some lib /\ images g' = map (spec_image lo) xs.
Proof.
  intros Hok Hne [Hx Hxsz] Hlib Hsz0 H16 H256 Hfuel.
  assert (exists m, fuel = S (S (length xs + m))) as [m ->] by (exists (fuel - length xs - 2)%nat; lia).
  rewrite <- (Nat.add_succ_r (length xs) m).
  match goal with |- exists g', ?lhs = _ /\ _ =>
    eenough (lhs = read_loop (S (length xs + S m)) (S m) ?[st]) as E end.
  2: { unfold read. itc_step. itc_step. rewrite read_loop_S.
       erewrite bind_Ok by (eapply (read_frame_root _ _ []); [lia|done..|reflexivity]). cbv beta iota.
       rewrite (read_loop_items off pre lib trk skip xs _ (S m) _ (root_frame size skip16 region)
                  (spec_frame off pre lib' trk skip x ++ rest));
         [reflexivity|lia|done| cbn; by rewrite length_root_frame | by left | by left]. }
  rewrite E, read_loop_S. unfold spec_frame at 2.
  match goal with |- exists g', bind _ _ ?st = _ /\ _ =>
    destruct (read_frame_item_conflict (S (length xs + S m)) st (root_frame size skip16 region ++
      concat (map (spec_frame off pre lib trk skip) xs)) rest off pre lib' trk (sp_mtag x) (sp_ftag x) skip
      (sp_w x) (sp_h x) (sp_gap x) (sp_data x) lib) as (g' & Hr & Hl & Hi) end;
    [lia | exact Hx | exact Hxsz |
     rewrite rs_after_items, <- !app_assoc, length_app, Nat2Z.inj_add; reflexivity |
     apply ids_after_items, Hne | done |].
  erewrite bind_Exc by exact Hr. exists g'. split; [done|]. split; [done|].
  rewrite Hi, images_after_items. by destruct xs.
Qed.

(** ** Metadata-only mode *)

(** A record without its payload, as the metadata-only mode reports it. *)
Definition drop_payload (img : image) : image :=
  mk_image (img_width img) (img_height img) None (img_format img) (img_method img) (img_size img).

(** C16: On every well-formed container both modes of [read] terminate and
    report the same records, the metadata-only mode without payloads. *)
Theorem read_modes_agree fname fuel g off pre lib trk skip size skip16 region xs tail :
  Forall (spec_ok off pre lib trk skip) xs ->
  0 <= size < 256 ^ Z.of_nat 4 -> length skip16 = 16%nat -> length region = 256%nat ->
  (length tail < 8)%nat -> (length xs + 2 <= fuel)%nat ->
  let c := root_frame size skip16 region ++ concat (map (spec_frame off pre lib trk skip) xs) ++ tail in
  exists g1 g2, read fname c true fuel g = Ok tt g1 /\ read fname c false fuel g = Ok tt g2 /\
    images g1 = map drop_payload (images g2).
Proof.
  intros Hok Hsz H16 H256 Htail Hfuel c. eexists _, _.
  split_and!; [by apply read_container | by apply read_container |].
  rewrite !images_after_items. cbn. rewrite map_map. done.
Qed.

(** An item frame of declared size 0 with the offset of [ITUNES_9]: its
    payload length [size - image_offset] is -208. *)
Definition back_frame : bytes :=
  frame_header 0 tag_item ++
  item_body ITUNES_9 (replicate 16 Byte.x00) 1 7 tag_locl tag_PNGf (replicate 4 Byte.x00)
    1 1 (replicate 144 Byte.x00) [Byte.xab].

Lemma read_frame_back k g :
  rs g = mk_stream back_frame 0 -> list_only g = true ->
  id_fits (library g) 1 -> id_fits (track g) 7 ->
  exists g', read_frame (S k) g = Ok false g' /\
    rs g' = mk_stream back_frame 0 /\ list_only g' = true /\ library g' = Some 1 /\ track g' = Some 7.
Proof.
  destruct g as [fn lib trk imgs off q pre lo s w]; cbn; intros -> -> Hl Ht.
  destruct Hl as [->| ->], Ht as [->| ->];
    (match goal with |- exists g', ?r = _ /\ _ => destruct r eqn:E end;
     vm_compute in E; simplify_eq; eexists; split; [reflexivity|]; done).
Qed.

(** C19: The spec says the metadata-only mode reports what the full mode
    reports.  On [back_frame] the full mode reads the rest of the file
    as the payload ([read(-208)]) and returns, while the metadata-only
    mode seeks 208 bytes back ([seek(-208, SEEK_CUR)]) to the start of
    the frame and loops for ever. *)
Theorem metadata_mode_diverges g :
  (exists g', read "t" back_frame false 2 g = Ok tt g' /\
     map img_size (images g') = [-208] /\ map img_data (images g') = [Some [Byte.xab]]) /\
  forall fuel, exists g', read "t" back_frame true fuel g = Exc OutOfFuel g'.
Proof.
  split.
  - destruct (read "t" back_frame false 2 g) eqn:E; vm_compute in E; simplify_eq.
    eexists. split; [reflexivity|]. split; reflexivity.
  - intros fuel. unfold read. rewrite !bind_modify. destruct fuel as [|k]; [by eexists|].
    apply (read_loop_cycle (fun g => rs g = mk_stream back_frame 0 /\ list_only g = true /\
                                     id_fits (library g) 1 /\ id_fits (track g) 7)).
    + intros g' (Hrs & Hlo & Hl & Ht).
      destruct (read_frame_back k g') as (g1 & ? & ? & ? & ? & ?); [done..|].
      exists g1. split; [done|]. split_and!; [done | done | by right | by right].
    + split_and!; [done | done | by left | by left].
Qed.

Lemma read_modes_agree_witness :
  exists g1 g2,
    read "a.itc" (root_frame 284 (replicate 16 Byte.x00) (replicate 256 Byte.x00) ++
      concat (map (spec_frame ITUNES_9 (replicate 16 Byte.x00) 1 2 (replicate 4 Byte.x00))
        [sample_spec; sample_spec]) ++ []) true 4 (ITCFile ITUNES_9 true) = Ok tt g1 /\
    read "a.itc" (root_frame 284 (replicate 16 Byte.x00) (replicate 256 Byte.x00) ++
      concat (map (spec_frame ITUNES_9 (replicate 16 Byte.x00) 1 2 (replicate 4 Byte.x00))
        [sample_spec; sample_spec]) ++ []) false 4 (ITCFile ITUNES_9 true) = Ok tt g2 /\
    images g1 = map drop_payload (images g2).
Proof.
  apply read_modes_agree.
  - repeat constructor; apply sample_spec_ok.
  - simpl; lia.
  - reflexivity.
  - reflexivity.
  - simpl; lia.
  - simpl; lia.
Defined.

Lemma read_truncated_payload_witness :
  exists g', read "t" (root_frame 284 (replicate 16 Byte.x00) (replicate 256 Byte.x00) ++
      concat (map (spec_frame ITUNES_9 (replicate 16 Byte.x00) 1 2 (replicate 4 Byte.x00)) [sample_spec]) ++
      frame_header (ITUNES_9 + 5) tag_item ++
      item_body ITUNES_9 (replicate 16 Byte.x00) 1 2 tag_locl tag_PNGf (replicate 4 Byte.x00) 3 4
        (replicate 144 Byte.x00) [Byte.x01; Byte.x02]) false 4 (ITCFile ITUNES_9 false) = Ok tt g' /\
    images g' = map (spec_image false) [sample_spec] ++
                [mk_image 3 4 (Some [Byte.x01; Byte.x02]) (format_of_tag tag_PNGf) (method_of_tag tag_locl) 5].
Proof.
  apply (read_truncated_payload "t" 4 (ITCFile ITUNES_9 false) ITUNES_9 (replicate 16 Byte.x00) 1 2
           (replicate 4 Byte.x00) 284 (replicate 16 Byte.x00) (replicate 256 Byte.x00) [sample_spec]
           tag_locl tag_PNGf 3 4 (replicate 144 Byte.x00) [Byte.x01; Byte.x02] 5).
  - repeat constructor; apply sample_spec_ok.
  - exact (proj1 sample_spec_ok).
  - unfold ITUNES_9; simpl; lia.
  - simpl; lia.
  - simpl; lia.
  - reflexivity.
  - reflexivity.
  - simpl; lia.
Defined.

(** The frame of [sample_spec] with the library id 3. *)
Lemma sample_spec_ok_lib3 :
  spec_ok ITUNES_9 (replicate 16 Byte.x00) 3 2 (replicate 4 Byte.x00) sample_spec.
Proof.
  split; [split; [left; split; reflexivity|idtac..]|]; unfold ITUNES_9; cbn;
    first [reflexivity | lia].
Qed.

Lemma read_conflicting_library_witness :
  exists g', read "c" (root_frame 284 (replicate 16 Byte.x00) (replicate 256 Byte.x00) ++
      concat (map (spec_frame ITUNES_9 (replicate 16 Byte.x00) 1 2 (replicate 4 Byte.x00)) [sample_spec]) ++
      spec_frame ITUNES_9 (replicate 16 Byte.x00) 3 2 (replicate 4 Byte.x00) sample_spec ++ [Byte.xff])
      false 3 (ITCFile ITUNES_9 false) = Exc (ITCWarning MultipleLibrary) g' /\
    library g' = Some 1 /\ images g' = map (spec_image false) [sample_spec].
Proof.
  apply (read_conflicting_library "c" false 3 (ITCFile ITUNES_9 false) ITUNES_9 (replicate 16 Byte.x00) 1 3 2
           (replicate 4 Byte.x00) 284 (replicate 16 Byte.x00) (replicate 256 Byte.x00) [sample_spec]
           sample_spec [Byte.xff]).
  - repeat constructor; apply sample_spec_ok.
  - discriminate.
  - exact sample_spec_ok_lib3.
  - lia.
  - simpl; lia.
  - reflexivity.
  - reflexivity.
  - simpl; lia.
Defined.
