(* ===== verification/RoundTrip.v ===== *)
(** Write-then-read of a container: the bytes [write] emits for the
    [ITUNES_9] variant are a root frame followed by well-formed item
    frames, so [read] decodes them back (refinement of the image list by
    the byte layout), with the format strings renamed as the reader names
    them.  Then the [ITUNES_OLD] variant, whose payload comes back
    shifted, and the file [write] leaves, which [can_handle] accepts. *)

From S2P Require Import Prelude Struct PyFile ItcModel ItcRead ItcWrite.

Open Scope Z_scope.

(** ** What the reader reports for what the writer wrote *)

(** The format the reader names a written format tag with. *)
Definition reread_format (format : fmt) : fmt :=
  match format with
  | FmtJPG => FmtJPEG
  | FmtARGB => FmtNone
  | x => x
  end.

(** The image the reader rebuilds from a written image. *)
Definition reread (lo : bool) (img : image) : image :=
  mk_image (img_width img) (img_height img) (if lo then None else img_data img)
    (reread_format (img_format img)) (img_method img) (img_size img).

(** An image whose frame survives the round trip: writable, with a
    length field equal to the payload's length. *)
Definition rt_image (img : image) : Prop :=
  img_writable ITUNES_9 img /\
  forall d, img_data img = Some d -> img_size img = Z.of_nat (length d).

Lemma format_of_wire fm t : wire_format fm = Some t -> format_of_tag (pack_s 4 t) = reread_format fm.
Proof. destruct fm; intros H; cbn in H; simplify_eq; reflexivity. Qed.

Lemma method_of_wire m t : wire_method m = Some t -> method_of_tag (pack_s 4 t) = m.
Proof. destruct m; intros H; cbn in H; simplify_eq; reflexivity. Qed.

Lemma length_pack_wire fm t : wire_format fm = Some t -> length (pack_s 4 t) = 4%nat.
Proof. intros _. apply pack_s_length. Qed.

(** ** The writer's frame as a reader layout *)

(** The bytes between the dimensions and the payload in an [ITUNES_9]
    frame: three zero bytes, width and height again, padding, "data". *)
Definition gap9 (img : image) : bytes :=
  pack_s 3 (replicate 3 Byte.x00) ++ be_split 4 (img_width img) ++ be_split 4 (img_height img) ++
  replicate 129 Byte.x00 ++ pack_s 4 tag_data.

Definition spec_of (img : image) : item_spec :=
  match image_wire img with
  | Some (d, m, fm) => mk_spec (pack_s 4 m) (pack_s 4 fm) (img_width img) (img_height img) (gap9 img) d
  | None => mk_spec [] [] 0 0 [] []
  end.

Definition skip16 : bytes := be_split 4 2 ++ be_split 4 2 ++ be_split 4 2 ++ be_split 4 0.

Section Variant9.
Variables (pre : bytes) (lib trk : Z).
Hypothesis Hpre : length pre = 16%nat.
Hypothesis Hlib : 0 <= lib < 256 ^ Z.of_nat 8.
Hypothesis Htrk : 0 <= trk < 256 ^ Z.of_nat 8.

Lemma image_out_frame img :
  rt_image img ->
  image_out ITUNES_9 pre lib trk img = spec_frame ITUNES_9 pre lib trk (replicate 4 Byte.x00) (spec_of img).
Proof.
  intros [[[[[d m] fm] Hw] _] Hsz]. unfold image_out, spec_of. rewrite Hw.
  pose proof Hw as Hw'. unfold image_wire in Hw'.
  destruct (img_data img) as [d'|] eqn:Hd; [|done].
  destruct (wire_method (img_method img)), (wire_format (img_format img)); simplify_eq/=.
  specialize (Hsz d eq_refl).
  assert (Hl : Z.to_nat (ITUNES_9 - Z.of_nat (length (item_header_out ITUNES_9 pre lib trk img m fm)) - 4) = 129%nat).
  { unfold item_header_out. autorewrite with itc_run. rewrite Hpre. reflexivity. }
  unfold item_out. rewrite Hl, decide_False by done.
  unfold item_header_out, spec_frame, frame_header, item_body, ids_block, dims_block, gap9.
  rewrite Hsz, Z.add_comm, <- !app_assoc. done.
Qed.

Lemma spec_of_ok img :
  rt_image img -> spec_ok ITUNES_9 pre lib trk (replicate 4 Byte.x00) (spec_of img).
Proof.
  intros [[[[[d m] fm] Hw] (Hs & Hwd & Hht)] Hsz]. unfold spec_of. rewrite Hw.
  pose proof Hw as Hw'. unfold image_wire in Hw'.
  destruct (img_data img) as [d'|] eqn:Hd; [|done].
  destruct (wire_method (img_method img)), (wire_format (img_format img)); simplify_eq/=.
  specialize (Hsz d eq_refl).
  split; [split|]; cbn; autorewrite with itc_run; try done.
  - by left.
  - unfold gap9. autorewrite with itc_run. rewrite Hpre. reflexivity.
  - unfold ITUNES_9 in *. lia.
Qed.
Lemma spec_image_of lo img : rt_image img -> spec_image lo (spec_of img) = reread lo img.
Proof.
  intros [[[[[d m] fm] Hw] _] Hsz]. unfold spec_of, spec_image, reread. rewrite Hw.
  pose proof Hw as Hw'. unfold image_wire in Hw'.
  destruct (img_data img) as [d'|] eqn:Hd; [|done].
  destruct (wire_method (img_method img)) eqn:Hm, (wire_format (img_format img)) eqn:Hf;
    simplify_eq/=.
  rewrite (format_of_wire _ _ Hf), (method_of_wire _ _ Hm), (Hsz d eq_refl). done.
Qed.

(** The writer's output is a reader layout. *)
Lemma written_layout imgs :
  Forall rt_image imgs ->
  root_out ++ replicate 256 Byte.x00 ++ concat (map (image_out ITUNES_9 pre lib trk) imgs) =
  root_frame 284 skip16 (replicate 256 Byte.x00) ++
  concat (map (spec_frame ITUNES_9 pre lib trk (replicate 4 Byte.x00)) (map spec_of imgs)).
Proof.
  intros Hrt. rewrite map_map.
  erewrite map_ext_Forall;
    [|eapply Forall_impl; [exact Hrt|]; intros; by apply image_out_frame].
  unfold root_out, root_frame, frame_header, skip16. by rewrite <- !app_assoc.
Qed.
End Variant9.

(** ** The round trip *)

(** C1: Writing an [ITUNES_9] object whose images are writable and carry
    their payload's length succeeds, and reading the file back (with
    enough fuel: two more than the number of images) succeeds and gives
    the same images, in the same order, with the payload (or none in
    metadata-only mode), and with the format renamed as the reader names
    it: 'JPG' comes back as 'JPEG' and 'ARGB' as unclassified.  The
    library and track ids and the variant come back too. *)
Theorem write_read_roundtrip f g fname fname' lo fuel pre lib trk :
  image_offset f = ITUNES_9 -> info_preamble f = Some pre -> length pre = 16%nat ->
  library f = Some lib -> track f = Some trk ->
  0 <= lib < 256 ^ Z.of_nat 8 -> 0 <= trk < 256 ^ Z.of_nat 8 ->
  (fname <> ""%string \/ filename f <> ""%string) ->
  Forall rt_image (images f) -> (length (images f) + 2 <= fuel)%nat ->
  exists f' g',
    write fname f = Ok tt f' /\
    read fname' (ws f') lo fuel g = Ok tt g' /\
    images g' = map (reread lo) (images f) /\
    (images f <> [] -> library g' = Some lib /\ track g' = Some trk /\
                       image_offset g' = ITUNES_9 /\ info_preamble g' = Some pre).
Proof.
  intros Ho Hp H16 Hl Ht Hlib Htrk Hname Hrt Hfuel.
  assert (Hw : Forall (img_writable ITUNES_9) (images f)) by (eapply Forall_impl; [exact Hrt|]; by intros ? []).
  rewrite (write_ok ITUNES_9 pre lib trk) by (done || (unfold ITUNES_9; lia)).
  eexists _, _. split; [done|]. cbn [ws set_ws]. rewrite written_layout by done.
  rewrite <- (app_nil_r (concat _)), read_container.
  - split; [done|]. rewrite images_after_items. cbn. split.
    + rewrite map_map. apply map_ext_Forall. eapply Forall_impl; [exact Hrt|].
      intros. by apply spec_image_of.
    + intros Hne. apply ids_after_items. by destruct (images f).
  - rewrite Forall_map. eapply Forall_impl; [exact Hrt|]. intros. by apply spec_of_ok.
  - done.
  - done.
  - done.
  - cbn. lia.
  - by rewrite length_map.
Qed.

Lemma write_read_roundtrip_witness :
  exists f' g',
    write "" (sample_itc ITUNES_9 (replicate 16 Byte.x00) [sample_image]) = Ok tt f' /\
    read "a.itc" (ws f') false 3 (ITCFile ITUNES_9 false) = Ok tt g' /\
    images g' = map (reread false) (images (sample_itc ITUNES_9 (replicate 16 Byte.x00) [sample_image])) /\
    (images (sample_itc ITUNES_9 (replicate 16 Byte.x00) [sample_image]) <> [] ->
       library g' = Some 1 /\ track g' = Some 2 /\
       image_offset g' = ITUNES_9 /\ info_preamble g' = Some (replicate 16 Byte.x00)).
Proof.
  apply (write_read_roundtrip (sample_itc ITUNES_9 (replicate 16 Byte.x00) [sample_image])
    (ITCFile ITUNES_9 false) "" "a.itc" false 3 (replicate 16 Byte.x00) 1 2);
    try reflexivity; try (simpl; lia); [right; discriminate|].
  constructor; [|constructor]. split.
  - split; [eexists; reflexivity|]. unfold ITUNES_9; simpl; lia.
  - intros d Hd. cbn in Hd. simplify_eq. reflexivity.
Defined.

(** ** The [ITUNES_OLD] variant does not round-trip *)

Definition gap_old (img : image) : bytes :=
  pack_s 3 (replicate 3 Byte.x00) ++ be_split 4 (img_width img) ++ be_split 4 (img_height img) ++
  replicate 133 Byte.x00 ++ pack_s 4 tag_data.

(** The payload the reader finds in the writer's [ITUNES_OLD] frame
    for the payload [d]: four zero bytes, then [d] without its last four
    bytes. *)
Definition old_payload (d : bytes) : bytes := replicate 4 Byte.x00 ++ take (length d - 4) d.

(** What the reader sees in the writer's [ITUNES_OLD] frame: a payload
    that starts with the four extra zero bytes and misses the last four. *)
Definition spec_old (img : image) : item_spec :=
  match image_wire img with
  | Some (d, m, fm) =>
      mk_spec (pack_s 4 m) (pack_s 4 fm) (img_width img) (img_height img) (gap_old img)
        (old_payload d)
  | None => mk_spec [] [] 0 0 [] []
  end.

Section VariantOld.
Variables (pre : bytes) (lib trk : Z) (img : image) (d m fm : bytes).
Hypothesis Hpre : length pre = 20%nat.
Hypothesis Hlib : 0 <= lib < 256 ^ Z.of_nat 8.
Hypothesis Htrk : 0 <= trk < 256 ^ Z.of_nat 8.
Hypothesis Hwire : image_wire img = Some (d, m, fm).
Hypothesis Hw : img_writable ITUNES_OLD img.
Hypothesis Hsz : img_size img = Z.of_nat (length d).
Hypothesis Hd4 : (4 <= length d)%nat.

Lemma image_out_old :
  image_out ITUNES_OLD pre lib trk img =
  spec_frame ITUNES_OLD pre lib trk (replicate 4 Byte.x00) (spec_old img) ++ drop (length d - 4) d.
Proof.
  unfold image_out, spec_old. rewrite Hwire.
  assert (Hl : Z.to_nat (ITUNES_OLD - Z.of_nat (length (item_header_out ITUNES_OLD pre lib trk img m fm)) - 4) = 133%nat).
  { unfold item_header_out. autorewrite with itc_run. rewrite Hpre. reflexivity. }
  unfold item_out. rewrite Hl, decide_True by done.
  unfold item_header_out, spec_frame, frame_header, item_body, ids_block, dims_block, gap_old.
  replace (img_size img + ITUNES_OLD)
    with (ITUNES_OLD + Z.of_nat (length (old_payload d)))
    by (unfold old_payload; rewrite length_app, length_replicate, length_take; lia).
  cbn [sp_data sp_mtag sp_ftag sp_w sp_h sp_gap]. unfold old_payload. rewrite <- !app_assoc, take_drop.
  reflexivity.
Qed.

Lemma spec_old_ok : spec_ok ITUNES_OLD pre lib trk (replicate 4 Byte.x00) (spec_old img).
Proof.
  destruct Hw as (_ & Hs & Hwd & Hht). unfold spec_old. rewrite Hwire.
  pose proof Hwire as Hw'. unfold image_wire in Hw'.
  destruct (img_data img), (wire_method (img_method img)) eqn:Hm,
    (wire_format (img_format img)) eqn:Hf; simplify_eq/=.
  split; [split|]; cbn; autorewrite with itc_run; try done.
  - by right.
  - unfold gap_old. autorewrite with itc_run. rewrite Hpre. reflexivity.
  - rewrite length_take. unfold ITUNES_OLD in *. lia.
Qed.
End VariantOld.

(** C17: Writing an [ITUNES_OLD] object with one image of payload [d]
    (at least four bytes) succeeds, but reading the file back gives the
    payload [0,0,0,0] followed by [d] without its last four bytes: the
    writer adds four zero bytes after the tag "data" (line 217-218) that
    the frame size does not count, while the reader takes the payload
    from [start + image_offset - 8] (line 328). *)
Theorem old_variant_shifts_payload f g fname fname' fuel pre lib trk img d :
  image_offset f = ITUNES_OLD -> info_preamble f = Some pre -> length pre = 20%nat ->
  library f = Some lib -> track f = Some trk ->
  0 <= lib < 256 ^ Z.of_nat 8 -> 0 <= trk < 256 ^ Z.of_nat 8 ->
  (fname <> ""%string \/ filename f <> ""%string) ->
  images f = [img] -> img_writable ITUNES_OLD img -> img_data img = Some d ->
  img_size img = Z.of_nat (length d) -> (4 <= length d)%nat -> (3 <= fuel)%nat ->
  exists f' g',
    write fname f = Ok tt f' /\
    read fname' (ws f') false fuel g = Ok tt g' /\
    map img_data (images g') = [Some (old_payload d)].
Proof.
  intros Ho Hp H20 Hl Ht Hlib Htrk Hname Himgs Hw Hd Hsz Hd4 Hfuel.
  destruct (image_wire img) as [[[d' m] fm]|] eqn:Hwire;
    [|destruct Hw as [[? Hx] _]; congruence].
  assert (d' = d) as ->.
  { unfold image_wire in Hwire. rewrite Hd in Hwire.
    destruct (wire_method (img_method img)), (wire_format (img_format img)); by simplify_eq. }
  rewrite (write_ok ITUNES_OLD pre lib trk);
    [| unfold ITUNES_OLD; lia | done | done | done | done | rewrite Himgs; by constructor].
  eexists _, _. split; [done|]. cbn [ws set_ws]. rewrite Himgs. cbn [map concat].
  rewrite app_nil_r, (image_out_old pre lib trk img d m fm) by done.
  replace (root_out ++ replicate 256 Byte.x00 ++
           spec_frame ITUNES_OLD pre lib trk (replicate 4 Byte.x00) (spec_old img) ++ drop (length d - 4) d)
    with (root_frame 284 skip16 (replicate 256 Byte.x00) ++
          concat (map (spec_frame ITUNES_OLD pre lib trk (replicate 4 Byte.x00)) [spec_old img]) ++
          drop (length d - 4) d)
    by (unfold root_out, root_frame, frame_header, skip16; cbn [map concat]; by rewrite app_nil_r, <- !app_assoc).
  rewrite read_container.
  - split; [done|]. rewrite images_after_items. cbn. unfold spec_old. by rewrite Hwire.
  - constructor; [|constructor]. by apply (spec_old_ok pre lib trk img d m fm).
  - done.
  - done.
  - done.
  - rewrite length_drop. lia.
  - cbn. lia.
Qed.

Lemma old_variant_shifts_payload_witness :
  exists f' g',
    write "" (sample_itc ITUNES_OLD (replicate 20 Byte.x00)
               [mk_image 3 4 (Some [Byte.x01; Byte.x02; Byte.x03; Byte.x04; Byte.x05]) FmtPNG MLocal 5])
      = Ok tt f' /\
    read "a.itc" (ws f') false 3 (ITCFile ITUNES_OLD false) = Ok tt g' /\
    map img_data (images g') = [Some (old_payload [Byte.x01; Byte.x02; Byte.x03; Byte.x04; Byte.x05])].
Proof.
  apply (old_variant_shifts_payload
    (sample_itc ITUNES_OLD (replicate 20 Byte.x00)
      [mk_image 3 4 (Some [Byte.x01; Byte.x02; Byte.x03; Byte.x04; Byte.x05]) FmtPNG MLocal 5])
    (ITCFile ITUNES_OLD false) "" "a.itc" 3 (replicate 20 Byte.x00) 1 2
    (mk_image 3 4 (Some [Byte.x01; Byte.x02; Byte.x03; Byte.x04; Byte.x05]) FmtPNG MLocal 5)
    [Byte.x01; Byte.x02; Byte.x03; Byte.x04; Byte.x05]);
    try reflexivity; try (simpl; lia); [right; discriminate|].
  split; [eexists; reflexivity|]. unfold ITUNES_OLD; simpl; lia.
Defined.

(** ** The file [write] produces is recognised *)

(** The file [write fname] leaves when it succeeds. *)
Definition written_file (fname : string) (f : itc) : option bytes :=
  match write fname f with Ok _ f' => Some (ws f') | Exc _ _ => None end.

Lemma can_handle_root rest : can_handle (root_out ++ rest) = true.
Proof. vm_compute. reflexivity. Qed.

(** C34: Every file a successful [write] produced passes [can_handle] (its
    bytes 4-7 are the tag itch), whatever the images. *)
Theorem written_file_can_handle fname f c :
  written_file fname f = Some c -> can_handle c = true.
Proof.
  unfold written_file. destruct (write fname f) as [[] f'|] eqn:Hw; intros Hc; [|done].
  apply write_Ok_inv in Hw as [[sfx Hs] _]. simplify_eq. rewrite Hs. apply can_handle_root.
Qed.

Lemma written_file_can_handle_witness :
  exists c, written_file "" (sample_itc ITUNES_9 (replicate 16 Byte.x00) [sample_image]) = Some c /\
    can_handle c = true.
Proof.
  destruct (written_file "" (sample_itc ITUNES_9 (replicate 16 Byte.x00) [sample_image]))
    as [c|] eqn:E; [|vm_compute in E; discriminate].
  exists c. split; [reflexivity|]. exact (written_file_can_handle _ _ _ E).
Defined.
