(* ===== verification/Zlib.v ===== *)
(** The two functions of Python 2's [zlib] module that [EasyPNG]
    (src/scripts/itc.py, lines 55-75) calls: [zlib.crc32], which returns
    the CRC-32 of its argument as a signed 32-bit integer, and
    [zlib.compressobj(level)] whose [compress(d) + flush()] is a zlib
    stream of [d].  The CRC is the standard reflected CRC-32 (polynomial
    0xEDB88320), written bit by bit.  The compressor is an interface
    (the class [Zlib]) whose law is that decompression inverts it;
    [stored_zlib] is an instance that emits what zlib emits at level 0:
    the header 78 01, stored deflate blocks of at most 65535 bytes, and
    the Adler-32 of the data. *)

From S2P Require Import Prelude Struct.

Open Scope Z_scope.

(** ** CRC-32 *)

Definition crc_poly : Z := 3988292384.   (** 0xEDB88320 *)

(** One bit of the reflected CRC register. *)
Definition crc_shift (c : Z) : Z :=
  if Z.testbit c 0 then Z.lxor (Z.shiftr c 1) crc_poly else Z.shiftr c 1.

Definition crc_update (c : Z) (b : byte) : Z := Nat.iter 8 crc_shift (Z.lxor c (Z_of_byte b)).

(** The CRC-32 as an unsigned 32-bit value. *)
Definition crc32_u (l : bytes) : Z :=
  Z.lxor (fold_left crc_update l (2 ^ 32 - 1)) (2 ^ 32 - 1).

(** [zlib.crc32] in Python 2: the same bits read as a signed integer. *)
Definition crc32 (l : bytes) : Z :=
  let r := crc32_u l in if r <? 2 ^ 31 then r else r - 2 ^ 32.

(** ** Adler-32 *)

Definition adler_step (ab : Z * Z) (x : byte) : Z * Z :=
  let a := (fst ab + Z_of_byte x) mod 65521 in (a, (snd ab + a) mod 65521).

Definition adler32 (l : bytes) : Z :=
  let ab := fold_left adler_step l (1, 0) in snd ab * 65536 + fst ab.

(** ** The compressor interface *)

(** [compressobj(level).compress(d) + compressobj.flush()]: a zlib
    stream that decompresses to [d]. *)
Class Zlib := {
  zlib_compress : Z -> bytes -> bytes;
  zlib_decompress : bytes -> option bytes;
  zlib_decompress_compress lvl d : zlib_decompress (zlib_compress lvl d) = Some d;
}.

(** ** Level 0: stored blocks *)

(** A stored deflate block: the header byte (BFINAL, BTYPE = 00), LEN and
    NLEN in little-endian order, then the bytes. *)
Definition stored_block (final : bool) (c : bytes) : bytes :=
  (if final then Byte.x01 else Byte.x00) ::
  le_split 2 (Z.of_nat (length c)) ++ le_split 2 (65535 - Z.of_nat (length c)) ++ c.

(** The largest stored block, 65535 bytes. *)
Definition max_block : nat := Z.to_nat 65535.

(** The data cut in blocks of [max_block] bytes; [k] bounds the number of
    blocks after the first. *)
Fixpoint stored_blocks (k : nat) (d : bytes) : bytes :=
  match k with
  | O => stored_block true d
  | S k' =>
      if decide (length d <= max_block)%nat then stored_block true d
      else stored_block false (take max_block d) ++ stored_blocks k' (drop max_block d)
  end.

Definition stored_compress (lvl : Z) (d : bytes) : bytes :=
  [Byte.x78; Byte.x01] ++ stored_blocks (length d) d ++ be_split 4 (adler32 d).

(** Reading stored blocks up to the final one; returns the data and
    what follows. *)
Fixpoint inflate_stored (fuel : nat) (s : bytes) : option (bytes * bytes) :=
  match fuel, s with
  | S f, h :: l0 :: l1 :: n0 :: n1 :: rest =>
      let len := le_combine [l0; l1] in
      if decide (le_combine [n0; n1] = 65535 - len /\ (Z.to_nat len <= length rest)%nat) then
        let blk := take (Z.to_nat len) rest in
        if decide (h = Byte.x01) then Some (blk, drop (Z.to_nat len) rest)
        else if decide (h = Byte.x00) then
          match inflate_stored f (drop (Z.to_nat len) rest) with
          | Some (d, r) => Some (blk ++ d, r)
          | None => None
          end
        else None
      else None
  | _, _ => None
  end.

Definition stored_decompress (s : bytes) : option bytes :=
  match s with
  | cmf :: flg :: rest =>
      if decide (cmf = Byte.x78 /\ flg = Byte.x01) then
        match inflate_stored (length rest) rest with
        | Some (d, tr) => if decide (tr = be_split 4 (adler32 d)) then Some d else None
        | None => None
        end
      else None
  | _ => None
  end.

(** ** Bounds of the CRC *)

Lemma lt_pow2_bits a n :
  0 <= a -> 0 <= n -> (forall m, n <= m -> Z.testbit a m = false) -> a < 2 ^ n.
Proof.
  intros Ha Hn Hb. destruct (Z.eq_dec a 0) as [->|Hne]; [apply Z.pow_pos_nonneg; lia|].
  apply Z.log2_lt_pow2; [lia|]. destruct (Z.lt_ge_cases (Z.log2 a) n) as [|Hge]; [done|].
  pose proof (Z.bit_log2 a ltac:(lia)) as Hbit. rewrite Hb in Hbit by lia. discriminate.
Qed.

Lemma testbit_high a n m : 0 <= n -> 0 <= a < 2 ^ n -> n <= m -> Z.testbit a m = false.
Proof. intros Hn Ha Hm. rewrite <- (Z.mod_small a (2 ^ n)) by lia. apply Z.mod_pow2_bits_high. lia. Qed.

Lemma lxor_lt_pow2 a b n :
  0 <= n -> 0 <= a < 2 ^ n -> 0 <= b < 2 ^ n -> 0 <= Z.lxor a b < 2 ^ n.
Proof.
  intros Hn Ha Hb. assert (0 <= Z.lxor a b) by (apply Z.lxor_nonneg; lia).
  split; [done|]. apply lt_pow2_bits; [done | done |].
  intros m Hm. rewrite Z.lxor_spec, !(testbit_high _ n) by lia. done.
Qed.

Lemma crc_shift_range c : 0 <= c < 2 ^ 32 -> 0 <= crc_shift c < 2 ^ 32.
Proof.
  intros Hc. assert (0 <= Z.shiftr c 1 < 2 ^ 32).
  { rewrite Z.shiftr_div_pow2 by lia. split; [apply Z.div_pos; lia|].
    apply Z.div_lt_upper_bound; lia. }
  unfold crc_shift. destruct (Z.testbit c 0); [|done].
  apply lxor_lt_pow2; [lia | done | unfold crc_poly; lia].
Qed.

Lemma crc_iter_range k c : 0 <= c < 2 ^ 32 -> 0 <= Nat.iter k crc_shift c < 2 ^ 32.
Proof. induction k as [|k IH]; intros Hc; [done|]. apply crc_shift_range, IH, Hc. Qed.

Lemma crc_fold_range l c : 0 <= c < 2 ^ 32 -> 0 <= fold_left crc_update l c < 2 ^ 32.
Proof.
  revert c. induction l as [|b l IH]; intros c Hc; [done|]. apply IH.
  apply crc_iter_range, lxor_lt_pow2; [lia | done |]. pose proof (Z_of_byte_range b). lia.
Qed.

Lemma crc32_u_range l : 0 <= crc32_u l < 2 ^ 32.
Proof. apply lxor_lt_pow2; [lia | apply crc_fold_range; lia | lia]. Qed.

(** The signed CRC is the unsigned one modulo [2^32]. *)
Lemma crc32_mod l : crc32 l mod 2 ^ 32 = crc32_u l.
Proof.
  pose proof (crc32_u_range l). unfold crc32.
  destruct (Z.ltb_spec (crc32_u l) (2 ^ 31)); [by apply Z.mod_small|].
  replace (crc32_u l - 2 ^ 32) with (crc32_u l + (-1) * 2 ^ 32) by lia.
  rewrite Z_mod_plus_full. by apply Z.mod_small.
Qed.

Lemma crc32_range l : - 2 ^ 31 <= crc32 l < 2 ^ 31.
Proof. pose proof (crc32_u_range l). unfold crc32. destruct (Z.ltb_spec (crc32_u l) (2 ^ 31)); lia. Qed.

(** ** The stored-block instance inverts *)

Lemma max_block_Z : Z.of_nat max_block = 65535.
Proof. reflexivity. Qed.

Lemma le_combine_split2 x :
  0 <= x < 65536 -> le_combine [byte_of_Z x; byte_of_Z (x / 256)] = x.
Proof. intros Hx. exact (eq_trans (le_combine_split 2 x) (Z.mod_small x _ Hx)). Qed.

Lemma inflate_stored_block final c t f :
  (length c <= max_block)%nat ->
  inflate_stored (S f) (stored_block final c ++ t) =
    if final then Some (c, t)
    else match inflate_stored f t with Some (d, r) => Some (c ++ d, r) | None => None end.
Proof.
  intros Hc. pose proof max_block_Z.
  unfold stored_block. cbn [app le_split inflate_stored].
  rewrite !le_combine_split2 by lia.
  rewrite !Nat2Z.id, take_app_length, drop_app_length.
  rewrite decide_True by (split; [done | rewrite length_app; lia]). by destruct final.
Qed.

Lemma inflate_stored_blocks k d t f :
  Z.of_nat (length d) <= 65535 * (Z.of_nat k + 1) -> (k < f)%nat ->
  inflate_stored f (stored_blocks k d ++ t) = Some (d, t).
Proof.
  pose proof max_block_Z. revert d f.
  induction k as [|k IH]; intros d [|f] Hd Hf; try lia; cbn [stored_blocks].
  - by rewrite inflate_stored_block by lia.
  - case_decide; [by rewrite inflate_stored_block|].
    rewrite <- app_assoc, inflate_stored_block by (rewrite length_take; lia).
    rewrite IH by (rewrite ?length_drop; lia). by rewrite take_drop.
Qed.

Lemma length_stored_blocks k d : (length d + 5 <= length (stored_blocks k d))%nat.
Proof.
  pose proof max_block_Z. revert d.
  induction k as [|k IH]; intros d; cbn [stored_blocks]; unfold stored_block.
  - cbn [length le_split app]. lia.
  - case_decide; [cbn [length le_split app]; lia|].
    rewrite length_app. cbn [length le_split app].
    specialize (IH (drop max_block d)). rewrite length_drop in IH. rewrite length_take. lia.
Qed.

Lemma stored_decompress_compress lvl d : stored_decompress (stored_compress lvl d) = Some d.
Proof.
  unfold stored_compress, stored_decompress. cbn [app].
  rewrite decide_True by done.
  rewrite inflate_stored_blocks.
  - by rewrite decide_True.
  - lia.
  - pose proof (length_stored_blocks (length d) d). rewrite length_app. lia.
Qed.

(** zlib at level 0 (stored blocks). *)
#[export] Instance stored_zlib : Zlib := {|
  zlib_compress := stored_compress;
  zlib_decompress := stored_decompress;
  zlib_decompress_compress := stored_decompress_compress;
|}.

(** [struct.pack('!l', zlib.crc32(s))] never fails and gives the
    standard big-endian CRC bytes. *)
Lemma crc32_pack_l l : pack_l (crc32 l) = Some (be_split 4 (crc32_u l)).
Proof.
  unfold pack_l. pose proof (crc32_range l).
  destruct (Z.leb_spec (- 2 ^ 31) (crc32 l)), (Z.ltb_spec (crc32 l) (2 ^ 31)); try lia. cbn.
  f_equal. rewrite <- (be_split_mod 4 (crc32 l)).
  change (256 ^ Z.of_nat 4) with (2 ^ 32). by rewrite crc32_mod.
Qed.

(** ** Check values *)

(** The standard check value of CRC-32 (the CRC of the ASCII digits
    "123456789" is 0xCBF43926), and [zlib.crc32('IEND')] as Python 2
    returns it: 0xAE426082 as a signed integer, the CRC that closes
    every PNG file.  The Adler-32 of "Wikipedia" is 0x11E60398. *)
Example crc32_check_values :
  crc32_u (pystr "123456789") = 3421780262 /\ crc32 (pystr "IEND") = 2923585666 - 2 ^ 32 /\
  adler32 (pystr "Wikipedia") = 300286872.
Proof. split_and!; vm_compute; reflexivity. Qed.
