(* ===== verification/Png.v ===== *)
(** Class [EasyPNG] of src/scripts/itc.py (lines 41-91), which the
    exporter uses to turn a raw ARGB payload into a PNG file: the
    signature, an IHDR chunk, one IDAT chunk holding the zlib stream of
    the filtered rows, and an IEND chunk, each chunk framed with its
    length and the CRC-32 of its tag and data.  The object's state is its
    compression level and the bytes written to its file [_writes]; zlib
    is the interface [Zlib].  The pixel loop of [_write_argb_data] is
    proved equal to a reference definition that cuts the buffer in rows
    and pixels and permutes each pixel from ARGB to RGBA. *)

From S2P Require Import Prelude Struct ItcModel Zlib.

Open Scope Z_scope.

(** ** The object *)

(** [self.compression] and the file [self._writes] (its contents). *)
Record easypng := mk_easypng { compression : Z; writes : bytes }.

(** [EasyPNG(compression=0)] before [write] gave it a file. *)
Definition EasyPNG (c : Z) : easypng := mk_easypng c [].

(** [self.color_type.truecolor_alpha] (lines 44-45). *)
Definition truecolor_alpha : Z := 6.

Definition png_signature : bytes :=
  [Byte.x89; Byte.x50; Byte.x4e; Byte.x47; Byte.x0d; Byte.x0a; Byte.x1a; Byte.x0a].

Definition tag_IHDR : bytes := pystr "IHDR".
Definition tag_IDAT : bytes := pystr "IDAT".
Definition tag_IEND : bytes := pystr "IEND".

Definition out_write (b : bytes) : M easypng unit :=
  modify (fun p => mk_easypng (compression p) (writes p ++ b)).

Definition png_pack (o : option bytes) : M easypng bytes := of_option StructError o.

(** [range(n)] on an integer (empty when [n <= 0]). *)
Definition zrange (n : Z) : list Z := map Z.of_nat (seq 0 (Z.to_nat n)).

(** [ord(s[i])] on the payload [s], which is [None] after a
    metadata-only read ([TypeError]). *)
Definition str_at (s : option bytes) (i : Z) : M bytes byte :=
  match s with
  | None => raise TypeError
  | Some l => of_option IndexError (py_index l i)
  end.

Section EasyPNG.
Context `{Zlib}.

(** [_write_box(name, data, length)] (lines 55-61). *)
Definition write_box (name data : bytes) (length : Z) : M easypng unit :=
  if 0 <? length then
    b <- png_pack (pack_fields [pack_L length; Some (pack_s 4 name);
                                Some (pack_s (Z.to_nat length) data); pack_l (crc32 (name ++ data))]) ;;
    out_write b
  else
    b <- png_pack (pack_fields [pack_L 0; Some (pack_s 4 name); pack_l (crc32 name)]) ;;
    out_write b.

(** [_write_header(width, height, depth, color_type)] (lines 63-67). *)
Definition write_header (width height depth color_type : Z) : M easypng unit :=
  data <- png_pack (pack_fields [pack_L width; pack_L height; pack_B depth; pack_B color_type;
                                 pack_B 0; pack_B 0; pack_B 0]) ;;
  write_box tag_IHDR data 13.

(** [_write_data(data)] (lines 69-75). *)
Definition write_data (data : bytes) : M easypng unit :=
  lvl <- gets compression ;;
  let compressed := zlib_compress lvl data in
  write_box tag_IDAT compressed (Z.of_nat (length compressed)).

(** One pixel of the loop of lines 81-86, appended to the array [data]. *)
Definition argb_pixel (argb : option bytes) (width y x : Z) : M bytes unit :=
  let offset := ((y * width) + x) * 4 in
  r <- str_at argb (offset + 1) ;; modify (fun d => d ++ [r]) ;;
  g <- str_at argb (offset + 2) ;; modify (fun d => d ++ [g]) ;;
  b <- str_at argb (offset + 3) ;; modify (fun d => d ++ [b]) ;;
  a <- str_at argb offset ;; modify (fun d => d ++ [a]).

(** The loops of lines 79-86 on the local array [data]. *)
Definition argb_loop (width height : Z) (argb : option bytes) : M bytes unit :=
  for_each (zrange height) (fun y =>
    modify (fun d => d ++ [Byte.x00]) ;;
    for_each (zrange width) (fun x => argb_pixel argb width y x)).

(** [_write_argb_data(width, height, argb_data, length)] (lines 77-88);
    [length] is not used. *)
Definition write_argb_data (width height : Z) (argb : option bytes) (length : Z) : M easypng unit :=
  fun p => match argb_loop width height argb [] with
           | Ok _ data => write_data data p
           | Exc e _ => Exc e p
           end.

(** [_write_end()] (lines 90-91). *)
Definition write_end : M easypng unit := write_box tag_IEND [] 0.

(** [write(image, fp)] (lines 47-53). *)
Definition png_write (img : image) (fp : bytes) : M easypng unit :=
  modify (fun p => mk_easypng (compression p) fp) ;;
  out_write png_signature ;;
  write_header (img_width img) (img_height img) 8 truecolor_alpha ;;
  write_argb_data (img_width img) (img_height img) (img_data img) (img_size img) ;;
  write_end.

End EasyPNG.

(** ** What [EasyPNG] writes *)

(** A PNG chunk: length, tag, data, and the CRC-32 of tag and data. *)
Definition chunk (tag data : bytes) : bytes :=
  be_split 4 (Z.of_nat (length data)) ++ tag ++ data ++ be_split 4 (crc32_u (tag ++ data)).

(** The IHDR data of an 8-bit RGBA image. *)
Definition ihdr (width height : Z) : bytes :=
  be_split 4 width ++ be_split 4 height ++ [Byte.x08; Byte.x06; Byte.x00; Byte.x00; Byte.x00].

Section Chunks.
Context `{Zlib}.

Lemma pack_L_Some z : 0 <= z < 2 ^ 32 -> pack_L z = Some (be_split 4 z).
Proof. intros Hz. by apply pack_uint_Some. Qed.

Lemma write_box_chunk name data p :
  length name = 4%nat -> Z.of_nat (length data) < 2 ^ 32 ->
  write_box name data (Z.of_nat (length data)) p =
    Ok tt (mk_easypng (compression p) (writes p ++ chunk name data)).
Proof.
  intros Hn Hd. unfold write_box, png_pack, out_write, chunk.
  replace (pack_s 4 name) with name by (rewrite <- Hn; symmetry; apply pack_s_exact).
  rewrite !crc32_pack_l.
  destruct (Z.ltb_spec 0 (Z.of_nat (length data))).
  - rewrite Nat2Z.id, pack_s_exact, pack_L_Some by lia. reflexivity.
  - destruct data; [|cbn in *; lia]. rewrite pack_L_Some by lia.
    cbn. by rewrite !app_nil_r.
Qed.
End Chunks.

(** ** The pixel loop against a reference *)

(** [k] pieces of [n] bytes. *)
Fixpoint chunks (n k : nat) (l : bytes) : list bytes :=
  match k with
  | O => []
  | S k' => take n l :: chunks n k' (drop n l)
  end.

(** An ARGB pixel as RGBA: the alpha byte moves to the end. *)
Definition argb_to_rgba (px : bytes) : bytes := drop 1 px ++ take 1 px.

(** The filtered image data of PNG: each row of [W] pixels after the
    filter byte 0, its pixels in RGBA order. *)
Definition rgba_scanlines (W H : nat) (argb : bytes) : bytes :=
  concat (map (fun row => Byte.x00 :: concat (map argb_to_rgba (chunks 4 W row)))
              (chunks (4 * W) H argb)).

Lemma chunks_take n k l : chunks n k (take (n * k) l) = chunks n k l.
Proof.
  revert l. induction k as [|k IH]; intros l; [done|]. cbn [chunks].
  rewrite take_take, Nat.min_l by lia. f_equal.
  rewrite <- IH, <- (IH (drop n l)). f_equal.
  rewrite !take_drop_commute, take_take. do 2 f_equal. lia.
Qed.

Lemma py_index_drop (l : bytes) (o i j : Z) (b : byte) :
  0 <= o -> 0 <= i -> j = o + i -> drop (Z.to_nat o) l !! Z.to_nat i = Some b ->
  py_index l j = Some b.
Proof.
  intros Ho Hi -> Hb. rewrite lookup_drop in Hb. pose proof (lookup_lt_Some _ _ _ Hb).
  rewrite py_index_nonneg by lia. rewrite <- Hb. f_equal. lia.
Qed.

Lemma argb_pixel_ok l w y x d :
  0 <= w -> 0 <= y -> 0 <= x -> (y * w + x) * 4 + 4 <= Z.of_nat (length l) ->
  argb_pixel (Some l) w y x d =
    Ok tt (d ++ argb_to_rgba (take 4 (drop (Z.to_nat ((y * w + x) * 4)) l))).
Proof.
  intros Hw Hy Hx Hl. unfold argb_pixel, str_at.
  assert (Ho : 0 <= (y * w + x) * 4) by nia.
  assert (Hlen : (4 <= length (drop (Z.to_nat ((y * w + x) * 4)) l))%nat) by (rewrite length_drop; lia).
  destruct (drop (Z.to_nat ((y * w + x) * 4)) l) as [|a [|r [|g [|b rest]]]] eqn:E;
    cbn in Hlen; try lia.
  set (o := (y * w + x) * 4) in *.
  assert (Hi : forall (i : Z) c, 0 <= i -> drop (Z.to_nat o) l !! Z.to_nat i = Some c ->
                 py_index l (o + i) = Some c).
  { intros i c Hi0 Hc. by apply (py_index_drop l o i). }
  assert (Ha : py_index l o = Some a) by (rewrite <- (Z.add_0_r o); apply Hi; rewrite ?E; reflexivity || lia).
  rewrite (Hi 1 r), (Hi 2 g), (Hi 3 b), Ha by (rewrite ?E; reflexivity || lia).
  cbn. unfold modify. by rewrite <- !app_assoc.
Qed.

Lemma argb_pixel_raise l w y x d :
  0 <= (y * w + x) * 4 -> Z.of_nat (length l) < (y * w + x) * 4 + 4 ->
  exists d', argb_pixel (Some l) w y x d = Exc IndexError d'.
Proof.
  intros Ho Hl. unfold argb_pixel, str_at.
  destruct (py_index l ((y * w + x) * 4 + 1)) eqn:E1; [|by eexists].
  destruct (py_index l ((y * w + x) * 4 + 2)) eqn:E2; [|by eexists].
  rewrite py_index_high by lia. by eexists.
Qed.

Lemma argb_row_ok l w y a n d :
  0 <= w -> 0 <= y -> (y * w + Z.of_nat (a + n)) * 4 <= Z.of_nat (length l) ->
  for_each (map Z.of_nat (seq a n)) (fun x => argb_pixel (Some l) w y x) d =
    Ok tt (d ++ concat (map argb_to_rgba (chunks 4 n (drop (Z.to_nat ((y * w + Z.of_nat a) * 4)) l)))).
Proof.
  revert a d. induction n as [|n IH]; intros a d Hw Hy Hl; cbn [seq map for_each chunks concat].
  - by rewrite app_nil_r.
  - erewrite bind_Ok by (apply argb_pixel_ok; lia).
    rewrite IH by lia. cbn [map concat]. rewrite drop_drop, <- app_assoc.
    pose proof (Z.mul_nonneg_nonneg y w Hy Hw). repeat f_equal. lia.
Qed.

Lemma argb_rows_ok l w a n d :
  0 <= w -> Z.of_nat (a + n) * w * 4 <= Z.of_nat (length l) ->
  for_each (map Z.of_nat (seq a n)) (fun y => modify (fun d => d ++ [Byte.x00]) ;;
      for_each (zrange w) (fun x => argb_pixel (Some l) w y x)) d =
    Ok tt (d ++ concat (map (fun row => Byte.x00 :: concat (map argb_to_rgba (chunks 4 (Z.to_nat w) row)))
                 (chunks (4 * Z.to_nat w) n (drop (4 * Z.to_nat w * a) l)))).
Proof.
  revert a d. induction n as [|n IH]; intros a d Hw Hl; cbn [seq map for_each chunks concat].
  - by rewrite app_nil_r.
  - cbv beta. rewrite bind_assoc, bind_modify. unfold zrange.
    erewrite bind_Ok by (apply argb_row_ok; nia).
    rewrite IH by nia. cbn [map concat]. rewrite drop_drop, chunks_take, <- !app_assoc.
    replace (Z.to_nat ((Z.of_nat a * w + Z.of_nat 0) * 4)) with (4 * Z.to_nat w * a)%nat by nia.
    replace (4 * Z.to_nat w * a + 4 * Z.to_nat w)%nat with (4 * Z.to_nat w * S a)%nat by lia.
    reflexivity.
Qed.

Lemma argb_loop_neg_width w h argb : w < 0 -> argb_loop w h argb = argb_loop 0 h argb.
Proof. intros Hw. unfold argb_loop, zrange. by replace (Z.to_nat w) with 0%nat by lia. Qed.

(** The loop computes the reference scanlines when the buffer holds
    the [4 * width * height] bytes it indexes. *)
Lemma argb_loop_ok w h l d :
  (4 * Z.to_nat w * Z.to_nat h <= length l)%nat ->
  argb_loop w h (Some l) d = Ok tt (d ++ rgba_scanlines (Z.to_nat w) (Z.to_nat h) l).
Proof.
  intros Hl. destruct (Z.le_gt_cases 0 w) as [Hw|Hw].
  - unfold argb_loop, zrange at 1. pose proof (Z2Nat.id w Hw).
    rewrite (argb_rows_ok l w 0) by nia. by rewrite Nat.mul_0_r, drop_0.
  - rewrite argb_loop_neg_width by lia. replace (Z.to_nat w) with (Z.to_nat 0) by lia.
    unfold argb_loop, zrange at 1. rewrite (argb_rows_ok l 0 0) by lia.
    by rewrite Nat.mul_0_r, drop_0.
Qed.

Lemma seq_split_at n k : (k < n)%nat -> seq 0 n = seq 0 k ++ k :: seq (S k) (n - S k).
Proof. intros Hk. replace n with (k + S (n - S k))%nat at 1 by lia. by rewrite seq_app. Qed.

(** A buffer shorter than [4 * width * height] bytes makes the loop
    raise [IndexError] at the first pixel that does not fit. *)
Lemma argb_loop_short w h l d :
  0 < w -> 0 < h -> (length l < 4 * Z.to_nat w * Z.to_nat h)%nat ->
  exists d', argb_loop w h (Some l) d = Exc IndexError d'.
Proof.
  intros Hw Hh Hl.
  destruct (Z_of_nat_complete w) as [W ->]; [lia|]. destruct (Z_of_nat_complete h) as [H ->]; [lia|].
  rewrite !Nat2Z.id in Hl.
  pose proof (Nat.div_mod (length l) (4 * W) ltac:(lia)) as Hdiv.
  pose proof (Nat.mod_upper_bound (length l) (4 * W) ltac:(lia)) as Hmod.
  pose proof (Nat.div_mod (length l mod (4 * W)) 4 ltac:(lia)) as Hdiv4.
  pose proof (Nat.mod_upper_bound (length l mod (4 * W)) 4 ltac:(lia)) as Hmod4.
  set (y0 := (length l / (4 * W))%nat) in *. set (x0 := (length l mod (4 * W) / 4)%nat) in *.
  unfold argb_loop, zrange. rewrite !Nat2Z.id.
  rewrite (seq_split_at H y0), map_app by nia. cbn [map].
  apply (for_each_emit_raise _ (fun y => Byte.x00 :: concat (map argb_to_rgba
           (chunks 4 W (drop (Z.to_nat ((y * Z.of_nat W + Z.of_nat 0) * 4)) l))))).
  - intros y Hy d1. apply list_elem_of_In, in_map_iff in Hy as (i & <- & Hi). apply in_seq in Hi.
    cbv beta. rewrite bind_modify, argb_row_ok by nia. by rewrite <- app_assoc.
  - intros d1. cbv beta. rewrite bind_modify.
    rewrite (seq_split_at W x0), map_app by nia. cbn [map].
    apply (for_each_emit_raise _ (fun x => argb_to_rgba
             (take 4 (drop (Z.to_nat ((Z.of_nat y0 * Z.of_nat W + x) * 4)) l)))).
    + intros x Hx d2. apply list_elem_of_In, in_map_iff in Hx as (i & <- & Hi). apply in_seq in Hi.
      apply argb_pixel_ok; nia.
    + intros d2. apply argb_pixel_raise; nia.
Qed.

(** ** A reader of the PNG files [EasyPNG] writes *)

(** One chunk: its tag, its data (of the declared length), with the
    CRC checked; returns what follows. *)
Definition parse_chunk (s : bytes) : option (bytes * bytes * bytes) :=
  match unpack_Ls (take 8 s) with
  | Some (len, tag) =>
      let data := take (Z.to_nat len) (drop 8 s) in
      let rest := drop (8 + Z.to_nat len) s in
      if decide (length data = Z.to_nat len /\ take 4 rest = be_split 4 (crc32_u (tag ++ data)))
      then Some (tag, data, drop 4 rest) else None
  | None => None
  end.

Lemma parse_chunk_chunk tag data t :
  length tag = 4%nat -> Z.of_nat (length data) < 2 ^ 32 ->
  parse_chunk (chunk tag data ++ t) = Some (tag, data, t).
Proof.
  intros Ht Hd. unfold parse_chunk, chunk. rewrite <- !app_assoc.
  rewrite (app_assoc (be_split 4 _) tag), take_app_length' by (rewrite length_app, length_be_split; lia).
  rewrite unpack_Ls_app, be_combine_split_small by (rewrite ?length_be_split; done || lia).
  rewrite Nat2Z.id, <- drop_drop.
  rewrite !drop_app_length' by (rewrite length_app, length_be_split; lia).
  rewrite take_app_length, drop_app_length.
  rewrite take_app_length', drop_app_length' by (rewrite length_be_split; lia).
  by rewrite decide_True.
Qed.

Section Decode.
Context `{Zlib}.

(** The PNG file of an 8-bit RGBA image of filtered data [raw]: the
    signature, IHDR, one IDAT chunk with the zlib stream, IEND. *)
Definition png_file (lvl w h : Z) (raw : bytes) : bytes :=
  png_signature ++ chunk tag_IHDR (ihdr w h) ++ chunk tag_IDAT (zlib_compress lvl raw) ++
  chunk tag_IEND [].

(** A reader for such files: width, height and the decompressed image
    data, after checking the signature, the chunk sequence, every CRC
    and the IHDR fields (depth 8, colour type 6, compression, filter and
    interlace 0). *)
Definition png_decode (s : bytes) : option (Z * Z * bytes) :=
  if decide (take 8 s = png_signature) then
    match parse_chunk (drop 8 s) with
    | Some (t1, hd, r1) =>
        match parse_chunk r1 with
        | Some (t2, zd, r2) =>
            match parse_chunk r2 with
            | Some (t3, ed, r3) =>
                if decide (t1 = tag_IHDR /\ t2 = tag_IDAT /\ t3 = tag_IEND /\ ed = [] /\ r3 = [] /\
                           length hd = 13%nat /\ drop 8 hd = [Byte.x08; Byte.x06; Byte.x00; Byte.x00; Byte.x00])
                then match zlib_decompress zd with
                     | Some raw => Some (be_combine (take 4 hd), be_combine (take 4 (drop 4 hd)), raw)
                     | None => None
                     end
                else None
            | None => None
            end
        | None => None
        end
    | None => None
    end
  else None.

Lemma png_decode_file lvl w h raw :
  0 <= w < 2 ^ 32 -> 0 <= h < 2 ^ 32 -> Z.of_nat (length (zlib_compress lvl raw)) < 2 ^ 32 ->
  png_decode (png_file lvl w h raw) = Some (w, h, raw).
Proof.
  intros Hw Hh Hz. unfold png_decode, png_file.
  rewrite take_app_length', drop_app_length' by done.
  rewrite decide_True by done.
  rewrite parse_chunk_chunk by (done || (unfold ihdr; rewrite !length_app, !length_be_split; cbn; lia)).
  rewrite parse_chunk_chunk by done.
  rewrite <- (app_nil_r (chunk tag_IEND [])), parse_chunk_chunk by (done || cbn; lia).
  unfold ihdr. rewrite decide_True.
  - rewrite zlib_decompress_compress, take_app_length', drop_app_length', take_app_length' by
      (rewrite ?length_be_split; done).
    rewrite !be_combine_split_small by done. done.
  - by split_and!.
Qed.
End Decode.

(** ** What [EasyPNG.write] does *)

Section Write.
Context `{Zlib}.

Lemma write_header_ok w h p :
  0 <= w < 2 ^ 32 -> 0 <= h < 2 ^ 32 ->
  write_header w h 8 truecolor_alpha p =
    Ok tt (mk_easypng (compression p) (writes p ++ chunk tag_IHDR (ihdr w h))).
Proof.
  intros Hw Hh. unfold write_header, png_pack.
  replace (pack_fields _) with (Some (ihdr w h)) by (rewrite !pack_L_Some by done; reflexivity).
  rewrite bind_of_option_Some.
  replace 13 with (Z.of_nat (length (ihdr w h))) by (unfold ihdr; rewrite !length_app, !length_be_split; done).
  by apply write_box_chunk.
Qed.

Lemma write_data_ok raw p :
  Z.of_nat (length (zlib_compress (compression p) raw)) < 2 ^ 32 ->
  write_data raw p =
    Ok tt (mk_easypng (compression p) (writes p ++ chunk tag_IDAT (zlib_compress (compression p) raw))).
Proof. intros Hz. unfold write_data. rewrite bind_gets. by apply write_box_chunk. Qed.

Lemma write_end_ok p :
  write_end p = Ok tt (mk_easypng (compression p) (writes p ++ chunk tag_IEND [])).
Proof. by apply write_box_chunk. Qed.

(** The whole method on an image whose buffer holds its pixels. *)
Lemma png_write_ok img l fp p :
  img_data img = Some l ->
  0 <= img_width img < 2 ^ 32 -> 0 <= img_height img < 2 ^ 32 ->
  (4 * Z.to_nat (img_width img) * Z.to_nat (img_height img) <= length l)%nat ->
  Z.of_nat (length (zlib_compress (compression p)
    (rgba_scanlines (Z.to_nat (img_width img)) (Z.to_nat (img_height img)) l))) < 2 ^ 32 ->
  png_write img fp p =
    Ok tt (mk_easypng (compression p) (fp ++ png_file (compression p) (img_width img) (img_height img)
             (rgba_scanlines (Z.to_nat (img_width img)) (Z.to_nat (img_height img)) l))).
Proof.
  intros Hd Hw Hh Hl Hz. unfold png_write, out_write. rewrite !bind_modify.
  erewrite bind_Ok by (apply write_header_ok; done). unfold write_argb_data at 1, bind at 1.
  rewrite Hd, argb_loop_ok by done. cbn [app].
  rewrite write_data_ok by done. rewrite write_end_ok.
  unfold png_file. cbn. by rewrite <- !app_assoc.
Qed.
End Write.

(** ** The exceptions of [EasyPNG.write] *)

Section Raises.
Context `{Zlib}.

Lemma png_exc_py e : e = StructError \/ e = IndexError \/ e = TypeError -> py_exc e.
Proof. intros [->|[->| ->]]; split; discriminate. Qed.

#[local] Hint Resolve png_exc_py : raises.

Lemma write_box_raises name data len : raises_only py_exc (write_box name data len).
Proof. unfold write_box, png_pack, out_write. solve_raises; auto with raises. Qed.

#[local] Hint Resolve write_box_raises : raises.

Lemma write_argb_data_raises w h d len : raises_only py_exc (write_argb_data w h d len).
Proof.
  assert (Hloop : raises_only py_exc (argb_loop w h d)).
  { unfold argb_loop, argb_pixel, str_at. solve_raises; auto with raises. }
  intros p e p'. unfold write_argb_data. destruct (argb_loop w h d []) as [|e' d'] eqn:E.
  - unfold write_data. revert e p'. apply raises_bind; [auto with raises|]. intros. apply write_box_raises.
  - intros [= <- _]. by eapply Hloop.
Qed.

#[local] Hint Resolve write_argb_data_raises : raises.

(** [EasyPNG.write] raises only Python exceptions ([struct.error],
    [IndexError], [TypeError]). *)
Lemma png_write_raises img fp : raises_only py_exc (png_write img fp).
Proof.
  unfold png_write, out_write, write_header, write_end, png_pack. solve_raises; auto with raises.
Qed.
End Raises.

(** ** Properties of [EasyPNG] *)

Section Properties.
Context `{Zlib}.

(** C6: The pixel loop of [_write_argb_data] (lines 77-88) computes the
    reference scanlines: for each row the filter byte 0 and the row's
    pixels with the alpha byte moved last, whenever the buffer holds the
    [4 * width * height] bytes it indexes (extra bytes are ignored). *)
Theorem write_argb_data_scanlines w h l len p :
  (4 * Z.to_nat w * Z.to_nat h <= length l)%nat ->
  write_argb_data w h (Some l) len p = write_data (rgba_scanlines (Z.to_nat w) (Z.to_nat h) l) p.
Proof. intros Hl. unfold write_argb_data. by rewrite argb_loop_ok. Qed.

(** C5: [EasyPNG.write] on an image whose buffer holds its pixels writes a
    PNG file that decodes (signature, chunk framing, every CRC, the IHDR
    fields, the zlib stream) to the image's width and height and its
    ARGB pixels as RGBA scanlines. *)
Theorem png_write_decodes img l p :
  img_data img = Some l ->
  0 <= img_width img < 2 ^ 32 -> 0 <= img_height img < 2 ^ 32 ->
  (4 * Z.to_nat (img_width img) * Z.to_nat (img_height img) <= length l)%nat ->
  Z.of_nat (length (zlib_compress (compression p)
    (rgba_scanlines (Z.to_nat (img_width img)) (Z.to_nat (img_height img)) l))) < 2 ^ 32 ->
  exists p', png_write img [] p = Ok tt p' /\
    png_decode (writes p') =
      Some (img_width img, img_height img,
            rgba_scanlines (Z.to_nat (img_width img)) (Z.to_nat (img_height img)) l).
Proof.
  intros Hd Hw Hh Hl Hz. eexists. split; [by apply png_write_ok|].
  by apply png_decode_file.
Qed.

(** C23: A buffer shorter than [4 * width * height] bytes: [EasyPNG.write]
    raises [IndexError] (the spec asks for an encoding error) after the
    signature and the IHDR chunk are written to the file. *)
Theorem png_write_short_buffer img l fp p :
  img_data img = Some l ->
  0 < img_width img < 2 ^ 32 -> 0 < img_height img < 2 ^ 32 ->
  (length l < 4 * Z.to_nat (img_width img) * Z.to_nat (img_height img))%nat ->
  png_write img fp p =
    Exc IndexError (mk_easypng (compression p)
      (fp ++ png_signature ++ chunk tag_IHDR (ihdr (img_width img) (img_height img)))).
Proof.
  intros Hd Hw Hh Hl. unfold png_write, out_write. rewrite !bind_modify.
  erewrite bind_Ok by (apply write_header_ok; lia). unfold write_argb_data at 1, bind at 1.
  rewrite Hd. destruct (argb_loop_short (img_width img) (img_height img) l [] ltac:(lia) ltac:(lia) Hl) as [d' ->].
  cbn. by rewrite <- app_assoc.
Qed.
(** C24: [struct.pack('!IIBBBBB', width, height, ...)] in [_write_header]
    (line 65): a width or a height outside [0, 2^32) raises
    [struct.error], and the file holds only the signature. *)
Theorem png_write_dims_range img fp p :
  ~ (0 <= img_width img < 2 ^ 32 /\ 0 <= img_height img < 2 ^ 32) ->
  png_write img fp p = Exc StructError (mk_easypng (compression p) (fp ++ png_signature)).
Proof.
  intros Hr. unfold png_write, out_write. rewrite !bind_modify. cbn [compression writes].
  unfold write_header, png_pack. rewrite bind_assoc.
  replace (pack_fields _) with (@None bytes); [done|]. symmetry. apply pack_fields_None.
  unfold pack_L. change (256 ^ Z.of_nat 4) with (2 ^ 32) in *.
  destruct (decide (0 <= img_width img < 2 ^ 32)).
  - rewrite (pack_uint_None 4 (img_height img)) by (change (256 ^ Z.of_nat 4) with (2 ^ 32); tauto).
    right. left.
  - rewrite (pack_uint_None 4 (img_width img)) by (change (256 ^ Z.of_nat 4) with (2 ^ 32); tauto).
    left.
Qed.
End Properties.

(** ** Instances with zlib at level 0 *)

(** The pixel of the spec's example: opaque red in ARGB order. *)
Definition red_argb : bytes := [Byte.xff; Byte.xff; Byte.x00; Byte.x00].

Lemma write_argb_data_scanlines_witness :
  write_argb_data 1 1 (Some red_argb) 4 (EasyPNG 0) =
    write_data (rgba_scanlines (Z.to_nat 1) (Z.to_nat 1) red_argb) (EasyPNG 0).
Proof. exact (write_argb_data_scanlines 1 1 red_argb 4 (EasyPNG 0) ltac:(simpl; lia)). Defined.

(** The spec's example: a 1x1 opaque red pixel gives a PNG whose IHDR
    says 1x1 and whose decompressed data is [00 FF 00 00 FF]. *)
Lemma png_write_decodes_witness :
  (exists p', png_write (mk_image 1 1 (Some red_argb) FmtARGB MLocal 4) [] (EasyPNG 0) = Ok tt p' /\
     png_decode (writes p') = Some (1, 1, rgba_scanlines (Z.to_nat 1) (Z.to_nat 1) red_argb)) /\
  rgba_scanlines 1 1 red_argb = [Byte.x00; Byte.xff; Byte.x00; Byte.x00; Byte.xff].
Proof.
  split; [|reflexivity].
  exact (png_write_decodes (mk_image 1 1 (Some red_argb) FmtARGB MLocal 4) red_argb (EasyPNG 0)
    eq_refl ltac:(simpl; lia) ltac:(simpl; lia) ltac:(simpl; lia) ltac:(vm_compute; reflexivity)).
Defined.

(** The spec's example of a 2x2 image with a 10-byte buffer. *)
Lemma png_write_short_buffer_witness :
  png_write (mk_image 2 2 (Some (replicate 10 Byte.x01)) FmtARGB MLocal 10) [] (EasyPNG 0) =
    Exc IndexError (mk_easypng (compression (EasyPNG 0)) ([] ++ png_signature ++ chunk tag_IHDR (ihdr 2 2))).
Proof.
  exact (png_write_short_buffer (mk_image 2 2 (Some (replicate 10 Byte.x01)) FmtARGB MLocal 10)
    (replicate 10 Byte.x01) [] (EasyPNG 0) eq_refl ltac:(simpl; lia) ltac:(simpl; lia) ltac:(simpl; lia)).
Defined.

(** A 2^32-pixel-wide image. *)
Lemma png_write_dims_range_witness :
  ~ (0 <= img_width (mk_image (2 ^ 32) 1 (Some red_argb) FmtARGB MLocal 4) < 2 ^ 32 /\
     0 <= img_height (mk_image (2 ^ 32) 1 (Some red_argb) FmtARGB MLocal 4) < 2 ^ 32) /\
  png_write (mk_image (2 ^ 32) 1 (Some red_argb) FmtARGB MLocal 4) [] (EasyPNG 0) =
    Exc StructError (mk_easypng (compression (EasyPNG 0)) ([] ++ png_signature)).
Proof.
  split; [simpl; lia|].
  exact (png_write_dims_range (mk_image (2 ^ 32) 1 (Some red_argb) FmtARGB MLocal 4) [] (EasyPNG 0)
    ltac:(simpl; lia)).
Defined.
