(* ===== verification/Console.v ===== *)
(** The world the exporter and the command-line block of
    src/scripts/itc.py act on: the file system, a finite map from file
    names to contents, and the console, the list of lines printed so
    far, each kept as the event it prints with the printed values (the
    strings themselves are Python's [%] formatting).  [say] is the
    [if not self.quiet: print(...)] of the exporter (lines 242-243,
    248-249, 347-349); [appends] states that a computation only appends
    to the console, and nothing when quiet. *)

From stdpp Require Import gmap.
From S2P Require Import Prelude ItcModel.

Open Scope Z_scope.

Abbreviation files := (gmap string bytes).

(** What the program prints. *)
Inductive event :=
| EHelp                                          (** line 392, [parser.print_help()] *)
| EInfo (filename : string)                      (** line 409 *)
| EImage (n w h : Z) (format : fmt) (method : meth) (len : Z)
    (** lines 348-349 and 412-414, which have the same format *)
| EExtractAll (filename : string)                (** line 243 *)
| EExtractOne (num : Z) (filename : string)      (** line 249 *)
| ECannotAddMany                                 (** line 418 *)
| EInvalidSize                                   (** line 427 *)
| EUnableToAdd (img filename : string) (e : exc) (** lines 429-430, with [exc.args[-1]] *)
| EError (e : exc).                              (** line 451, [exc.args[0]] *)

(** The file system and the console. *)
Record script := mk_script { sc_files : files; sc_out : list event }.

(** [print(...)]. *)
Definition emit (ev : event) : M script unit :=
  modify (fun s => mk_script (sc_files s) (sc_out s ++ [ev])).

(** [if not self.quiet: print(...)]. *)
Definition say (quiet : bool) (ev : event) : M script unit :=
  if quiet then ret tt else emit ev.

(** The file [name] now holds [d]. *)
Definition set_file (name : string) (d : bytes) (s : script) : script :=
  mk_script (<[name := d]> (sc_files s)) (sc_out s).

(** The line of a listing for image number [i + 1]. *)
Definition image_event (i : nat) (img : image) : event :=
  EImage (Z.of_nat i + 1) (img_width img) (img_height img) (img_format img) (img_method img) (img_size img).

(** The lines for the images [imgs], numbered from [i + 1]. *)
Fixpoint image_lines (i : nat) (imgs : list image) : list event :=
  match imgs with
  | [] => []
  | img :: imgs' => image_event i img :: image_lines (S i) imgs'
  end.

(** ** The state after printing *)

(** What is printed, unless quiet. *)
Definition quietly (q : bool) (evs : list event) : list event := if q then [] else evs.

(** The state after [say q ev]. *)
Definition said (q : bool) (ev : event) (s : script) : script :=
  mk_script (sc_files s) (sc_out s ++ quietly q [ev]).

(** [s] is [o] followed by the lines printed since, none if [q]. *)
Definition appends (q : bool) (o : list event) (s : script) : Prop :=
  exists l, sc_out s = o ++ l /\ (q = true -> l = []).

Lemma emit_run ev s : emit ev s = Ok tt (mk_script (sc_files s) (sc_out s ++ [ev])).
Proof. done. Qed.

Lemma say_run q ev s : say q ev s = Ok tt (said q ev s).
Proof. unfold said, say. destruct q; [|done]. cbn. by rewrite app_nil_r; destruct s. Qed.

Lemma script_eta s : mk_script (sc_files s) (sc_out s) = s.
Proof. by destruct s. Qed.

Lemma set_file_set_file name d d' s : set_file name d (set_file name d' s) = set_file name d s.
Proof. unfold set_file. cbn. by rewrite insert_insert_eq. Qed.

Lemma quietly_cons q ev evs : quietly q (ev :: evs) = quietly q [ev] ++ quietly q evs.
Proof. by destruct q. Qed.

Lemma quietly_nil q : quietly q [] = [].
Proof. by destruct q. Qed.

Lemma appends_start q s : appends q (sc_out s) s.
Proof. exists []. by rewrite app_nil_r. Qed.

Lemma appends_set_file q o name d s : appends q o s -> appends q o (set_file name d s).
Proof. done. Qed.

Lemma appends_said q o ev s : appends q o s -> appends q o (said q ev s).
Proof.
  intros (l & Hl & Hq). exists (l ++ quietly q [ev]). cbn. rewrite Hl, app_assoc.
  split; [done|]. intros ->. by rewrite Hq.
Qed.

Lemma preserves_say q o ev : preserves (appends q o) (say q ev).
Proof. intros s Hs. rewrite say_run. by apply appends_said. Qed.

Lemma raises_say P q ev : raises_only P (say q ev).
Proof. intros s e s'. by rewrite say_run. Qed.

#[export] Hint Resolve preserves_say appends_set_file : preserve.
#[export] Hint Resolve raises_say : raises.
