(* ===== verification/Export.v ===== *)
(** The exporter of [ITCFile] (src/scripts/itc.py): [export_image]
    (lines 233-251) and [_export_image_data] (lines 341-365).  The
    object is only read; the state is a [Console.script]: the files the
    exporter writes ([open(name, 'wb')] empties a file, [write] appends)
    and the lines it prints unless the object is quiet.  A raw ARGB
    payload is encoded by [EasyPNG] ([Png]); the other payloads are
    copied.  The file names are built with Python's ['%s-%02d']
    formatting. *)

From stdpp Require Import gmap pretty.
From Stdlib Require Import Ascii.
From S2P Require Import Prelude Struct PyFile ItcModel ItcWrite Zlib Png Console.

Open Scope Z_scope.

(** ** Files and names *)

(** [open(name, 'wb')]. *)
Definition fs_open (name : string) : M script unit := modify (set_file name []).

(** [fp.write(b)] on the open file [name]. *)
Definition fs_write (name : string) (b : bytes) : M script unit :=
  modify (fun s => set_file name (default [] (sc_files s !! name) ++ b) s).

(** ['%02d' % n]: the decimal digits, padded with a zero to two. *)
Definition fmt02d (n : Z) : string :=
  let s := pretty n in
  if decide (String.length s < 2)%nat then String "0"%char s else s.

(** ['%s-%02d' % (filename, n)]. *)
Definition name02 (fname : string) (n : Z) : string :=
  fname +:+ String "-"%char (fmt02d n).

(** Lines 351-355: the extension of the exported file. *)
Definition ext_of (format : fmt) : string :=
  match format with
  | FmtPNG | FmtARGB => ".png"
  | FmtJPEG => ".jpg"
  | _ => ""
  end.

Section Exporter.
Context `{Zlib}.
Variable f : itc.

(** [EasyPNG().write(img, fp)] on the open file [name]: the file holds
    what the encoder wrote, also when it raised. *)
Definition fs_png (name : string) (img : image) : M script unit :=
  fun s => match png_write img (default [] (sc_files s !! name)) (EasyPNG 0) with
           | Ok _ p => Ok tt (set_file name (writes p) s)
           | Exc e p => Exc e (set_file name (writes p) s)
           end.

(** [_export_image_data(filename, num)] (lines 341-365); [img[2]] is
    [None] after a metadata-only read, and [fp.write(None)] raises
    [TypeError]. *)
Definition export_image_data (fname : string) (num : Z) : M script unit :=
  img <- of_option IndexError (py_index (images f) num) ;;
  say (quiet f) (EImage (num + 1) (img_width img) (img_height img) (img_format img) (img_method img)
                        (img_size img)) ;;
  let name := fname +:+ ext_of (img_format img) in
  fs_open name ;;
  if decide (img_format img = FmtARGB) then fs_png name img
  else match img_data img with
       | Some d => fs_write name d
       | None => raise TypeError
       end.

(** [export_image(filename, num, all_)] (lines 233-251). *)
Definition export_image (fname : string) (num : Z) (all : bool) : M script unit :=
  let n := Z.of_nat (length (images f)) in
  if decide (num > n) then raise IndexError
  else if decide (num < 1) then raise IndexError
  else if all then
    say (quiet f) (EExtractAll fname) ;;
    for_each (zrange n) (fun x => export_image_data (name02 fname (x + 1)) x)
  else
    say (quiet f) (EExtractOne num fname) ;;
    export_image_data (name02 fname num) (num - 1).

End Exporter.

(** ** File names are distinct *)

Lemma string_app_cons c (s t : string) : String c s +:+ t = String c (s +:+ t).
Proof. reflexivity. Qed.

Lemma string_app_assoc (s1 s2 s3 : string) : s1 +:+ (s2 +:+ s3) = (s1 +:+ s2) +:+ s3.
Proof. induction s1 as [|c s1 IH]; [done|]. by rewrite !string_app_cons, IH. Qed.

Definition is_digit (c : ascii) : bool := (48 <=? nat_of_ascii c)%nat && (nat_of_ascii c <=? 57)%nat.

Fixpoint is_digits (s : string) : bool :=
  match s with
  | EmptyString => true
  | String c s' => is_digit c && is_digits s'
  end.

(** An extension of [ext_of]: empty or starting with a dot. *)
Definition ext_start (e : string) : bool :=
  match e with EmptyString => true | String c _ => bool_decide (c = "."%char) end.

Lemma ext_of_start format : ext_start (ext_of format) = true.
Proof. by destruct format. Qed.

Lemma is_digit_pretty_N_char x : is_digit (pretty_N_char x) = true.
Proof. unfold pretty_N_char. by repeat case_match. Qed.

Lemma is_digits_pretty_N_go x s : is_digits s = true -> is_digits (pretty_N_go x s) = true.
Proof.
  revert s. induction (N.lt_wf_0 x) as [x _ IH]; intros s Hs.
  destruct (decide (x = 0%N)) as [->|Hx]; [by rewrite pretty_N_go_0|].
  rewrite pretty_N_go_step by lia. apply IH; [apply N.div_lt; lia|].
  cbn. by rewrite is_digit_pretty_N_char, Hs.
Qed.

(** The decimal form of a positive number does not start with 0. *)
Lemma pretty_N_go_head x s : (0 < x)%N -> exists c s', pretty_N_go x s = String c s' /\ c <> "0"%char.
Proof.
  revert s. induction (N.lt_wf_0 x) as [x _ IH]; intros s Hx.
  rewrite pretty_N_go_step by done.
  destruct (decide (x < 10)%N) as [Hlt|Hge].
  - rewrite N.div_small, pretty_N_go_0 by done. eexists _, _. split; [done|].
    rewrite N.mod_small by done.
    assert (x = 1 ∨ x = 2 ∨ x = 3 ∨ x = 4 ∨ x = 5 ∨ x = 6 ∨ x = 7 ∨ x = 8 ∨ x = 9)%N
      as H19 by lia. by repeat destruct H19 as [->|H19]; try (subst; done).
  - apply IH; [apply N.div_lt; lia|]. apply N.div_str_pos. lia.
Qed.

Lemma pretty_pos_digits (n : Z) : 0 < n -> is_digits (pretty n) = true.
Proof.
  destruct n as [|p|p]; intros Hn; try lia.
  change (pretty (Z.pos p)) with (pretty_N (N.pos p)). unfold pretty_N.
  rewrite decide_False by done. by apply is_digits_pretty_N_go.
Qed.

Lemma pretty_pos_head (n : Z) : 0 < n -> exists c s', pretty n = String c s' /\ c <> "0"%char.
Proof.
  destruct n as [|p|p]; intros Hn; try lia.
  change (pretty (Z.pos p)) with (pretty_N (N.pos p)). unfold pretty_N.
  rewrite decide_False by done. by apply pretty_N_go_head.
Qed.

Lemma fmt02d_digits n : 0 < n -> is_digits (fmt02d n) = true.
Proof.
  intros Hn. unfold fmt02d. pose proof (pretty_pos_digits n Hn) as Hd.
  case_decide; [|done]. cbn [is_digits]. by rewrite Hd.
Qed.

Lemma fmt02d_inj a b : 0 < a -> 0 < b -> fmt02d a = fmt02d b -> a = b.
Proof.
  intros Ha Hb. unfold fmt02d.
  destruct (pretty_pos_head a Ha) as (ca & sa & Hpa & Hca), (pretty_pos_head b Hb) as (cb & sb & Hpb & Hcb).
  repeat case_decide; intros Heq; rewrite ?Hpa, ?Hpb in Heq; simplify_eq; try done;
    apply (inj pretty); congruence.
Qed.

(** Digits followed by an extension: the digits are determined. *)
Lemma digits_ext_cancel s1 s2 e1 e2 :
  is_digits s1 = true -> is_digits s2 = true -> ext_start e1 = true -> ext_start e2 = true ->
  s1 +:+ e1 = s2 +:+ e2 -> s1 = s2.
Proof.
  revert s2. induction s1 as [|c1 s1 IH]; intros [|c2 s2] H1 H2 He1 He2 Heq; try done.
  - change (EmptyString +:+ e1) with e1 in Heq. rewrite string_app_cons in Heq. subst e1.
    cbn in H2, He1. apply andb_prop in H2 as [Hc _]. apply bool_decide_eq_true in He1.
    subst. discriminate.
  - change (EmptyString +:+ e2) with e2 in Heq. rewrite string_app_cons in Heq. subst e2.
    cbn in H1, He2. apply andb_prop in H1 as [Hc _]. apply bool_decide_eq_true in He2.
    subst. discriminate.
  - rewrite !string_app_cons in Heq. simplify_eq. cbn in H1, H2.
    apply andb_prop in H1 as [_ H1]. apply andb_prop in H2 as [_ H2]. f_equal. by apply IH.
Qed.

Lemma name02_ext_inj fname a b e1 e2 :
  0 < a -> 0 < b -> ext_start e1 = true -> ext_start e2 = true ->
  name02 fname a +:+ e1 = name02 fname b +:+ e2 -> a = b.
Proof.
  intros Ha Hb He1 He2 Heq. unfold name02 in Heq. rewrite <- !string_app_assoc in Heq.
  apply (inj (String.append fname)) in Heq. rewrite !string_app_cons in Heq. simplify_eq.
  apply fmt02d_inj; [done | done |].
  exact (digits_ext_cancel _ _ e1 e2 (fmt02d_digits a Ha) (fmt02d_digits b Hb) He1 He2 Heq).
Qed.

(** ** What the exporter writes *)

Section ExportRun.
Context `{Zlib}.
Variable f : itc.

(** An image [_export_image_data] exports without an exception: it has
    a payload, and a raw ARGB one holds its pixels and fits the chunk
    length fields. *)
Definition export_ok (img : image) : Prop :=
  match img_data img with
  | None => False
  | Some d => img_format img = FmtARGB ->
      0 <= img_width img < 2 ^ 32 /\ 0 <= img_height img < 2 ^ 32 /\
      (4 * Z.to_nat (img_width img) * Z.to_nat (img_height img) <= length d)%nat /\
      Z.of_nat (length (zlib_compress 0
        (rgba_scanlines (Z.to_nat (img_width img)) (Z.to_nat (img_height img)) d))) < 2 ^ 32
  end.

(** The contents of the file exported for an image: the PNG encoding of
    an ARGB payload, any other payload as it is. *)
Definition exported (img : image) : bytes :=
  match img_data img with
  | Some d =>
      if decide (img_format img = FmtARGB)
      then png_file 0 (img_width img) (img_height img)
             (rgba_scanlines (Z.to_nat (img_width img)) (Z.to_nat (img_height img)) d)
      else d
  | None => []
  end.

Lemma export_image_data_ok fname i img s :
  images f !! i = Some img -> export_ok img ->
  export_image_data f fname (Z.of_nat i) s =
    Ok tt (set_file (fname +:+ ext_of (img_format img)) (exported img) (said (quiet f) (image_event i img) s)).
Proof.
  intros Hi Hok. unfold export_image_data.
  rewrite py_index_nonneg by (pose proof (lookup_lt_Some _ _ _ Hi); lia).
  rewrite Nat2Z.id, Hi, bind_of_option_Some. erewrite bind_Ok by apply say_run.
  unfold fs_open. rewrite bind_modify.
  unfold exported, export_ok in *. destruct (img_data img) as [d|] eqn:Hd; [|done].
  case_decide as Hf.
  - destruct (Hok Hf) as (Hw & Hh & Hl & Hz). unfold fs_png. cbn [set_file sc_files].
    rewrite lookup_insert_eq. cbn [default]. rewrite (png_write_ok img d [] (EasyPNG 0)) by done.
    by rewrite set_file_set_file.
  - unfold fs_write, modify. cbn [set_file sc_files]. rewrite lookup_insert_eq.
    by rewrite set_file_set_file.
Qed.

(** The name of the file exported for image [i] of [export_image(fname,
    all_=True)]. *)
Definition export_key (fname : string) (i : nat) (img : image) : string :=
  name02 fname (Z.of_nat i + 1) +:+ ext_of (img_format img).

(** What the loop over the images [is] does: image [i] is printed and
    exported. *)
Definition export_step (fname : string) (s : script) (i : nat) : script :=
  match images f !! i with
  | Some img => set_file (export_key fname i img) (exported img) (said (quiet f) (image_event i img) s)
  | None => s
  end.

(** The same loop, on the files only. *)
Definition export_file_step (fname : string) (m : files) (i : nat) : files :=
  match images f !! i with
  | Some img => <[export_key fname i img := exported img]> m
  | None => m
  end.

Lemma export_key_inj fname i j img img' :
  export_key fname i img = export_key fname j img' -> i = j.
Proof.
  unfold export_key. intros Heq.
  apply name02_ext_inj in Heq; [lia | lia | lia | apply ext_of_start ..].
Qed.

Lemma export_loop_ok fname a k s :
  (forall i, (a <= i < a + k)%nat -> exists img, images f !! i = Some img /\ export_ok img) ->
  for_each (map Z.of_nat (seq a k)) (fun x => export_image_data f (name02 fname (x + 1)) x) s =
    Ok tt (fold_left (export_step fname) (seq a k) s).
Proof.
  revert a s. induction k as [|k IH]; intros a s Hall; [done|].
  destruct (Hall a ltac:(lia)) as (img & Hi & Hok). cbn [seq map for_each fold_left].
  assert (export_step fname s a =
          set_file (export_key fname a img) (exported img) (said (quiet f) (image_event a img) s)) as ->
    by (unfold export_step; by rewrite Hi).
  erewrite bind_Ok by (by apply export_image_data_ok). apply IH. intros; apply Hall; lia.
Qed.

Lemma export_fold_files fname l s :
  sc_files (fold_left (export_step fname) l s) = fold_left (export_file_step fname) l (sc_files s).
Proof.
  revert s. induction l as [|i l IH]; intros s; [done|]. cbn [fold_left]. rewrite IH.
  f_equal. unfold export_step, export_file_step. by destruct (images f !! i).
Qed.

(** The loop over the images from [a] on prints their lines, unless
    quiet. *)
Lemma export_fold_out fname a k s :
  (a + k = length (images f))%nat ->
  sc_out (fold_left (export_step fname) (seq a k) s) =
    sc_out s ++ quietly (quiet f) (image_lines a (drop a (images f))).
Proof.
  revert a s. induction k as [|k IH]; intros a s Hk.
  - cbn. rewrite drop_ge by lia. cbn. by rewrite quietly_nil, app_nil_r.
  - destruct (lookup_lt_is_Some_2 (images f) a) as [img Hi]; [lia|].
    cbn [seq fold_left]. rewrite IH by lia. rewrite (drop_S _ _ _ Hi). cbn [image_lines].
    unfold export_step. rewrite Hi. cbn [set_file said sc_out]. by rewrite <- app_assoc, <- quietly_cons.
Qed.

(** The loop leaves alone the files it does not export to. *)
Lemma export_fold_other fname l m k :
  (forall i img, i ∈ l -> images f !! i = Some img -> export_key fname i img <> k) ->
  fold_left (export_file_step fname) l m !! k = m !! k.
Proof.
  revert m. induction l as [|i l IH]; intros m Hk; [done|]. cbn [fold_left].
  rewrite IH by (intros; apply Hk; [by right | done]).
  unfold export_file_step. destruct (images f !! i) eqn:Hi; [|done].
  apply lookup_insert_ne. apply (Hk i); [by left | done].
Qed.

Lemma export_fold_lookup fname l m j img :
  j ∈ l -> images f !! j = Some img ->
  fold_left (export_file_step fname) l m !! export_key fname j img = Some (exported img).
Proof.
  revert m. induction l as [|i l IH]; intros m Hj Himg; [by apply elem_of_nil in Hj|].
  cbn [fold_left]. destruct (decide (j ∈ l)) as [Hin|Hnin]; [by apply IH|].
  apply elem_of_cons in Hj as [->|]; [|done].
  rewrite export_fold_other.
  - unfold export_file_step. rewrite Himg. apply lookup_insert_eq.
  - intros i' img' Hi' _ Heq. apply export_key_inj in Heq. by subst.
Qed.
End ExportRun.

(** ** The exceptions of the exporter *)

Section Raises.
Context `{Zlib}.

Lemma export_exc_py e : e = IndexError \/ e = TypeError -> py_exc e.
Proof. intros [-> | ->]; split; discriminate. Qed.

#[local] Hint Resolve export_exc_py : raises.

Lemma fs_png_raises name img : raises_only py_exc (fs_png name img).
Proof.
  intros m e m'. unfold fs_png. destruct (png_write img _ (EasyPNG 0)) eqn:E; [done|].
  intros [= <- _]. by eapply png_write_raises.
Qed.

#[local] Hint Resolve fs_png_raises : raises.

(** [export_image] raises only Python exceptions: [IndexError],
    [TypeError], and those of [EasyPNG.write]. *)
Lemma export_image_raises f fname num all : raises_only py_exc (export_image f fname num all).
Proof.
  unfold export_image, export_image_data, fs_open, fs_write. solve_raises; auto with raises.
Qed.
End Raises.

(** ** Properties of the exporter *)

Section Properties.
Context `{Zlib}.

Lemma export_image_one f fname num img s :
  1 <= num <= Z.of_nat (length (images f)) -> images f !! Z.to_nat (num - 1) = Some img ->
  export_ok img ->
  export_image f fname num false s =
    Ok tt (set_file (name02 fname num +:+ ext_of (img_format img)) (exported img)
             (said (quiet f) (image_event (Z.to_nat (num - 1)) img) (said (quiet f) (EExtractOne num fname) s))).
Proof.
  intros Hn Hi Hok. unfold export_image.
  rewrite decide_False by lia. rewrite decide_False by lia. erewrite bind_Ok by apply say_run.
  set (i := Z.to_nat (num - 1)) in *. replace (num - 1) with (Z.of_nat i) by lia.
  by apply export_image_data_ok.
Qed.

(** C7: [export_image(filename, all_=True)] on writable images writes one
    file per image, named ['%s-%02d' % (filename, i + 1)] followed by the
    extension of its format, holding the payload (a raw ARGB payload
    encoded as PNG); the names are pairwise distinct, so no export
    overwrites another, and every other file is left as it was.  Unless
    the object is quiet it prints "Extracting all images from" the name,
    then one line per image, in order, numbered from 01. *)
Theorem export_all_files f fname s :
  images f <> [] -> Forall export_ok (images f) ->
  exists s', export_image f fname 1 true s = Ok tt s' /\
    (forall i img, images f !! i = Some img ->
       sc_files s' !! export_key fname i img = Some (exported img)) /\
    (forall k, (forall i img, images f !! i = Some img -> export_key fname i img <> k) ->
       sc_files s' !! k = sc_files s !! k) /\
    sc_out s' = sc_out s ++ quietly (quiet f) (EExtractAll fname :: image_lines 0 (images f)).
Proof.
  intros Hne Hall. assert (0 < length (images f))%nat by (destruct (images f); [done | cbn; lia]).
  unfold export_image. rewrite decide_False by lia. rewrite decide_False by lia.
  erewrite bind_Ok by apply say_run. unfold zrange. rewrite Nat2Z.id, export_loop_ok.
  - eexists. split; [done|]. rewrite export_fold_files. split_and!.
    + intros i img Hi. apply export_fold_lookup; [|done].
      apply elem_of_seq. pose proof (lookup_lt_Some _ _ _ Hi). lia.
    + intros k Hk. apply export_fold_other. intros i img _ Hi. by apply Hk.
    + rewrite export_fold_out by lia. cbn [said sc_out]. by rewrite drop_0, <- app_assoc, <- quietly_cons.
  - intros i Hi. destruct (lookup_lt_is_Some_2 (images f) i) as [img Himg]; [lia|].
    exists img. split; [done|]. by eapply Forall_lookup_1.
Qed.

(** [export_image] only appends to the console, and nothing when the
    object is quiet. *)
Lemma fs_png_appends q o name img : preserves (appends q o) (fs_png name img).
Proof. intros s Hs. unfold fs_png. by case_match. Qed.

#[local] Hint Resolve fs_png_appends : preserve.

Lemma export_image_appends f fname num all o :
  preserves (appends (quiet f) o) (export_image f fname num all).
Proof. unfold export_image, export_image_data, fs_open, fs_write. solve_preserves. Qed.

(** C25: The index checks of lines 234-239: a number above the number of
    images or below 1 raises [IndexError] before anything is printed or
    written, also when [all_] asks for every image (so exporting every
    image of a container without images raises). *)
Theorem export_image_rejects f fname num all s :
  (num > Z.of_nat (length (images f)) \/ num < 1) ->
  export_image f fname num all s = Exc IndexError s.
Proof.
  intros Hn. unfold export_image.
  destruct (decide (num > Z.of_nat (length (images f)))); [done|].
  rewrite decide_True by lia. done.
Qed.

(** C26: A payload-less record (after a metadata-only [read]) that is not
    ARGB: exporting it prints its lines, creates the file empty and
    raises [TypeError]. *)
Theorem export_image_no_payload f fname num img s :
  1 <= num <= Z.of_nat (length (images f)) -> images f !! Z.to_nat (num - 1) = Some img ->
  img_data img = None -> img_format img <> FmtARGB ->
  export_image f fname num false s =
    Exc TypeError (set_file (name02 fname num +:+ ext_of (img_format img)) []
      (said (quiet f) (image_event (Z.to_nat (num - 1)) img) (said (quiet f) (EExtractOne num fname) s))).
Proof.
  intros Hn Hi Hd Hf. unfold export_image, export_image_data.
  rewrite decide_False by lia. rewrite decide_False by lia. erewrite bind_Ok by apply say_run.
  rewrite py_index_nonneg by (pose proof (lookup_lt_Some _ _ _ Hi); lia).
  rewrite Hi, bind_of_option_Some. replace (num - 1 + 1) with (Z.of_nat (Z.to_nat (num - 1)) + 1) by lia.
  erewrite bind_Ok by apply say_run. unfold fs_open. rewrite bind_modify.
  by rewrite decide_False, Hd.
Qed.

(** C27: [add_image] on a .jpg file stores the format 'JPG', for which
    [_export_image_data] chooses no extension (it knows 'JPEG'): the
    added image is exported to a file without extension. *)
Theorem add_image_export_jpg fname contents w h f f' out s :
  lower (snd (splitext fname)) = ".jpg"%string -> add_image fname contents w h f = Ok tt f' ->
  let n := Z.of_nat (length (images f')) in
  exists s', export_image f' out n false s = Ok tt s' /\
    sc_files s' = <[name02 out n := contents]> (sc_files s).
Proof.
  intros Hj Hadd n. unfold add_image in Hadd. rewrite decide_True in Hadd by done.
  cbn in Hadd. unfold modify in Hadd. simplify_eq. subst n. cbn [images set_images]. rewrite length_app. cbn [length].
  rewrite export_image_one with (img := mk_image w h (Some contents) FmtJPG MLocal (Z.of_nat (length contents))).
  - eexists. split; [done|]. cbn. by rewrite string_append_empty_r.
  - cbn [images set_images]. rewrite length_app. cbn [length]. lia.
  - cbn [images set_images]. rewrite lookup_app_r by lia.
    by replace (Z.to_nat _ - length (images f))%nat with 0%nat by lia.
  - done.
Qed.
End Properties.

(** ** Instances *)

(** A container holding the spec's red ARGB pixel and a one-byte JPEG. *)
Definition sample_export : itc :=
  mk_itc "a.itc" None None
    [mk_image 1 1 (Some red_argb) FmtARGB MLocal 4; mk_image 3 4 (Some [Byte.x01]) FmtJPEG MLocal 1]
    ITUNES_9 false None false (open_read []) [].

Lemma sample_export_ok : Forall export_ok (images sample_export).
Proof.
  constructor; [|constructor; [|constructor]]; cbn; intros Hf; try discriminate.
  split_and!; simpl; lia.
Qed.

(** Nothing written, nothing printed. *)
Definition blank : script := mk_script ∅ [].

Lemma export_all_files_witness :
  exists s', export_image sample_export "cover" 1 true blank = Ok tt s' /\
    (forall i img, images sample_export !! i = Some img ->
       sc_files s' !! export_key "cover" i img = Some (exported img)) /\
    (forall k, (forall i img, images sample_export !! i = Some img -> export_key "cover" i img <> k) ->
       sc_files s' !! k = sc_files blank !! k) /\
    sc_out s' = sc_out blank ++ quietly (quiet sample_export)
                  (EExtractAll "cover" :: image_lines 0 (images sample_export)).
Proof. exact (export_all_files sample_export "cover" blank ltac:(discriminate) sample_export_ok). Defined.

Lemma export_image_rejects_witness :
  export_image (ITCFile ITUNES_9 false) "cover" 1 true blank = Exc IndexError blank.
Proof. exact (export_image_rejects (ITCFile ITUNES_9 false) "cover" 1 true blank ltac:(left; simpl; lia)). Defined.

Lemma export_image_no_payload_witness :
  export_image (set_images [mk_image 3 4 None FmtJPEG MLocal 1] (ITCFile ITUNES_9 false)) "cover" 1 false blank =
    Exc TypeError (set_file (name02 "cover" 1 +:+ ext_of (img_format (mk_image 3 4 None FmtJPEG MLocal 1))) []
      (said false (image_event (Z.to_nat (1 - 1)) (mk_image 3 4 None FmtJPEG MLocal 1))
        (said false (EExtractOne 1 "cover") blank))).
Proof.
  exact (export_image_no_payload (set_images [mk_image 3 4 None FmtJPEG MLocal 1] (ITCFile ITUNES_9 false))
    "cover" 1 (mk_image 3 4 None FmtJPEG MLocal 1) blank ltac:(simpl; lia) eq_refl eq_refl ltac:(discriminate)).
Defined.

Lemma add_image_export_jpg_witness :
  add_image "photo.JPG" [Byte.x01] 3 4 (ITCFile ITUNES_9 false) =
    Ok tt (set_images [mk_image 3 4 (Some [Byte.x01]) FmtJPG MLocal (Z.of_nat (length [Byte.x01]))]
             (ITCFile ITUNES_9 false)) /\
  (exists s', export_image (set_images [mk_image 3 4 (Some [Byte.x01]) FmtJPG MLocal (Z.of_nat (length [Byte.x01]))]
                  (ITCFile ITUNES_9 false)) "cover" 1 false blank = Ok tt s' /\
     sc_files s' = <[name02 "cover" 1 := [Byte.x01]]> (sc_files blank)) /\
  name02 "cover" 1 = "cover-01"%string.
Proof.
  split; [reflexivity|]. split; [|reflexivity].
  exact (add_image_export_jpg "photo.JPG" [Byte.x01] 3 4 (ITCFile ITUNES_9 false) _ "cover" blank
    eq_refl eq_refl).
Defined.
