(* ===== verification/Pipeline.v ===== *)
(** Two paths of the command-line block of src/scripts/itc.py, as
    compositions of the components: extraction (lines 405-406 and 446),
    where a fresh [ITCFile] reads the file and [export_image(name,
    all_=True)] writes every image (the reader's state is the object, the
    exporter's the files it writes and the console; the composition hands the object from
    the first to the second), and adding (lines 405-406 and 420-425):
    read, [add_image], [write].  Here [name], [img], [width] and
    [height] are parameters; [Cli] models the whole block, with the
    output name computed from the path (lines 434-443) and the parsing of
    IMGSPEC, and shows that its add path is [cli_add]. *)

From stdpp Require Import gmap.
From S2P Require Import Prelude Struct PyFile ItcModel ItcRead ItcWrite RoundTrip Zlib Png Console Export.

Open Scope Z_scope.

Section Extract.
Context `{Zlib}.

(** [itc = ITCFile(quiet=quiet); itc.read(filename, list_only=False);
    itc.export_image(name, all_=True)]; an exception of [read] ends the
    script before anything is written or printed. *)
Definition cli_extract (filename : string) (contents : bytes) (quiet : bool) (name : string)
    (fuel : nat) (s : script) : result script unit :=
  match read filename contents false fuel (ITCFile ITUNES_9 quiet) with
  | Ok _ g => export_image g name 1 true s
  | Exc e _ => Exc e s
  end.

End Extract.

(** The add path (lines 405-406 and 424-425, [list_only] being False
    there): [itc.read(filename)], [itc.add_image(img, width, height)],
    [itc.write()], whose bytes are the object's [ws].  Splitting IMGSPEC
    and the [int] conversions (lines 421-423) are argument parsing: [img],
    [width] and [height] are parameters, and [img_contents] is the file
    [img]; the exceptions caught at lines 426-430 are printed, and are
    the [Exc] outcomes. *)
Definition cli_add (filename : string) (contents : bytes) (quiet : bool) (img : string)
    (img_contents : bytes) (width height : Z) (fuel : nat) : result itc unit :=
  (read filename contents false fuel ;;
   add_image img img_contents width height ;;
   write "") (ITCFile ITUNES_9 quiet).

Lemma format_of_tag_ARGB t : format_of_tag t = FmtARGB -> t = tag_ARGb.
Proof. unfold format_of_tag. by repeat case_decide. Qed.

Section Run.
Context `{Zlib}.

(** The records of a well-formed container export to their payloads. *)
Lemma spec_image_export x :
  sp_ftag x <> tag_ARGb -> export_ok (spec_image false x) /\ exported (spec_image false x) = sp_data x.
Proof.
  intros Ht. unfold export_ok, exported. cbn.
  rewrite decide_False by (intros E; by apply Ht, format_of_tag_ARGB). split; [|done].
  intros E. by apply format_of_tag_ARGB in E.
Qed.

(** [export_image(name, all_=True)] on the records [map (spec_image
    false) xs]. *)
Lemma export_specs g name s xs :
  images g = map (spec_image false) xs -> Forall (fun x => sp_ftag x <> tag_ARGb) xs -> xs <> [] ->
  export_image g name 1 true s =
    Ok tt (fold_left (export_step g name) (seq 0 (length xs)) (said (quiet g) (EExtractAll name) s)).
Proof.
  intros Hg Hx Hne. assert (length (images g) = length xs) as Hl by (by rewrite Hg, length_map).
  assert (0 < length xs)%nat by (destruct xs; [done | cbn; lia]).
  unfold export_image. rewrite !decide_False by lia. erewrite bind_Ok by apply say_run.
  unfold zrange. rewrite Nat2Z.id, Hl. apply export_loop_ok. intros i Hi. destruct (lookup_lt_is_Some_2 xs i) as [x Hxi]; [lia|].
  exists (spec_image false x). rewrite Hg, list_lookup_fmap, Hxi. split; [done|].
  apply (spec_image_export x (Forall_lookup_1 _ _ _ _ Hx Hxi)).
Qed.
End Run.

(** ** The add path *)

Lemma add_image_png fname contents w h f :
  lower (snd (splitext fname)) = ".png"%string ->
  add_image fname contents w h f =
    Ok tt (set_images (images f ++
      [mk_image w h (Some contents) FmtPNG MLocal (Z.of_nat (length contents))]) f).
Proof. intros Hp. unfold add_image. rewrite Hp. reflexivity. Qed.

Section AddRun.
Variables (pre : bytes) (lib trk : Z) (skip : bytes).

(** A PNG record of a well-formed [ITUNES_9] frame is written back as
    it was read. *)
Lemma spec_image_png x :
  spec_ok ITUNES_9 pre lib trk skip x -> sp_ftag x = tag_PNGf -> method_of_tag (sp_mtag x) <> MNone ->
  rt_image (spec_image false x) /\ reread false (spec_image false x) = spec_image false x.
Proof.
  intros [Hok Hsz] Hf Hm. unfold rt_image, reread, img_writable, image_wire, spec_image. cbn.
  rewrite Hf. change (format_of_tag tag_PNGf) with FmtPNG. cbn.
  destruct (method_of_tag (sp_mtag x)); [..|done]; cbn;
    (split; [split; [split; [by eexists | split_and!; [lia | lia | apply Hok..]] | by intros ? [= <-]] | done]).
Qed.

Lemma new_png_rt w h contents :
  0 <= w < 2 ^ 32 -> 0 <= h < 2 ^ 32 -> Z.of_nat (length contents) + ITUNES_9 < 2 ^ 32 ->
  rt_image (mk_image w h (Some contents) FmtPNG MLocal (Z.of_nat (length contents))) /\
  reread false (mk_image w h (Some contents) FmtPNG MLocal (Z.of_nat (length contents))) =
    mk_image w h (Some contents) FmtPNG MLocal (Z.of_nat (length contents)).
Proof.
  intros Hw Hh Hc. unfold rt_image, img_writable, image_wire. cbn.
  split; [|done]. split; [split; [by eexists | unfold ITUNES_9 in *; split_and!; lia] | by intros ? [= <-]].
Qed.
End AddRun.

Section Properties.
Context `{Zlib}.

(** C8: extracting a well-formed container whose item frames hold
    PNG or JPEG payloads (any format tag but 'ARGb') writes, for the
    [i]-th frame, the file ['%s-%02d' % (name, i + 1)] with the extension
    of the frame's format, holding exactly the frame's payload bytes;
    every other file is left as it was. *)
Theorem cli_extract_files filename quiet name fuel s off pre lib trk skip size skip16 region xs tail :
  Forall (spec_ok off pre lib trk skip) xs -> Forall (fun x => sp_ftag x <> tag_ARGb) xs -> xs <> [] ->
  0 <= size < 256 ^ Z.of_nat 4 -> length skip16 = 16%nat -> length region = 256%nat ->
  (length tail < 8)%nat -> (length xs + 2 <= fuel)%nat ->
  let c := root_frame size skip16 region ++ concat (map (spec_frame off pre lib trk skip) xs) ++ tail in
  exists s', cli_extract filename c quiet name fuel s = Ok tt s' /\
    (forall i x, xs !! i = Some x ->
       sc_files s' !! (name02 name (Z.of_nat i + 1) +:+ ext_of (format_of_tag (sp_ftag x))) = Some (sp_data x)) /\
    (forall k, (forall i x, xs !! i = Some x ->
       name02 name (Z.of_nat i + 1) +:+ ext_of (format_of_tag (sp_ftag x)) <> k) ->
       sc_files s' !! k = sc_files s !! k).
Proof.
  intros Hok Hx Hne Hsz H16 H256 Htail Hfuel c. unfold cli_extract.
  subst c. rewrite read_container by done. cbv zeta.
  set (g := after_items _ _ _ _ _ _ _) in *.
  assert (images g = map (spec_image false) xs) as Hg by (subst g; by rewrite images_after_items).
  rewrite (export_specs g name s xs Hg Hx Hne). eexists. split; [done|].
  rewrite export_fold_files. split.
  - intros i x Hi. pose proof (Forall_lookup_1 _ _ _ _ Hx Hi) as Hxi.
    destruct (spec_image_export x Hxi) as [_ Hd]. rewrite <- Hd.
    apply (export_fold_lookup g name (seq 0 (length xs)) _ i (spec_image false x)).
    + apply elem_of_seq. pose proof (lookup_lt_Some _ _ _ Hi). lia.
    + by rewrite Hg, list_lookup_fmap, Hi.
  - intros k Hk. rewrite export_fold_other; [done|]. intros i img _ Hi.
    rewrite Hg, list_lookup_fmap in Hi. destruct (xs !! i) as [x|] eqn:Hxi; [|done].
    cbn in Hi. simplify_eq. apply (Hk i x Hxi).
Qed.
End Properties.

(** C9: adding a PNG image through the command line to a well-formed
    [ITUNES_9] container whose item frames hold PNG records reads the
    file, appends the image and writes the container back; reading the
    written file gives the records that were there, in order, followed by
    the added image, local, with its payload and its length. *)
Theorem cli_add_appends filename quiet img contents w h fuel fuel' pre lib trk skip size skip16 region xs tail :
  Forall (spec_ok ITUNES_9 pre lib trk skip) xs ->
  Forall (fun x => sp_ftag x = tag_PNGf /\ method_of_tag (sp_mtag x) <> MNone) xs -> xs <> [] ->
  0 <= size < 256 ^ Z.of_nat 4 -> length skip16 = 16%nat -> length region = 256%nat ->
  (length tail < 8)%nat -> (length xs + 2 <= fuel)%nat -> (length xs + 3 <= fuel')%nat ->
  filename <> ""%string -> lower (snd (splitext img)) = ".png"%string ->
  0 <= w < 2 ^ 32 -> 0 <= h < 2 ^ 32 -> Z.of_nat (length contents) + ITUNES_9 < 2 ^ 32 ->
  let c := root_frame size skip16 region ++ concat (map (spec_frame ITUNES_9 pre lib trk skip) xs) ++ tail in
  exists g g', cli_add filename c quiet img contents w h fuel = Ok tt g /\
    read filename (ws g) false fuel' (ITCFile ITUNES_9 quiet) = Ok tt g' /\
    images g' = map (spec_image false) xs ++
                [mk_image w h (Some contents) FmtPNG MLocal (Z.of_nat (length contents))].
Proof.
  intros Hok Hpng Hne Hsz H16 H256 Htail Hfuel Hfuel' Hname Hext Hw Hh Hc c.
  assert (length pre = 16%nat /\ 0 <= lib < 256 ^ Z.of_nat 8 /\ 0 <= trk < 256 ^ Z.of_nat 8)
    as (Hpre & Hlib & Htrk).
  { destruct xs as [|x xs]; [done|]. apply Forall_cons in Hok as [[[Hv Hl Ht] _] _].
    destruct Hv as [[_ ?]|[? _]]; [done | discriminate]. }
  set (new := mk_image w h (Some contents) FmtPNG MLocal (Z.of_nat (length contents))).
  destruct (new_png_rt w h contents Hw Hh Hc) as [Hnew Hnew'].
  set (imgs := map (spec_image false) xs ++ [new]).
  assert (Forall (fun i => rt_image i /\ reread false i = i) imgs) as Hall.
  { subst imgs. apply Forall_app. split; [|constructor; [exact (conj Hnew Hnew') | constructor]].
    rewrite Forall_map. apply Forall_forall. intros x Hx.
    destruct (proj1 (Forall_forall _ _) Hpng x Hx).
    apply (spec_image_png pre lib trk skip); [by eapply Forall_forall | done | done]. }
  assert (Forall rt_image imgs) as Hrt by (eapply Forall_impl; [exact Hall|]; by intros ? []).
  assert (map (reread false) imgs = imgs) as Hre.
  { rewrite <- (map_id imgs) at 2. apply map_ext_Forall. eapply Forall_impl; [exact Hall|]. by intros ? []. }
  unfold cli_add. subst c. erewrite bind_Ok by (rewrite read_container; done).
  cbv beta. erewrite bind_Ok by (by apply add_image_png). cbv beta.
  set (g1 := after_items _ _ _ _ _ _ _).
  assert (images g1 = map (spec_image false) xs) as Hi1 by (subst g1; by rewrite images_after_items).
  assert (library g1 = Some lib /\ track g1 = Some trk /\ image_offset g1 = ITUNES_9 /\
          info_preamble g1 = Some pre) as (Hl1 & Ht1 & Ho1 & Hp1) by (subst g1; by apply ids_after_items).
  rewrite Hi1. fold imgs.
  assert (Forall (img_writable ITUNES_9) imgs) as Hwr by (eapply Forall_impl; [exact Hrt|]; by intros ? []).
  rewrite (write_ok ITUNES_9 pre lib trk) by (done || (unfold ITUNES_9; lia) || (right; subst g1; by destruct xs)).
  eexists _, _. split; [done|]. cbn [ws set_ws]. rewrite written_layout by done.
  rewrite <- (app_nil_r (concat _)), read_container.
  - split; [done|]. rewrite images_after_items. cbn. rewrite map_map, <- Hre. apply map_ext_Forall.
    eapply Forall_impl; [exact Hrt|]. intros. by apply spec_image_of.
  - rewrite Forall_map. eapply Forall_impl; [exact Hrt|]. intros. by apply spec_of_ok.
  - done.
  - done.
  - done.
  - cbn. lia.
  - cbn [images set_images]. rewrite !length_map. subst imgs. rewrite length_app, length_map. cbn. lia.
Qed.

Lemma cli_extract_files_witness :
  exists s', cli_extract "a.itc" (root_frame 284 (replicate 16 Byte.x00) (replicate 256 Byte.x00) ++
      concat (map (spec_frame ITUNES_9 (replicate 16 Byte.x00) 1 2 (replicate 4 Byte.x00))
        [sample_spec; sample_spec]) ++ []) false "cover" 4 blank = Ok tt s' /\
    (forall i x, [sample_spec; sample_spec] !! i = Some x ->
       sc_files s' !! (name02 "cover" (Z.of_nat i + 1) +:+ ext_of (format_of_tag (sp_ftag x))) = Some (sp_data x)) /\
    (forall k, (forall i x, [sample_spec; sample_spec] !! i = Some x ->
       name02 "cover" (Z.of_nat i + 1) +:+ ext_of (format_of_tag (sp_ftag x)) <> k) ->
       sc_files s' !! k = sc_files blank !! k).
Proof.
  apply (cli_extract_files "a.itc" false "cover" 4 blank ITUNES_9 (replicate 16 Byte.x00) 1 2
           (replicate 4 Byte.x00) 284 (replicate 16 Byte.x00) (replicate 256 Byte.x00)
           [sample_spec; sample_spec] []).
  - repeat constructor; apply sample_spec_ok.
  - repeat constructor; intros E; vm_compute in E; discriminate.
  - discriminate.
  - simpl; lia.
  - reflexivity.
  - reflexivity.
  - simpl; lia.
  - simpl; lia.
Defined.

Lemma cli_add_appends_witness :
  exists g g', cli_add "a.itc" (root_frame 284 (replicate 16 Byte.x00) (replicate 256 Byte.x00) ++
      concat (map (spec_frame ITUNES_9 (replicate 16 Byte.x00) 1 2 (replicate 4 Byte.x00))
        [sample_spec]) ++ []) false "new.PNG" [Byte.x05; Byte.x06] 5 6 3 = Ok tt g /\
    read "a.itc" (ws g) false 4 (ITCFile ITUNES_9 false) = Ok tt g' /\
    images g' = map (spec_image false) [sample_spec] ++
                [mk_image 5 6 (Some [Byte.x05; Byte.x06]) FmtPNG MLocal (Z.of_nat (length [Byte.x05; Byte.x06]))].
Proof.
  apply (cli_add_appends "a.itc" false "new.PNG" [Byte.x05; Byte.x06] 5 6 3 4 (replicate 16 Byte.x00) 1 2
           (replicate 4 Byte.x00) 284 (replicate 16 Byte.x00) (replicate 256 Byte.x00) [sample_spec] []).
  - repeat constructor; apply sample_spec_ok.
  - repeat constructor; vm_compute; discriminate.
  - discriminate.
  - simpl; lia.
  - reflexivity.
  - reflexivity.
  - simpl; lia.
  - simpl; lia.
  - simpl; lia.
  - discriminate.
  - reflexivity.
  - lia.
  - lia.
  - unfold ITUNES_9; simpl; lia.
Defined.
