(* ===== verification/Cli.v ===== *)
(** The command-line block of src/scripts/itc.py (lines 377-451), for the
    files the glob patterns matched: each file that [can_handle] accepts
    is read, then listed ([-l]), added to ([-a IMGSPEC]) or exported
    (all images, or image [-n NUMBER]).  The script's state is a
    [Console.script], the file system and the console output, which it
    shares with the exporter; its outcome is the monad's: [SystemExit]
    after the add path, an uncaught exception (a traceback) otherwise.
    Python's [int], [str.split(':')], [os.path.split] and [os.path.join]
    are written out.  [script_main] is the block from [sys.argv] on
    (lines 391-400): the help for an empty command line, then the
    parser, a parameter (the options are a record, [OptionParser] is
    library code), and [glob.glob], the class [Glob] whose laws the
    theorems use. *)

From stdpp Require Import gmap pretty.
From Stdlib Require Import Ascii.
From S2P Require Import Prelude Struct PyFile ItcModel ItcRead ReadInv ItcWrite Zlib Png Console Export Pipeline.

Open Scope Z_scope.

(** ** Python's string helpers *)

(** The whitespace [str.strip] and [int] skip. *)
Definition is_space (c : ascii) : bool :=
  let n := nat_of_ascii c in (n =? 32)%nat || ((9 <=? n)%nat && (n <=? 13)%nat).

Fixpoint lstrip (l : list ascii) : list ascii :=
  match l with
  | c :: l' => if is_space c then lstrip l' else l
  | [] => []
  end.

Definition strip (l : list ascii) : list ascii := rev (lstrip (rev (lstrip l))).

Definition digit_val (c : ascii) : option Z :=
  let n := nat_of_ascii c in
  if (48 <=? n)%nat && (n <=? 57)%nat then Some (Z.of_nat n - 48) else None.

(** The value of a nonempty string of decimal digits. *)
Fixpoint digits_val (acc : Z) (l : list ascii) : option Z :=
  match l with
  | [] => Some acc
  | c :: l' => match digit_val c with Some d => digits_val (acc * 10 + d) l' | None => None end
  end.

Definition unsigned_val (l : list ascii) : option Z :=
  match l with [] => None | _ => digits_val 0 l end.

(** [int(s)] on a [str] in Python 2 ([PyInt_FromString] with
    [PyOS_strtol] and [PyOS_strtoul], or [PyLong_FromString] for large
    values): whitespace, an optional sign, whitespace again, decimal
    digits, whitespace; [None] is [ValueError]. *)
Definition py_int (s : string) : option Z :=
  match strip (String.list_ascii_of_string s) with
  | c :: ds =>
      if decide (c = "-"%char) then option_map Z.opp (unsigned_val (lstrip ds))
      else if decide (c = "+"%char) then unsigned_val (lstrip ds)
      else unsigned_val (c :: ds)
  | [] => None
  end.

(** [s.split(':')]. *)
Fixpoint split_colon (l : list ascii) : list (list ascii) :=
  match l with
  | [] => [[]]
  | c :: l' =>
      if decide (c = ":"%char) then [] :: split_colon l'
      else match split_colon l' with
           | p :: ps => (c :: p) :: ps
           | [] => [[c]]
           end
  end.

(** [img, width, height = spec.split(':')] and the two [int] calls of
    lines 421-423; [None] is the [ValueError] they raise. *)
Definition parse_imgspec (spec : string) : option (string * Z * Z) :=
  match split_colon (String.list_ascii_of_string spec) with
  | [img; w; h] =>
      match py_int (String.string_of_list_ascii w), py_int (String.string_of_list_ascii h) with
      | Some w', Some h' => Some (String.string_of_list_ascii img, w', h')
      | _, _ => None
      end
  | _ => None
  end.

Fixpoint rstrip_slash (l : list ascii) : list ascii :=
  match l with
  | [] => []
  | c :: l' => if decide (c = "/"%char) then rstrip_slash l' else l
  end.

(** [os.path.split(p)] ([posixpath.split]): the head up to the last
    slash, with its trailing slashes removed unless it is all slashes,
    and the tail after it. *)
Definition path_split (p : string) : string * string :=
  let l := String.list_ascii_of_string p in
  let i := Z.to_nat (rfind "/"%char l + 1) in
  let head := take i l in
  let tail := drop i l in
  let head'' := if existsb (fun c => negb (bool_decide (c = "/"%char))) head
                then rev (rstrip_slash (rev head)) else head in
  (String.string_of_list_ascii head'', String.string_of_list_ascii tail).

(** [os.path.join(a, b)] ([posixpath.join]). *)
Definition path_join (a b : string) : string :=
  match b with
  | String "/"%char _ => b
  | _ =>
      match rev (String.list_ascii_of_string a) with
      | [] => b
      | "/"%char :: _ => a +:+ b
      | _ => a +:+ String "/"%char b
      end
  end.

(** ** The script *)

(** The options of lines 383-389 ([-s] is parsed but never used).  [-n] has no type: its default is the
    integer -1, a given value is a [str]; [None] is the default. *)
Record options := mk_options {
  opt_list : bool;
  opt_number : option string;
  opt_basename : string;
  opt_directory : string;
  opt_add : string;
  opt_set : string;
  opt_quiet : bool;
}.

(** Lines 410-414: one line per image, numbered from 1. *)
Definition list_images (filename : string) (g : itc) : M script unit :=
  emit (EInfo filename) ;;
  for_each (zrange (Z.of_nat (length (images g)))) (fun x =>
    img <- of_option IndexError (py_index (images g) x) ;;
    emit (EImage (x + 1) (img_width img) (img_height img) (img_format img) (img_method img) (img_size img))).

(** [itc.add_image(img, width, height)] on the file [img] of [fs]: the
    extension is checked before [open(img, 'rb')] raises [IOError]. *)
Definition add_from (fs : files) (img : string) (w h : Z) : M itc unit :=
  match fs !! img with
  | Some d => add_image img d w h
  | None => fun g => match add_image img [] w h g with
                     | Exc e _ => Exc e g
                     | Ok _ _ => Exc IOError g
                     end
  end.

(** [itc.write()] to the file [filename]: [open(filename, 'wb')] happens
    after the filename check, so the file holds what was written, also
    when [_write_image] raised. *)
Definition write_to (filename : string) (g : itc) (s : script) : result script unit :=
  match write "" g with
  | Ok _ g' => Ok tt (set_file filename (ws g') s)
  | Exc (ITCException NoFilename) _ => Exc (ITCException NoFilename) s
  | Exc e g' => Exc e (set_file filename (ws g') s)
  end.

(** Lines 420-430: the [try] block of the add path with its two
    handlers. *)
Definition add_path (filename : string) (spec : string) (g : itc) : M script unit :=
  fun s =>
    match parse_imgspec spec with
    | None => emit EInvalidSize s
    | Some (img, w, h) =>
        match add_from (sc_files s) img w h g with
        | Exc e _ => emit (EUnableToAdd img filename e) s
        | Ok _ g1 =>
            match write_to filename g1 s with
            | Ok _ s' => Ok tt s'
            | Exc e s' => emit (EUnableToAdd img filename e) s'
            end
        end
    end.

(** Lines 434-443: the base name of the exported files. *)
Definition out_name (o : options) (filename : string) : string :=
  if decide (opt_basename o = ""%string) then
    let '(d, f) := path_split filename in
    let '(n, _) := splitext f in
    let d := if decide (opt_directory o = ""%string) then d else opt_directory o in
    path_join d n
  else opt_basename o.

(** Lines 445-451. *)
Definition export_path `{Zlib} (o : options) (filename : string) (g : itc) : M script unit :=
  let name := out_name o filename in
  match opt_number o with
  | None => export_image g name 1 true
  | Some s =>
      try_except (num <- of_option ValueError (py_int s) ;; export_image g name num false)
                 (fun e => emit (EError e))
  end.

(** Lines 403-451 for one file; [nfiles] is [len(files)]. *)
Definition cli_file `{Zlib} (o : options) (nfiles fuel : nat) (filename : string) : M script unit :=
  fs <- gets sc_files ;;
  contents <- of_option IOError (fs !! filename) ;;
  if can_handle contents then
    fun s => match read filename contents (opt_list o) fuel (ITCFile ITUNES_9 (opt_quiet o)) with
             | Exc e _ => Exc e s
             | Ok _ g =>
                 (if opt_list o then list_images filename g
                  else if decide (opt_add o <> ""%string) then
                    (if decide (1 < nfiles)%nat then emit ECannotAddMany else add_path filename (opt_add o) g) ;;
                    raise SystemExit
                  else export_path o filename g) s
             end
  else ret tt.

(** Lines 402-451 on the files the patterns matched. *)
Definition cli_main `{Zlib} (o : options) (fuel : nat) (matched : list string) : M script unit :=
  for_each matched (cli_file o (length matched) fuel).

(** ** The patterns *)

(** [glob.has_magic]: the pattern holds one of [*], [?], [[]. *)
Definition has_magic (p : string) : bool :=
  existsb (fun c => Ascii.eqb c "*" || Ascii.eqb c "?" || Ascii.eqb c "[")
          (String.list_ascii_of_string p).

(** [glob.glob(pattern)] on the file system, a library function the
    block only calls: its matches are files, in the order the directory
    listing gives them, and a pattern without magic characters matches
    the file of that name, if there is one ([os.path.lexists]).  The
    file system holds files only: a directory, which [glob] can return
    and on which [can_handle]'s [open] raises [IOError], is not
    modelled. *)
Class Glob := {
  glob : files -> string -> list string;
  glob_match fs p f : f ∈ glob fs p -> is_Some (fs !! f);
  glob_literal fs p : has_magic p = false -> glob fs p = if decide (is_Some (fs !! p)) then [p] else [];
}.

(** Lines 391-400: no argument at all prints the help and exits; then
    [parser.parse_args()], whose errors exit, and the expansion of every
    pattern, in order, before the first file is processed.  The parser
    is a parameter ([OptionParser] is library code), applied to
    [sys.argv[1:]]. *)
Definition script_main `{Zlib} `{Glob} (parse : list string -> option (options * list string))
    (fuel : nat) (argv : list string) : M script unit :=
  if decide (length argv = 1%nat) then emit EHelp ;; raise SystemExit
  else match parse (tail argv) with
       | None => raise SystemExit
       | Some (o, args) =>
           if decide (length args <> 0%nat) then
             fs <- gets sc_files ;;
             cli_main o fuel (concat (map (glob fs) args))
           else ret tt
       end.

(** ** [int] reads back what ['%d'] prints *)

Lemma lstrip_id l : Forall (fun c => is_space c = false) l -> lstrip l = l.
Proof. intros [|c l' Hc _]; [done|]. cbn. by rewrite Hc. Qed.

Lemma strip_id l : Forall (fun c => is_space c = false) l -> strip l = l.
Proof.
  intros Hl. unfold strip. rewrite (lstrip_id l Hl), lstrip_id; [apply rev_involutive|].
  by apply Forall_rev.
Qed.

Lemma is_digit_not_space c : is_digit c = true -> is_space c = false.
Proof.
  unfold is_digit, is_space. intros [H1 H2]%andb_prop. apply Nat.leb_le in H1, H2.
  apply orb_false_intro; [apply Nat.eqb_neq; lia|]. apply andb_false_intro2, Nat.leb_gt. lia.
Qed.

Lemma is_digits_not_space s : is_digits s = true -> Forall (fun c => is_space c = false) (String.list_ascii_of_string s).
Proof.
  induction s as [|c s IH]; cbn; [constructor|]. intros [Hc Hs]%andb_prop.
  constructor; [by apply is_digit_not_space | by apply IH].
Qed.

Lemma digit_val_pretty_N_char d : (d < 10)%N -> digit_val (pretty_N_char d) = Some (Z.of_N d).
Proof.
  intros Hd. assert (d = 0 \/ d = 1 \/ d = 2 \/ d = 3 \/ d = 4 \/ d = 5 \/ d = 6 \/ d = 7 \/ d = 8 \/ d = 9)%N
    as Hc by lia. by repeat destruct Hc as [->|Hc]; try (subst; reflexivity).
Qed.

(** Reading the decimal digits of [x] before [s] multiplies the
    accumulator by a power of ten and adds [x]. *)
Lemma digits_val_pretty_N_go x s : exists k, forall acc,
  digits_val acc (String.list_ascii_of_string (pretty_N_go x s)) =
  digits_val (acc * 10 ^ Z.of_nat k + Z.of_N x) (String.list_ascii_of_string s).
Proof.
  revert s. induction (N.lt_wf_0 x) as [x _ IH]; intros s.
  destruct (decide (x = 0%N)) as [->|Hx].
  - exists 0%nat. intros acc. rewrite pretty_N_go_0. f_equal. lia.
  - rewrite pretty_N_go_step by lia.
    destruct (IH (x `div` 10)%N ltac:(apply N.div_lt; lia) (String (pretty_N_char (x `mod` 10)) s)) as [k Hk].
    exists (S k). intros acc. rewrite Hk. cbn [String.list_ascii_of_string digits_val].
    rewrite digit_val_pretty_N_char by (apply N.mod_lt; lia). f_equal.
    rewrite N2Z.inj_div, N2Z.inj_mod. pose proof (Z.div_mod (Z.of_N x) 10 ltac:(lia)).
    rewrite Nat2Z.inj_succ, Z.pow_succ_r by lia. lia.
Qed.

Lemma digits_val_pretty_pos p : digits_val 0 (String.list_ascii_of_string (pretty (Z.pos p))) = Some (Z.pos p).
Proof.
  change (pretty (Z.pos p)) with (pretty_N (N.pos p)). unfold pretty_N. rewrite decide_False by done.
  destruct (digits_val_pretty_N_go (N.pos p) "") as [k Hk]. rewrite Hk. done.
Qed.


(** A file that starts with an "itch" frame header is handled. *)
Lemma can_handle_itch size rest : can_handle (frame_header size tag_itch ++ rest) = true.
Proof.
  unfold can_handle, frame_header. cbn -[be_split].
  rewrite <- app_assoc, drop_app_length' by (by rewrite length_be_split).
  rewrite take_app_length' by done. by apply bool_decide_eq_true.
Qed.

Lemma list_loop pre r s :
  for_each (map Z.of_nat (seq (length pre) (length r))) (fun x =>
    img <- of_option IndexError (py_index (pre ++ r) x) ;;
    emit (EImage (x + 1) (img_width img) (img_height img) (img_format img) (img_method img) (img_size img))) s =
  Ok tt (mk_script (sc_files s) (sc_out s ++ image_lines (length pre) r)).
Proof.
  revert pre s. induction r as [|x r IH]; intros pre s; cbn [seq map for_each length image_lines].
  - destruct s. cbn. by rewrite app_nil_r.
  - rewrite py_index_nonneg by (rewrite length_app; cbn; lia).
    rewrite Nat2Z.id, lookup_app_r, Nat.sub_diag by lia. cbn.
    replace (pre ++ x :: r) with ((pre ++ [x]) ++ r) by (by rewrite <- app_assoc).
    replace (S (length pre)) with (length (pre ++ [x])) by (rewrite length_app; cbn; lia).
    rewrite IH. cbn. by rewrite <- app_assoc.
Qed.

Lemma list_images_run f g s :
  list_images f g s = Ok tt (mk_script (sc_files s) (sc_out s ++ EInfo f :: image_lines 0 (images g))).
Proof.
  unfold list_images. erewrite bind_Ok by apply emit_run. unfold zrange. rewrite Nat2Z.id.
  pose proof (list_loop [] (images g) (mk_script (sc_files s) (sc_out s ++ [EInfo f]))) as E.
  cbn [app length] in E. rewrite E. cbn. by rewrite <- app_assoc.
Qed.

Section Run.
Context `{Zlib}.

(** One file the patterns matched, that [can_handle] accepts and that
    [read] decodes into the object [g]. *)
Lemma cli_file_read o n fuel f c g s :
  sc_files s !! f = Some c -> can_handle c = true ->
  read f c (opt_list o) fuel (ITCFile ITUNES_9 (opt_quiet o)) = Ok tt g ->
  cli_file o n fuel f s =
    (if opt_list o then list_images f g
     else if decide (opt_add o <> ""%string) then
       (if decide (1 < n)%nat then emit ECannotAddMany else add_path f (opt_add o) g) ;; raise SystemExit
     else export_path o f g) s.
Proof.
  intros Hf Hc Hr. unfold cli_file. rewrite bind_gets, Hf, bind_of_option_Some, Hc. by rewrite Hr.
Qed.

(** A file [read] rejects: its exception ends the script. *)
Lemma cli_file_read_exc o n fuel f c e g s :
  sc_files s !! f = Some c -> can_handle c = true ->
  read f c (opt_list o) fuel (ITCFile ITUNES_9 (opt_quiet o)) = Exc e g ->
  cli_file o n fuel f s = Exc e s.
Proof.
  intros Hf Hc Hr. unfold cli_file. rewrite bind_gets, Hf, bind_of_option_Some, Hc. by rewrite Hr.
Qed.

End Run.

Lemma cli_add_inv f c q img d w h fuel g :
  cli_add f c q img d w h fuel = Ok tt g ->
  exists g0 g1, read f c false fuel (ITCFile ITUNES_9 q) = Ok tt g0 /\
    add_image img d w h g0 = Ok tt g1 /\ write "" g1 = Ok tt g.
Proof.
  unfold cli_add, bind.
  destruct (read f c false fuel (ITCFile ITUNES_9 q)) as [[] g0|] eqn:E0; [|intros [=]].
  destruct (add_image img d w h g0) as [[] g1|] eqn:E1; [|intros [=]]. intros E. by exists g0, g1.
Qed.

Lemma parse_imgspec_nonempty spec x : parse_imgspec spec = Some x -> spec <> ""%string.
Proof. by intros Hp ->. Qed.

Section Properties.
Context `{Zlib}.

(** C12: [-l] on a well-formed container (a root frame, item frames, a
    short tail) prints the file name and one line per item frame, in
    file order and numbered from 01, with its width, height, format,
    storage and length, reading no payload and writing no file. *)
Theorem cli_list_container o fuel f s off pre lib trk skip size skip16 region xs tail :
  opt_list o = true ->
  sc_files s !! f = Some (root_frame size skip16 region ++
                          concat (map (spec_frame off pre lib trk skip) xs) ++ tail) ->
  Forall (spec_ok off pre lib trk skip) xs ->
  0 <= size < 256 ^ Z.of_nat 4 -> length skip16 = 16%nat -> length region = 256%nat ->
  (length tail < 8)%nat -> (length xs + 2 <= fuel)%nat ->
  cli_main o fuel [f] s =
    Ok tt (mk_script (sc_files s) (sc_out s ++ EInfo f :: image_lines 0 (map (spec_image true) xs))).
Proof.
  intros Hlo Hf Hok Hsz H16 H256 Htail Hfuel.
  pose proof (read_container f true fuel (ITCFile ITUNES_9 (opt_quiet o)) off pre lib trk skip size skip16
                region xs tail Hok Hsz H16 H256 Htail Hfuel) as Hr.
  cbv zeta in Hr. rewrite <- Hlo in Hr.
  unfold cli_main. cbn [for_each length]. unfold bind at 1.
  assert (Hc : can_handle (root_frame size skip16 region ++
                concat (map (spec_frame off pre lib trk skip) xs) ++ tail) = true)
    by (unfold root_frame; rewrite <- !app_assoc; apply can_handle_itch).
  rewrite (cli_file_read o 1 fuel f _ _ s Hf Hc Hr).
  rewrite Hlo, list_images_run, images_after_items. cbn. rewrite ?Hlo. done.
Qed.
(** C10: the add path of the script is [Pipeline.cli_add]: with one
    matched file and a well-formed IMGSPEC, the script reads the file,
    adds the image file's contents, writes the container back to the
    same file and exits ([sys.exit()]); nothing is printed. *)
Theorem cli_add_refines o fuel f c img d w h s g :
  opt_list o = false -> parse_imgspec (opt_add o) = Some (img, w, h) ->
  sc_files s !! f = Some c -> can_handle c = true -> sc_files s !! img = Some d ->
  cli_add f c (opt_quiet o) img d w h fuel = Ok tt g ->
  cli_main o fuel [f] s = Exc SystemExit (set_file f (ws g) s).
Proof.
  intros Hlo Hspec Hf Hc Hd Hadd. destruct (cli_add_inv _ _ _ _ _ _ _ _ _ Hadd) as (g0 & g1 & Hr & Ha & Hw).
  rewrite <- Hlo in Hr. unfold cli_main. cbn [for_each length]. unfold bind at 1.
  rewrite (cli_file_read o 1 fuel f c g0 s Hf Hc Hr), Hlo.
  rewrite decide_True by (by eapply parse_imgspec_nonempty). rewrite decide_False by lia.
  unfold bind at 1, add_path. rewrite Hspec. unfold add_from. rewrite Hd, Ha.
  unfold write_to. by rewrite Hw.
Qed.
(** C11: without [-l], [-a] and [-n], the script does on each file what
    [Pipeline.cli_extract] does: read the file, then export every image
    under the name computed from the path, printing what the exporter
    prints. *)
Theorem cli_export_refines o fuel f c s :
  opt_list o = false -> opt_add o = ""%string -> opt_number o = None ->
  sc_files s !! f = Some c -> can_handle c = true ->
  cli_main o fuel [f] s = cli_extract f c (opt_quiet o) (out_name o f) fuel s.
Proof.
  intros Hlo Hadd Hn Hf Hc. unfold cli_main, cli_extract. cbn [for_each].
  destruct (read f c false fuel (ITCFile ITUNES_9 (opt_quiet o))) as [[] g|e g] eqn:Hr;
    rewrite <- Hlo in Hr.
  - unfold bind at 1. rewrite (cli_file_read o _ fuel f c g s Hf Hc Hr), Hlo, decide_False by (by intros []).
    unfold export_path. rewrite Hn. by destruct (export_image g _ 1 true s) as [[]|].
  - unfold bind at 1. by rewrite (cli_file_read_exc o _ fuel f c e g s Hf Hc Hr).
Qed.

(** C30: [-a] with more than one matched file: after reading the first
    file the script prints "Cannot add image to multiple files" and exits;
    no file is written and the other files are not even read. *)
Theorem cli_add_many o fuel f rest c g s :
  opt_list o = false -> opt_add o <> ""%string -> rest <> [] ->
  sc_files s !! f = Some c -> can_handle c = true ->
  read f c false fuel (ITCFile ITUNES_9 (opt_quiet o)) = Ok tt g ->
  cli_main o fuel (f :: rest) s = Exc SystemExit (mk_script (sc_files s) (sc_out s ++ [ECannotAddMany])).
Proof.
  intros Hlo Hadd Hrest Hf Hc Hr. rewrite <- Hlo in Hr. unfold cli_main. cbn [for_each length].
  unfold bind at 1. rewrite (cli_file_read o _ fuel f c g s Hf Hc Hr), Hlo, decide_True by done.
  destruct rest; [done|]. by rewrite decide_True by (cbn; lia).
Qed.

(** C31: [-a IMGSPEC] where IMGSPEC is not [name:int:int]: the
    [ValueError] is caught, "Invalid width or height" is printed and the
    script exits without writing any file. *)
Theorem cli_add_bad_spec o fuel f c g s :
  opt_list o = false -> opt_add o <> ""%string -> parse_imgspec (opt_add o) = None ->
  sc_files s !! f = Some c -> can_handle c = true ->
  read f c false fuel (ITCFile ITUNES_9 (opt_quiet o)) = Ok tt g ->
  cli_main o fuel [f] s = Exc SystemExit (mk_script (sc_files s) (sc_out s ++ [EInvalidSize])).
Proof.
  intros Hlo Hadd Hspec Hf Hc Hr. rewrite <- Hlo in Hr. unfold cli_main. cbn [for_each length].
  unfold bind at 1. rewrite (cli_file_read o _ fuel f c g s Hf Hc Hr), Hlo, decide_True by done.
  rewrite decide_False by lia. unfold bind at 1, add_path. by rewrite Hspec.
Qed.

(** C28: the default export (no [-n]) of a container without images
    crashes: [export_image(name, all_=True)] checks its default [num=1]
    against the number of images and the [IndexError] is not caught, so
    the script stops with a traceback and the files after this one are
    not processed. *)
Theorem cli_export_empty_crashes o fuel f rest c g s :
  opt_list o = false -> opt_add o = ""%string -> opt_number o = None ->
  sc_files s !! f = Some c -> can_handle c = true ->
  read f c false fuel (ITCFile ITUNES_9 (opt_quiet o)) = Ok tt g -> images g = [] ->
  cli_main o fuel (f :: rest) s = Exc IndexError s.
Proof.
  intros Hlo Hadd Hn Hf Hc Hr Hg. rewrite <- Hlo in Hr. unfold cli_main. cbn [for_each].
  unfold bind at 1. rewrite (cli_file_read o _ fuel f c g s Hf Hc Hr), Hlo, decide_False by (by intros []).
  unfold export_path. rewrite Hn. unfold export_image. rewrite Hg.
  by rewrite decide_True by (cbn; lia).
Qed.

(** C29: [-n -1]: the option is the string '-1', never equal to the
    default integer -1, so the script asks for image -1, which
    [export_image] rejects; the [IndexError] is printed and no file is
    written, whatever the container holds (without [-n] every image is
    exported). *)
Theorem cli_number_minus_one o fuel f c g s :
  opt_list o = false -> opt_add o = ""%string -> opt_number o = Some "-1"%string ->
  sc_files s !! f = Some c -> can_handle c = true ->
  read f c false fuel (ITCFile ITUNES_9 (opt_quiet o)) = Ok tt g ->
  cli_main o fuel [f] s = Ok tt (mk_script (sc_files s) (sc_out s ++ [EError IndexError])).
Proof.
  intros Hlo Hadd Hn Hf Hc Hr. rewrite <- Hlo in Hr. unfold cli_main. cbn [for_each].
  unfold bind at 1. rewrite (cli_file_read o _ fuel f c g s Hf Hc Hr), Hlo, decide_False by (by intros []).
  unfold export_path. rewrite Hn. unfold try_except.
  replace (py_int "-1") with (Some (-1)) by reflexivity. rewrite bind_of_option_Some.
  unfold export_image. rewrite decide_False by lia. rewrite decide_True by lia.
  reflexivity.
Qed.
(** C21: with [-n NUMBER] every exception of the export, the [ValueError]
    of [int(NUMBER)] included, is caught (lines 449-451): the script goes
    on, whatever the container and the number, having only printed;
    with [-q] it printed at most one error line. *)
Theorem cli_number_never_crashes o fuel f c g s num :
  opt_list o = false -> opt_add o = ""%string -> opt_number o = Some num ->
  sc_files s !! f = Some c -> can_handle c = true ->
  read f c false fuel (ITCFile ITUNES_9 (opt_quiet o)) = Ok tt g ->
  exists s' l, cli_main o fuel [f] s = Ok tt s' /\ sc_out s' = sc_out s ++ l /\
    (opt_quiet o = true -> l = [] \/ exists e, py_exc e /\ l = [EError e]).
Proof.
  intros Hlo Hadd Hn Hf Hc Hr. rewrite <- Hlo in Hr.
  assert (Hq : quiet g = opt_quiet o) by (pose proof (read_quiet f c (opt_list o) fuel (ITCFile ITUNES_9 (opt_quiet o))) as Hq; by rewrite Hr in Hq).
  unfold cli_main. cbn [for_each].
  unfold bind at 1. rewrite (cli_file_read o _ fuel f c g s Hf Hc Hr), Hlo, decide_False by (by intros []).
  unfold export_path. rewrite Hn. unfold try_except.
  set (m := num <- of_option ValueError (py_int num) ;; export_image g (out_name o f) num false).
  assert (Hout : preserves (appends (quiet g) (sc_out s)) m).
  { subst m. apply preserves_bind_of_option. intros. apply export_image_appends. }
  assert (Hpy : raises_only py_exc m).
  { subst m. apply raises_bind; [apply raises_of_option; split; discriminate|].
    intros. apply export_image_raises. }
  pose proof (Hout s (appends_start _ s)) as (l & Hl & Hql). rewrite Hq in Hql.
  destruct (m s) as [[] s'|e s'] eqn:E; cbn in Hl.
  - exists s', l. split_and!; [done | done |]. intros Hqo. left. by apply Hql.
  - pose proof (Hpy s e s' E) as [He1 He2].
    rewrite decide_False by (intros [|]; contradiction).
    exists (mk_script (sc_files s') (sc_out s' ++ [EError e])), (l ++ [EError e]). cbn.
    split_and!; [done | by rewrite Hl, app_assoc |]. intros Hqo. right. exists e.
    rewrite (Hql Hqo). by split.
Qed.
Section Patterns.
Context `{Glob}.

(** C35: with no argument the script prints its help and exits without
    reading or writing any file; when the arguments hold no pattern it
    does nothing at all. *)
Theorem script_main_no_files parse fuel argv s :
  (length argv = 1%nat ->
   script_main parse fuel argv s = Exc SystemExit (mk_script (sc_files s) (sc_out s ++ [EHelp]))) /\
  (forall o, length argv <> 1%nat -> parse (tail argv) = Some (o, []) -> script_main parse fuel argv s = Ok tt s).
Proof.
  split.
  - intros Ha. unfold script_main. by rewrite decide_True.
  - intros o Ha Hp. unfold script_main. rewrite decide_False by done. rewrite Hp.
    by rewrite decide_False by (cbn; lia).
Qed.

(** Literal names expand to themselves when the file exists, to
    nothing otherwise. *)
Lemma glob_literals fs args :
  Forall (fun p => has_magic p = false) args ->
  concat (map (glob fs) args) = List.filter (fun p => bool_decide (is_Some (fs !! p))) args.
Proof.
  induction 1 as [|p args Hp _ IH]; [done|]. cbn [map concat List.filter].
  rewrite glob_literal, IH by done. by case_bool_decide; case_decide.
Qed.

(** C36: when every argument is a plain file name (no [*], [?] or [[]),
    the script processes exactly the named files that exist, in the
    order given and as often as they are named, each pattern expanded on
    the file system as it was before the first file is processed; a name
    of a missing file is skipped without a message. *)
Theorem script_main_literal parse fuel argv o args s :
  length argv <> 1%nat -> parse (tail argv) = Some (o, args) -> args <> [] ->
  Forall (fun p => has_magic p = false) args ->
  script_main parse fuel argv s =
    cli_main o fuel (List.filter (fun p => bool_decide (is_Some (sc_files s !! p))) args) s.
Proof.
  intros Ha Hp Hargs Hlit. unfold script_main. rewrite decide_False by done. rewrite Hp.
  rewrite decide_True by (destruct args; [done | cbn; lia]). rewrite bind_gets.
  by rewrite glob_literals.
Qed.

(** C37: naming one container twice with [-a] (or two patterns that both
    match it) makes [len(files)] 2: after reading it the script refuses
    to add, as for two different containers, and exits without writing. *)
Theorem script_add_same_file_twice parse fuel argv o f c g s :
  length argv <> 1%nat -> parse (tail argv) = Some (o, [f; f]) -> has_magic f = false ->
  opt_list o = false -> opt_add o <> ""%string -> sc_files s !! f = Some c -> can_handle c = true ->
  read f c false fuel (ITCFile ITUNES_9 (opt_quiet o)) = Ok tt g ->
  script_main parse fuel argv s = Exc SystemExit (mk_script (sc_files s) (sc_out s ++ [ECannotAddMany])).
Proof.
  intros Ha Hp Hm Hlo Hadd Hf Hc Hr. unfold script_main. rewrite decide_False by done. rewrite Hp.
  rewrite decide_True by (cbn; lia). rewrite bind_gets. cbn [map concat].
  rewrite (glob_literal _ f Hm), decide_True by (rewrite Hf; by eexists). cbn [app].
  rewrite <- Hlo in Hr. unfold cli_main. cbn [for_each length]. unfold bind at 1.
  rewrite (cli_file_read o _ fuel f c g s Hf Hc Hr), Hlo, decide_True by done.
  by rewrite decide_True by lia.
Qed.
End Patterns.

(** [int()] reads back every integer ['%d'] prints: [py_int] is a
    left inverse of Python's decimal formatting. *)
Lemma py_int_pretty z : py_int (pretty z) = Some z.
Proof.
  destruct z as [|p|p]; [reflexivity| |].
  - pose proof (pretty_pos_digits (Z.pos p) ltac:(lia)) as Hd.
    destruct (pretty_pos_head (Z.pos p) ltac:(lia)) as (c & s' & Hs & _).
    pose proof (digits_val_pretty_pos p) as Hv. unfold py_int.
    rewrite strip_id by (by apply is_digits_not_space). rewrite Hs in Hd, Hv |- *. cbn in Hd, Hv |- *.
    apply andb_prop in Hd as [Hc _].
    rewrite !decide_False by (intros ->; discriminate). done.
  - change (pretty (Z.neg p)) with (String "-" (pretty (Z.pos p))). unfold py_int.
    rewrite strip_id.
    + cbn [String.list_ascii_of_string]. rewrite decide_True by done.
      rewrite lstrip_id by (apply is_digits_not_space, pretty_pos_digits; lia).
      destruct (pretty_pos_head (Z.pos p) ltac:(lia)) as (c & s' & Hs & _).
      pose proof (digits_val_pretty_pos p) as Hv. rewrite Hs in Hv |- *. cbn in Hv |- *. by rewrite Hv.
    + constructor; [done|]. apply is_digits_not_space, pretty_pos_digits. lia.
Qed.

(** Python 2's [int] skips whitespace around the digits and after the
    sign, and nowhere else. *)
Lemma py_int_spaces :
  py_int " + 5 " = Some 5 /\ py_int "- 5" = Some (-5) /\ py_int "5 5" = None /\ py_int "+" = None.
Proof. split_and!; reflexivity. Qed.

(** C38: [-n NUMBER] where NUMBER is the decimal number of an image of
    the container (as the listing prints it, [int] reading back ['%d']):
    the script exports exactly that image, to ['%s-%02d' % (name,
    NUMBER)] with its extension, prints (unless quiet) the
    "Extracting image" line and the image's line, and leaves every other
    file as it was. *)
Theorem cli_number_exports o fuel f c g s k img :
  opt_list o = false -> opt_add o = ""%string -> opt_number o = Some (pretty k) ->
  sc_files s !! f = Some c -> can_handle c = true ->
  read f c false fuel (ITCFile ITUNES_9 (opt_quiet o)) = Ok tt g ->
  1 <= k <= Z.of_nat (length (images g)) -> images g !! Z.to_nat (k - 1) = Some img -> export_ok img ->
  cli_main o fuel [f] s =
    Ok tt (set_file (name02 (out_name o f) k +:+ ext_of (img_format img)) (exported img)
             (said (quiet g) (image_event (Z.to_nat (k - 1)) img)
                (said (quiet g) (EExtractOne k (out_name o f)) s))).
Proof.
  intros Hlo Hadd Hn Hf Hc Hr Hk Hi Hok. rewrite <- Hlo in Hr. unfold cli_main. cbn [for_each].
  unfold bind at 1. rewrite (cli_file_read o _ fuel f c g s Hf Hc Hr), Hlo, decide_False by (by intros []).
  unfold export_path. rewrite Hn. unfold try_except.
  rewrite py_int_pretty, bind_of_option_Some. by rewrite (export_image_one g _ k img).
Qed.

End Properties.

(** ** Instances *)

(** A container with one item frame, and one without any. *)
Definition sample_c : bytes :=
  root_frame 284 (replicate 16 Byte.x00) (replicate 256 Byte.x00) ++
  concat (map (spec_frame ITUNES_9 (replicate 16 Byte.x00) 1 2 (replicate 4 Byte.x00)) [sample_spec]) ++ [].

Definition empty_c : bytes := root_frame 284 (replicate 16 Byte.x00) (replicate 256 Byte.x00).

Definition sample_script : script :=
  mk_script (<["dir/a.itc" := sample_c]> (<["dir/b.itc" := empty_c]> (<["new.png" := [Byte.x07]]> ∅))) [].

Definition opts (lst : bool) (num : option string) (add : string) : options :=
  mk_options lst num "" "" add "" true.

Lemma cli_list_container_witness :
  cli_main (opts true None "") 3 ["dir/a.itc"] sample_script =
    Ok tt (mk_script (sc_files sample_script)
             (sc_out sample_script ++ EInfo "dir/a.itc" :: image_lines 0 (map (spec_image true) [sample_spec]))).
Proof.
  apply (cli_list_container (opts true None "") 3 "dir/a.itc" sample_script ITUNES_9 (replicate 16 Byte.x00) 1 2
           (replicate 4 Byte.x00) 284 (replicate 16 Byte.x00) (replicate 256 Byte.x00) [sample_spec] []);
    [reflexivity | reflexivity | repeat constructor; apply sample_spec_ok | simpl; lia
    | reflexivity | reflexivity | simpl; lia | simpl; lia].
Defined.

Lemma cli_add_refines_witness :
  exists g, cli_add "dir/a.itc" sample_c true "new.png" [Byte.x07] 5 6 3 = Ok tt g /\
    cli_main (opts false None "new.png:5:6") 3 ["dir/a.itc"] sample_script =
      Exc SystemExit (set_file "dir/a.itc" (ws g) sample_script).
Proof.
  destruct (cli_add "dir/a.itc" sample_c true "new.png" [Byte.x07] 5 6 3) as [[] g|e g] eqn:E;
    [|vm_compute in E; discriminate].
  exists g. split; [reflexivity|].
  exact (cli_add_refines (opts false None "new.png:5:6") 3 "dir/a.itc" sample_c "new.png" [Byte.x07] 5 6
           sample_script g eq_refl eq_refl eq_refl eq_refl eq_refl E).
Defined.

Lemma cli_add_many_witness :
  exists g, read "dir/a.itc" sample_c false 3 (ITCFile ITUNES_9 true) = Ok tt g /\
    cli_main (opts false None "new.png:5:6") 3 ["dir/a.itc"; "dir/b.itc"] sample_script =
      Exc SystemExit (mk_script (sc_files sample_script) (sc_out sample_script ++ [ECannotAddMany])).
Proof.
  destruct (read "dir/a.itc" sample_c false 3 (ITCFile ITUNES_9 true)) as [[] g|e g] eqn:E;
    [|vm_compute in E; discriminate].
  exists g. split; [reflexivity|].
  exact (cli_add_many (opts false None "new.png:5:6") 3 "dir/a.itc" ["dir/b.itc"] sample_c g sample_script
           eq_refl ltac:(discriminate) ltac:(discriminate) eq_refl eq_refl E).
Defined.

Lemma cli_add_bad_spec_witness :
  exists g, read "dir/a.itc" sample_c false 3 (ITCFile ITUNES_9 true) = Ok tt g /\
    cli_main (opts false None "new.png:five:6") 3 ["dir/a.itc"] sample_script =
      Exc SystemExit (mk_script (sc_files sample_script) (sc_out sample_script ++ [EInvalidSize])).
Proof.
  destruct (read "dir/a.itc" sample_c false 3 (ITCFile ITUNES_9 true)) as [[] g|e g] eqn:E;
    [|vm_compute in E; discriminate].
  exists g. split; [reflexivity|].
  exact (cli_add_bad_spec (opts false None "new.png:five:6") 3 "dir/a.itc" sample_c g sample_script
           eq_refl ltac:(discriminate) eq_refl eq_refl eq_refl E).
Defined.

Lemma cli_export_empty_crashes_witness :
  exists g, read "dir/b.itc" empty_c false 3 (ITCFile ITUNES_9 true) = Ok tt g /\ images g = [] /\
    cli_main (opts false None "") 3 ["dir/b.itc"; "dir/a.itc"] sample_script = Exc IndexError sample_script.
Proof.
  destruct (read "dir/b.itc" empty_c false 3 (ITCFile ITUNES_9 true)) as [[] g|e g] eqn:E;
    [|vm_compute in E; discriminate].
  assert (Hg : images g = []) by (vm_compute in E; by simplify_eq).
  exists g. split; [reflexivity|]. split; [done|].
  exact (cli_export_empty_crashes (opts false None "") 3 "dir/b.itc" ["dir/a.itc"] empty_c g sample_script
           eq_refl eq_refl eq_refl eq_refl eq_refl E Hg).
Defined.

Lemma cli_number_minus_one_witness :
  exists g, read "dir/a.itc" sample_c false 3 (ITCFile ITUNES_9 true) = Ok tt g /\
    cli_main (opts false (Some "-1") "") 3 ["dir/a.itc"] sample_script =
      Ok tt (mk_script (sc_files sample_script) (sc_out sample_script ++ [EError IndexError])).
Proof.
  destruct (read "dir/a.itc" sample_c false 3 (ITCFile ITUNES_9 true)) as [[] g|e g] eqn:E;
    [|vm_compute in E; discriminate].
  exists g. split; [reflexivity|].
  exact (cli_number_minus_one (opts false (Some "-1") "") 3 "dir/a.itc" sample_c g sample_script
           eq_refl eq_refl eq_refl eq_refl eq_refl E).
Defined.

Lemma cli_number_never_crashes_witness :
  exists g, read "dir/a.itc" sample_c false 3 (ITCFile ITUNES_9 true) = Ok tt g /\
    exists s' l, cli_main (opts false (Some "7") "") 3 ["dir/a.itc"] sample_script = Ok tt s' /\
      sc_out s' = sc_out sample_script ++ l /\
      (opt_quiet (opts false (Some "7") "") = true -> l = [] \/ exists e, py_exc e /\ l = [EError e]).
Proof.
  destruct (read "dir/a.itc" sample_c false 3 (ITCFile ITUNES_9 true)) as [[] g|e g] eqn:E;
    [|vm_compute in E; discriminate].
  exists g. split; [reflexivity|].
  exact (cli_number_never_crashes (opts false (Some "7") "") 3 "dir/a.itc" sample_c g sample_script "7"
           eq_refl eq_refl eq_refl eq_refl eq_refl E).
Defined.

Lemma cli_export_refines_witness :
  cli_main (opts false None "") 3 ["dir/a.itc"] sample_script =
    cli_extract "dir/a.itc" sample_c true (out_name (opts false None "") "dir/a.itc") 3 sample_script /\
  out_name (opts false None "") "dir/a.itc" = "dir/a"%string.
Proof.
  split; [|reflexivity].
  exact (cli_export_refines (opts false None "") 3 "dir/a.itc" sample_c sample_script
           eq_refl eq_refl eq_refl eq_refl eq_refl).
Defined.

(** A glob for the instances: [*] and [?] match within a path component,
    every other character stands for itself; the matches come in the
    order of the map's listing. *)
Fixpoint fnmatch (p s : list ascii) : bool :=
  match p with
  | [] => match s with [] => true | _ => false end
  | "*"%char :: p' =>
      (fix star (s : list ascii) : bool :=
         fnmatch p' s || match s with [] => false | c :: s' => negb (Ascii.eqb c "/") && star s' end) s
  | "?"%char :: p' => match s with [] => false | c :: s' => negb (Ascii.eqb c "/") && fnmatch p' s' end
  | c :: p' => match s with [] => false | c' :: s' => Ascii.eqb c c' && fnmatch p' s' end
  end.

Definition listing_glob (fs : files) (p : string) : list string :=
  if has_magic p
  then List.filter (fun k => fnmatch (String.list_ascii_of_string p) (String.list_ascii_of_string k))
         (map fst (map_to_list fs))
  else if decide (is_Some (fs !! p)) then [p] else [].

Lemma listing_glob_match fs p f : f ∈ listing_glob fs p -> is_Some (fs !! f).
Proof.
  unfold listing_glob. destruct (has_magic p).
  - intros [Hin _]%list_elem_of_In%filter_In. apply list_elem_of_In, list_elem_of_fmap in Hin as ([k v] & -> & Hkv).
    apply elem_of_map_to_list in Hkv. by exists v.
  - case_decide; [|by intros ?%elem_of_nil]. by intros ->%list_elem_of_singleton.
Qed.

Lemma listing_glob_literal fs p :
  has_magic p = false -> listing_glob fs p = if decide (is_Some (fs !! p)) then [p] else [].
Proof. unfold listing_glob. by intros ->. Qed.

#[local] Instance listing_Glob : Glob :=
  { glob := listing_glob; glob_match := listing_glob_match; glob_literal := listing_glob_literal }.

(** [parse_args] for the instances: [-a IMGSPEC] first, the rest are
    patterns. *)
Definition argv_parse (args : list string) : option (options * list string) :=
  match args with
  | "-a"%string :: spec :: rest => Some (opts false None spec, rest)
  | _ => Some (opts false None "", args)
  end.

Lemma script_main_no_files_witness :
  script_main argv_parse 3 ["itc.py"] sample_script =
    Exc SystemExit (mk_script (sc_files sample_script) (sc_out sample_script ++ [EHelp])) /\
  script_main argv_parse 3 ["itc.py"; "-a"; "new.png:5:6"] sample_script = Ok tt sample_script.
Proof.
  split.
  - exact (proj1 (script_main_no_files argv_parse 3 ["itc.py"] sample_script) eq_refl).
  - exact (proj2 (script_main_no_files argv_parse 3 ["itc.py"; "-a"; "new.png:5:6"] sample_script)
             (opts false None "new.png:5:6") ltac:(discriminate) eq_refl).
Defined.

Lemma script_main_literal_witness :
  script_main argv_parse 3 ["itc.py"; "dir/a.itc"; "missing.itc"; "dir/a.itc"] sample_script =
    cli_main (opts false None "") 3
      (List.filter (fun p => bool_decide (is_Some (sc_files sample_script !! p)))
         ["dir/a.itc"; "missing.itc"; "dir/a.itc"]) sample_script /\
  List.filter (fun p => bool_decide (is_Some (sc_files sample_script !! p)))
    ["dir/a.itc"; "missing.itc"; "dir/a.itc"] = ["dir/a.itc"; "dir/a.itc"].
Proof.
  split; [|vm_compute; reflexivity].
  exact (script_main_literal argv_parse 3 ["itc.py"; "dir/a.itc"; "missing.itc"; "dir/a.itc"] (opts false None "")
           ["dir/a.itc"; "missing.itc"; "dir/a.itc"] sample_script ltac:(discriminate) eq_refl ltac:(discriminate)
           ltac:(repeat constructor)).
Defined.

Lemma script_add_same_file_twice_witness :
  exists g, read "dir/a.itc" sample_c false 3 (ITCFile ITUNES_9 true) = Ok tt g /\
    script_main argv_parse 3 ["itc.py"; "-a"; "new.png:5:6"; "dir/a.itc"; "dir/a.itc"] sample_script =
      Exc SystemExit (mk_script (sc_files sample_script) (sc_out sample_script ++ [ECannotAddMany])).
Proof.
  destruct (read "dir/a.itc" sample_c false 3 (ITCFile ITUNES_9 true)) as [[] g|e g] eqn:E;
    [|vm_compute in E; discriminate].
  exists g. split; [reflexivity|].
  exact (script_add_same_file_twice argv_parse 3 ["itc.py"; "-a"; "new.png:5:6"; "dir/a.itc"; "dir/a.itc"]
           (opts false None "new.png:5:6") "dir/a.itc" sample_c g sample_script
           ltac:(discriminate) eq_refl eq_refl eq_refl ltac:(discriminate) eq_refl eq_refl E).
Defined.

Lemma cli_number_exports_witness :
  exists g, read "dir/a.itc" sample_c false 3 (ITCFile ITUNES_9 true) = Ok tt g /\
    images g = [spec_image false sample_spec] /\
    cli_main (opts false (Some (pretty 1)) "") 3 ["dir/a.itc"] sample_script =
      Ok tt (set_file (name02 (out_name (opts false (Some (pretty 1)) "") "dir/a.itc") 1 +:+
                       ext_of (img_format (spec_image false sample_spec))) (exported (spec_image false sample_spec))
               (said (quiet g) (image_event (Z.to_nat (1 - 1)) (spec_image false sample_spec))
                  (said (quiet g) (EExtractOne 1 (out_name (opts false (Some (pretty 1)) "") "dir/a.itc"))
                     sample_script))).
Proof.
  destruct (read "dir/a.itc" sample_c false 3 (ITCFile ITUNES_9 true)) as [[] g|e g] eqn:E;
    [|vm_compute in E; discriminate].
  assert (Hg : images g = [spec_image false sample_spec]) by (vm_compute in E; by simplify_eq).
  exists g. split; [reflexivity|]. split; [done|].
  exact (cli_number_exports (opts false (Some (pretty 1)) "") 3 "dir/a.itc" sample_c g sample_script 1
           (spec_image false sample_spec) eq_refl eq_refl eq_refl eq_refl eq_refl E
           ltac:(rewrite Hg; simpl; lia) ltac:(rewrite Hg; reflexivity) ltac:(intros Hf; discriminate)).
Defined.
